(** * kdbg: a thread-local kernel debugger built on hardware breakpoints

    Shallow embedding of [async_wake_ios/kdbg.c] and proofs about the
    exception-return forger, the privileged-call proxy, the breakpoint
    lifecycle and the stuck-thread monitor.

    Conventions.  A [uint64_t] is a [Z] in [0, 2^64) with the wrap-around
    written out ([wrap64]); a [uint32_t] likewise ([wrap32]).  Kernel memory
    is byte addressed, little endian, over the circular 64-bit address
    space.  A C struct that the code copies with [kmemcpy] or reaches through
    a pointer cast is the byte buffer it occupies, with field accessors at
    the offsets of its layout.  Calls into the kernel, the allocator, the
    scheduler and stdio are threaded through an explicit [world] by a small
    state monad that also records them in a log. *)

From Stdlib Require Import ZArith Lia Bool String.
From stdpp Require Import base numbers list.

Local Open Scope Z_scope.

(* ================================================================== *)
(** * Part I: definitions *)
(* ================================================================== *)

(** ** Machine integers *)

Definition wrap64 (z : Z) : Z := z mod 2 ^ 64.
Definition wrap32 (z : Z) : Z := z mod 2 ^ 32.

(** [uint64_t] addition. *)
Definition add64 (a b : Z) : Z := wrap64 (a + b).

(** ** Little-endian byte strings *)

Fixpoint le_encode (n : nat) (v : Z) : list Z :=
  match n with
  | O => []
  | S n' => v mod 256 :: le_encode n' (v / 256)
  end.

Fixpoint le_decode (bs : list Z) : Z :=
  match bs with
  | [] => 0
  | b :: bs' => b + 256 * le_decode bs'
  end.

Definition is_byte (b : Z) : Prop := 0 <= b < 256.

(** ** Kernel memory

    Modelled from the spec: the kernel memory access collaborator of
    [kmem.h] ([rk64], [rk32], [wk64], [wk32], [kmemcpy]) is not part of this
    file's source; the spec gives its contract as [read64/32(address)],
    [write64/32(address, value)] and [copy(dst, src, length)] with no
    alignment or bounds guarantees.  Memory is a total map from addresses to
    bytes; an address is taken modulo [2^64]. *)

Definition kmem := Z -> Z.

Definition load8 (m : kmem) (a : Z) : Z := m (wrap64 a) mod 256.

(** [n] bytes starting at [a]. *)
Definition load_bytes (m : kmem) (a : Z) (n : nat) : list Z :=
  map (fun k : nat => load8 m (a + Z.of_nat k)) (seq 0 n).

(** The bytes [bs] stored from [a] on: address [x] is overwritten when its
    distance from [a], going up around the address space, is below the
    length of [bs]. *)
Definition store_bytes (m : kmem) (a : Z) (bs : list Z) : kmem :=
  fun x =>
    let d := wrap64 (x - a) in
    if d <? Z.of_nat (length bs) then default (m x) (bs !! Z.to_nat d)
    else m x.

Definition load64 (m : kmem) (a : Z) : Z := le_decode (load_bytes m a 8).
Definition load32 (m : kmem) (a : Z) : Z := le_decode (load_bytes m a 4).
Definition store64 (m : kmem) (a v : Z) : kmem := store_bytes m a (le_encode 8 v).
Definition store32 (m : kmem) (a v : Z) : kmem := store_bytes m a (le_encode 4 v).

(** Address [x] lies outside the [n] bytes that start at [a]. *)
Definition outside (a : Z) (n : nat) (x : Z) : Prop :=
  Z.of_nat n <= wrap64 (x - a).

(** The [n] bytes at [b] do not meet the [len] bytes at [a]. *)
Definition apart (a : Z) (len : nat) (b : Z) (n : nat) : Prop :=
  Z.of_nat len <= wrap64 (b - a) /\ wrap64 (b - a) + Z.of_nat n <= 2 ^ 64.

(** ** Local buffers: fields of a struct held in user memory *)

Definition get_le (n : nat) (buf : list Z) (off : nat) : Z :=
  le_decode (take n (drop off buf)).

Definition set_le (n : nat) (buf : list Z) (off : nat) (v : Z) : list Z :=
  list_inserts off (le_encode n v) buf.

Definition get64 := get_le 8.
Definition get32 := get_le 4.
Definition set64 := set_le 8.
Definition set32 := set_le 4.

(** A struct of [n] bytes, well formed. *)
Definition wf_buf (n : nat) (buf : list Z) : Prop :=
  length buf = n /\ Forall is_byte buf.


(** ** Kernel symbols and structure offsets ([symbols.h]) *)

Inductive ksymbol : Set :=
  | KSYMBOL_CPU_DATA_ENTRIES
  | KSYMBOL_VALID_LINK_REGISTER
  | KSYMBOL_X21_JOP_GADGET
  | KSYMBOL_EXCEPTION_RETURN
  | KSYMBOL_THREAD_EXCEPTION_RETURN
  | KSYMBOL_SET_MDSCR_EL1_GADGET
  | KSYMBOL_SLEH_SYNC_EPILOG
  | KSYMBOL_EL1_HW_BP_INFINITE_LOOP
  | KSYMBOL_WRITE_SYSCALL_ENTRYPOINT.

Inductive kstruct_offset : Set :=
  | KSTRUCT_OFFSET_IPC_PORT_IP_KOBJECT
  | KSTRUCT_OFFSET_THREAD_KSTACKPTR
  | KSTRUCT_OFFSET_THREAD_CONTEXT_DATA
  | KSTRUCT_OFFSET_THREAD_BOUND_PROCESSOR
  | KSTRUCT_OFFSET_THREAD_CHOSEN_PROCESSOR
  | KSTRUCT_OFFSET_CPU_DATA_CPU_PROCESSOR.

(** [struct arm64_debug_state] as far as the code touches it: the
    breakpoint value and control registers. *)
Record arm64_debug_state : Type := {
  bvr : list Z;
  bcr : list Z
}.

(** ** The environment

    Everything [kdbg.c] takes from headers and collaborators that are not in
    its source: the layout of [arm_context_t] and the flavor constants
    ([arm64_state.h]), the debug-state offsets, symbol and offset resolution
    ([symbols.h]), thread and port lookup, the bootstrap allocator, the
    host's debug-register interface, and what the rest of the system does
    while the calling thread is off its core. *)
Record environment : Type := {
  (* arm64_state.h *)
  ARM_SAVED_STATE64 : Z;
  ARM_SAVED_STATE64_COUNT : Z;
  sizeof_arm_context_t : nat;
  off_flavor : nat;        (* offsetof(arm_context_t, ss.ash.flavor) *)
  off_x : nat;             (* offsetof(arm_context_t, ss.ss_64.x) *)
  off_sp : nat;            (* offsetof(arm_context_t, ss.ss_64.sp) *)
  off_pc : nat;            (* offsetof(arm_context_t, ss.ss_64.pc) *)
  off_cpsr : nat;          (* offsetof(arm_context_t, ss.ss_64.cpsr) *)
  (* debug state of a thread *)
  ACT_DEBUGDATA_OFFSET : Z;
  off_bvr0 : Z;            (* offsetof(struct arm_debug_aggregate_state, ds64.bvr[0]) *)
  off_bcr0 : Z;            (* offsetof(struct arm_debug_aggregate_state, ds64.bcr[0]) *)
  (* symbols.h *)
  ksym : ksymbol -> Z;
  koffset : kstruct_offset -> Z;
  (* kutils.h, find_port.h, early_kalloc.h, libc *)
  current_thread : Z;
  mach_thread_self : Z;
  find_port_address : Z -> Z -> Z;
  early_kalloc_nth : nat -> Z -> Z;   (* result of the n-th call, by size *)
  strdup_result : Z;
  (* the host's debug-register interface *)
  host_thread_set_state : kmem -> Z -> arm64_debug_state -> kmem;
  host_thread_get_state : kmem -> Z -> arm64_debug_state;
  (* the words of the monitor's own frame that follow [stack[127]] *)
  frame_beyond : nat -> Z;
  (* the k-th time this thread leaves the core or enters the kernel: what
     the other threads do to kernel memory and to [syscall_complete] *)
  other_threads : nat -> kmem * bool -> kmem * bool
}.

(** ** Observable actions *)

Inductive event : Type :=
  | EvPrintf (fmt : string) (args : list Z)
  | EvRk64 (addr : Z)
  | EvRk32 (addr : Z)
  | EvWk64 (addr v : Z)
  | EvWk32 (addr v : Z)
  | EvKmemcpyFrom (src : Z) (n : nat)            (* kernel to user *)
  | EvKmemcpyTo (dst : Z) (bytes : list Z)       (* user to kernel *)
  | EvEarlyKalloc (size addr : Z)
  | EvKcall (fn : Z) (args : list Z)
  | EvSleep (seconds : Z)
  | EvThreadSwitch (port : Z)
  | EvSwtchPri
  | EvCallback (context : list Z)
  | EvThreadSetState (port : Z) (st : arm64_debug_state)
  | EvThreadGetState (port : Z)
  | EvPthreadCreate (port breakpoint : Z)
  | EvPthreadJoin.

(** ** The world and its monad *)

Record world : Type := {
  wmem : kmem;                 (* kernel memory *)
  syscall_complete : bool;     (* volatile int syscall_complete *)
  kernel_leak : Z;             (* extern uint64_t kernel_leak *)
  wheap : nat;                 (* calls of early_kalloc so far *)
  wclock : nat;                (* scheduling points so far *)
  wlog : list event
}.

Definition M (A : Type) : Type := world -> A * world.

Definition ret {A} (a : A) : M A := fun w => (a, w).

Definition bind {A B} (c : M A) (k : A -> M B) : M B :=
  fun w => let (a, w') := c w in k a w'.

Declare Scope kdbg_scope.
Delimit Scope kdbg_scope with kdbg.
Notation "x <- c ;; k" := (bind c (fun x => k))
  (at level 20, c at level 99, k at level 200, only parsing) : kdbg_scope.
Notation "c ;; k" := (bind c (fun _ => k))
  (at level 100, k at level 200, only parsing, right associativity) : kdbg_scope.

Definition with_mem (w : world) (m : kmem) : world :=
  {| wmem := m; syscall_complete := syscall_complete w;
     kernel_leak := kernel_leak w; wheap := wheap w; wclock := wclock w;
     wlog := wlog w |}.

Definition logged (w : world) (e : event) : world :=
  {| wmem := wmem w; syscall_complete := syscall_complete w;
     kernel_leak := kernel_leak w; wheap := wheap w; wclock := wclock w;
     wlog := wlog w ++ [e] |}.

Definition emit (e : event) : M unit := fun w => (tt, logged w e).

Definition emit_all (es : list event) : M unit :=
  fun w => (tt, foldl logged w es).

Definition get_mem : M kmem := fun w => (wmem w, w).
Definition put_mem (m : kmem) : M unit := fun w => (tt, with_mem w m).

Definition read_syscall_complete : M bool := fun w => (syscall_complete w, w).

Definition write_syscall_complete (b : bool) : M unit :=
  fun w => (tt, {| wmem := wmem w; syscall_complete := b;
                   kernel_leak := kernel_leak w; wheap := wheap w;
                   wclock := wclock w; wlog := wlog w |}).

Definition write_kernel_leak (v : Z) : M unit :=
  fun w => (tt, {| wmem := wmem w; syscall_complete := syscall_complete w;
                   kernel_leak := v; wheap := wheap w;
                   wclock := wclock w; wlog := wlog w |}).

Definition when (b : bool) (c : M unit) : M unit := if b then c else ret tt.

Definition printf (fmt : string) (args : list Z) : M unit := emit (EvPrintf fmt args).

Section Model.

Context (E : environment).
Local Open Scope kdbg_scope.

(** *** Collaborators, as actions on the world *)

Definition rk64 (a : Z) : M Z :=
  emit (EvRk64 a) ;; m <- get_mem ;; ret (load64 m a).

Definition rk32 (a : Z) : M Z :=
  emit (EvRk32 a) ;; m <- get_mem ;; ret (load32 m a).

Definition wk64 (a v : Z) : M unit :=
  emit (EvWk64 a v) ;; m <- get_mem ;; put_mem (store64 m a v).

Definition wk32 (a v : Z) : M unit :=
  emit (EvWk32 a v) ;; m <- get_mem ;; put_mem (store32 m a v).

(** [kmemcpy(user_dst, kernel_src, n)]. *)
Definition kmemcpy_from (src : Z) (n : nat) : M (list Z) :=
  emit (EvKmemcpyFrom src n) ;; m <- get_mem ;; ret (load_bytes m src n).

(** [kmemcpy(kernel_dst, user_src, n)]: the first [n] bytes of [buf]. *)
Definition kmemcpy_to (dst : Z) (buf : list Z) (n : nat) : M unit :=
  emit (EvKmemcpyTo dst (take n buf)) ;;
  m <- get_mem ;; put_mem (store_bytes m dst (take n buf)).

Definition early_kalloc (size : Z) : M Z :=
  fun w =>
    let a := early_kalloc_nth E (wheap w) size in
    (a, {| wmem := wmem w; syscall_complete := syscall_complete w;
           kernel_leak := kernel_leak w; wheap := S (wheap w);
           wclock := wclock w;
           wlog := wlog w ++ [EvEarlyKalloc size a] |}).

(** The calling thread is off its core, or in the kernel: the others run. *)
Definition off_core : M unit :=
  fun w =>
    let (m, c) := other_threads E (wclock w) (wmem w, syscall_complete w) in
    (tt, {| wmem := m; syscall_complete := c;
            kernel_leak := kernel_leak w; wheap := wheap w;
            wclock := S (wclock w); wlog := wlog w |}).

Definition kcall (fn : Z) (args : list Z) : M unit :=
  emit (EvKcall fn args) ;; off_core.

Definition sleep (seconds : Z) : M unit := emit (EvSleep seconds) ;; off_core.
Definition thread_switch (port : Z) : M unit := emit (EvThreadSwitch port) ;; off_core.
Definition swtch_pri : M unit := emit EvSwtchPri ;; off_core.

(** [pthread_join(th, NULL)]: the caller blocks until the monitor thread
    has returned; meanwhile the other threads run. *)
Definition pthread_join : M unit := emit EvPthreadJoin ;; off_core.

Definition thread_set_state (port : Z) (st : arm64_debug_state) : M unit :=
  emit (EvThreadSetState port st) ;;
  m <- get_mem ;; put_mem (host_thread_set_state E m port st).

Definition thread_get_state (port : Z) : M arm64_debug_state :=
  emit (EvThreadGetState port) ;;
  m <- get_mem ;; ret (host_thread_get_state E m port).

Definition MACH_MSG_TYPE_COPY_SEND : Z := 19.

(** *** [arm_context_t] *)

Definition arm_context_t := list Z.

(** [arm_context_t c = {0}]. *)
Definition zero_context : arm_context_t := replicate (sizeof_arm_context_t E) 0.

Definition x_offset (i : nat) : nat := (off_x E + 8 * i)%nat.

Definition ctx_x (c : arm_context_t) (i : nat) : Z := get64 c (x_offset i).
Definition ctx_sp (c : arm_context_t) : Z := get64 c (off_sp E).
Definition ctx_pc (c : arm_context_t) : Z := get64 c (off_pc E).
Definition ctx_cpsr (c : arm_context_t) : Z := get32 c (off_cpsr E).
Definition ctx_flavor (c : arm_context_t) : Z := get32 c (off_flavor E).

Definition set_x (c : arm_context_t) (i : nat) (v : Z) := set64 c (x_offset i) v.
Definition set_sp (c : arm_context_t) (v : Z) := set64 c (off_sp E) v.
Definition set_pc (c : arm_context_t) (v : Z) := set64 c (off_pc E) v.
Definition set_cpsr (c : arm_context_t) (v : Z) := set32 c (off_cpsr E) v.
Definition set_flavor (c : arm_context_t) (v : Z) := set32 c (off_flavor E) v.

(** [ARM_SAVED_STATE64 | (((uint64_t)ARM_SAVED_STATE64_COUNT) << 32)] *)
Definition flavor_and_count_tag : Z :=
  Z.lor (ARM_SAVED_STATE64 E) (wrap64 (Z.shiftl (ARM_SAVED_STATE64_COUNT E) 32)).

(** *** Exception-return forger and privileged-call proxy *)

(** [struct syscall_args]. *)
Record syscall_args : Type := {
  number : Z;
  arg : list Z
}.

Definition ESR_EC_SVC_64 : Z := 0x15.
Definition ESR_EC_SHIFT : Z := 26.
Definition SPSR_A : Z := Z.shiftl 1 8.
Definition SPSR_I : Z := Z.shiftl 1 7.
Definition SPSR_F : Z := Z.shiftl 1 6.
Definition SPSR_EL1_SP0 : Z := 0x4.
Definition MDSCR_EL1_KDE : Z := Z.shiftl 1 13.

(** The status word both forgers store:
    [SPSR_A | SPSR_I | SPSR_F | SPSR_EL1_SP0]. *)
Definition forged_cpsr : Z :=
  Z.lor (Z.lor (Z.lor SPSR_A SPSR_I) SPSR_F) SPSR_EL1_SP0.

(** The state set up as if it were calling the target syscall
    ([fake_syscall_args] in [do_syscall_with_pstate_d_unmasked]). *)
Definition fake_syscall_args (args : syscall_args) : arm_context_t :=
  let s := zero_context in
  let s := set_x s 16 (number args) in
  let s := set_x s 0 (arg args !!! 0%nat) in
  let s := set_x s 1 (arg args !!! 1%nat) in
  let s := set_x s 2 (arg args !!! 2%nat) in
  let s := set_x s 3 (arg args !!! 3%nat) in
  let s := set_x s 4 (arg args !!! 4%nat) in
  let s := set_x s 5 (arg args !!! 5%nat) in
  let s := set_x s 6 (arg args !!! 6%nat) in
  let s := set_x s 7 (arg args !!! 7%nat) in
  let s := set_flavor s (ARM_SAVED_STATE64 E) in
  set_cpsr s 0.

(** The state restored by the eret ([eret_return_state] in
    [do_syscall_with_pstate_d_unmasked]), from the three values the function
    obtains at run time. *)
Definition syscall_eret_return_state
    (fake_syscall_args_kern act_context thread_kernel_stack_top : Z)
    : arm_context_t :=
  let s := zero_context in
  let s := set_x s 0 fake_syscall_args_kern in
  let s := set_x s 1 (Z.shiftl ESR_EC_SVC_64 ESR_EC_SHIFT) in
  let s := set_x s 2 0x454545454540 in
  let s := set_x s 21 act_context in
  let s := set_sp s thread_kernel_stack_top in
  let s := set_pc s (ksym E KSYMBOL_VALID_LINK_REGISTER) in
  set_cpsr s forged_cpsr.

Definition do_syscall_with_pstate_d_unmasked (args : syscall_args) : M unit :=
  let thread_t_addr := current_thread E in
  let size := sizeof_arm_context_t E in
  fake_syscall_args_kern <- early_kalloc (Z.of_nat size) ;;
  kmemcpy_to fake_syscall_args_kern (fake_syscall_args args) size ;;
  act_context <-
    rk64 (add64 thread_t_addr (koffset E KSTRUCT_OFFSET_THREAD_CONTEXT_DATA)) ;;
  thread_kernel_stack_top <-
    rk64 (add64 thread_t_addr (koffset E KSTRUCT_OFFSET_THREAD_KSTACKPTR)) ;;
  let eret_return_state :=
    syscall_eret_return_state
      fake_syscall_args_kern act_context thread_kernel_stack_top in
  eret_return_state_kern <- early_kalloc (Z.of_nat size) ;;
  kmemcpy_to eret_return_state_kern eret_return_state size ;;
  kcall (ksym E KSYMBOL_X21_JOP_GADGET)
        [eret_return_state_kern; ksym E KSYMBOL_EXCEPTION_RETURN].

(** [eret_return_state] of [set_MDSCR_EL1_KDE]. *)
Definition kde_eret_return_state (rop_stack_kern_middle : Z) : arm_context_t :=
  let s := zero_context in
  let s := set_sp s rop_stack_kern_middle in
  let s := set_x s 8 MDSCR_EL1_KDE in
  let s := set_pc s (ksym E KSYMBOL_SET_MDSCR_EL1_GADGET) in
  set_cpsr s forged_cpsr.

Definition set_MDSCR_EL1_KDE (target_thread_port : Z) : M unit :=
  let size := sizeof_arm_context_t E in
  rop_stack_kern_base <- early_kalloc 0x1000 ;;
  let rop_stack_kern_middle := add64 rop_stack_kern_base 0xc00 in
  let rop_stack_kern_popped_base := add64 rop_stack_kern_middle 0x220 in
  let popped_regs :=
    [0; 0; 0; 0; 0x414243444546; ksym E KSYMBOL_THREAD_EXCEPTION_RETURN] in
  kmemcpy_to rop_stack_kern_popped_base
             (concat (map (le_encode 8) popped_regs)) 48 ;;
  let eret_return_state := kde_eret_return_state rop_stack_kern_middle in
  eret_return_state_kern <- early_kalloc (Z.of_nat size) ;;
  kmemcpy_to eret_return_state_kern eret_return_state size ;;
  kcall (ksym E KSYMBOL_X21_JOP_GADGET)
        [eret_return_state_kern; ksym E KSYMBOL_EXCEPTION_RETURN] ;;
  printf "returned from trying to set the KDE bit" [].

(** *** Core affinity *)

Definition pin_current_thread : M Z :=
  let th := current_thread E in
  let cpu_data_entries := ksym E KSYMBOL_CPU_DATA_ENTRIES in
  let cpu_id := 0 in
  cpu_data <- rk64 (add64 cpu_data_entries (cpu_id * 0x10 + 8)) ;;
  processor <-
    rk64 (add64 cpu_data (koffset E KSTRUCT_OFFSET_CPU_DATA_CPU_PROCESSOR)) ;;
  printf "trying to pin to cpu0: %llx" [processor] ;;
  wk64 (add64 th (koffset E KSTRUCT_OFFSET_THREAD_BOUND_PROCESSOR)) processor ;;
  printf "pin_current_thread yielding cpu" [] ;;
  swtch_pri ;;
  printf "pin_current_thread back on cpu" [] ;;
  chosen <-
    rk64 (add64 th (koffset E KSTRUCT_OFFSET_THREAD_CHOSEN_PROCESSOR)) ;;
  printf "running on %llx" [chosen] ;;
  ret processor.

(** *** Stuck-thread monitor *)

(** A callback receives the copied context and returns it modified; it may
    read and write kernel memory itself (accesses that are not logged). *)
Definition breakpoint_callback := kmem -> arm_context_t -> kmem * arm_context_t.

(** [uint64_t stack[128]] as filled by
    [kmemcpy((uint64_t)&stack[0], sp, sizeof(stack))]. *)
Definition stack_of_bytes (bytes : list Z) : list Z :=
  map (fun i : nat => get64 bytes (8 * i)) (seq 0 128).

(** The 64-bit word [j] words above [&stack[0]] in the monitor's frame: an
    element of [stack], or beyond its end whatever the frame holds there. *)
Definition frame_word (stack : list Z) (j : nat) : Z :=
  default (frame_beyond E j) (stack !! j).

(** [((arm_context_t* )&stack[i])->ss.ss_64.pc] *)
Definition saved_state_pc (stack : list Z) (i : nat) : Z :=
  frame_word stack (i + off_pc E / 8).

(** The [for (int i = 0; i < 128; i++)] scan of WAIT_SPIN, with [n]
    iterations left at index [i].  Returns the index found, if any, and the
    number of words examined. *)
Fixpoint scan_stack_from (stack : list Z) (looper_pc : Z) (n i : nat)
    : option nat * nat :=
  match n with
  | O => (None, O)
  | S n' =>
      let flavor_and_count := frame_word stack i in
      if negb (flavor_and_count =? flavor_and_count_tag) then
        let (r, probes) := scan_stack_from stack looper_pc n' (S i) in
        (r, S probes)
      else if negb (saved_state_pc stack i =? looper_pc) then
        let (r, probes) := scan_stack_from stack looper_pc n' (S i) in
        (r, S probes)
      else (Some i, 1%nat)
  end.

Definition scan_stack (stack : list Z) (looper_pc : Z) : option nat * nat :=
  scan_stack_from stack looper_pc 128 0.

Inductive spin_result : Type :=
  | SpinComplete                       (* syscall_complete seen: return *)
  | SpinNotFound                       (* scan failed: sleep(1); return *)
  | SpinFound (looper_saved_state : Z)
  | SpinOutOfFuel.

(** WAIT_SPIN: the [while (!found_it)] loop. *)
Fixpoint wait_spin (fuel : nat) (thread_t_addr looper_pc : Z) : M spin_result :=
  match fuel with
  | O => ret SpinOutOfFuel
  | S fuel' =>
      complete <- read_syscall_complete ;;
      if complete then ret SpinComplete else
      kstackptr <-
        rk64 (add64 thread_t_addr (koffset E KSTRUCT_OFFSET_THREAD_KSTACKPTR)) ;;
      printf "kstackptr: %llx" [kstackptr] ;;
      saved_ksched_state <- kmemcpy_from kstackptr (sizeof_arm_context_t E) ;;
      let sp := ctx_sp saved_ksched_state in
      printf "sp: %llx" [sp] ;;
      if sp =? 0 then wait_spin fuel' thread_t_addr looper_pc else
      bytes <- kmemcpy_from sp 1024 ;;
      let stack := stack_of_bytes bytes in
      match fst (scan_stack stack looper_pc) with
      | Some i =>
          let looper_saved_state := add64 sp (Z.of_nat i * 8) in
          printf "found the saved state probably at %llx" [looper_saved_state] ;;
          ret (SpinFound looper_saved_state)
      | None =>
          printf "unable to find the saved scheduler tick state on the stack, waiting a bit then trying again..." [] ;;
          sleep 1 ;;
          ret SpinNotFound
      end
  end.

(** [for (int i = 0; i < 40; i++) printf("%016llx\n", buf[i])] *)
Definition context_words_log (c : arm_context_t) : list event :=
  map (fun i : nat => EvPrintf "%016llx" [get64 c (8 * i)]) (seq 0 40).

Definition print_context_words (c : arm_context_t) : M unit :=
  emit_all (context_words_log c).

(** LOCATE_TRAP: the [for (int i = 0; i < 1000; i++)] loop with [n]
    iterations left.  Returns the final [bp_hitting_state] and [found_it]. *)
Fixpoint locate_trap_from (n : nat) (bp_hitting_state breakpoint : Z)
    : M (Z * bool) :=
  match n with
  | O => ret (bp_hitting_state, false)
  | S n' =>
      flavor_and_count <- rk64 bp_hitting_state ;;
      if negb (flavor_and_count =? flavor_and_count_tag) then
        locate_trap_from n' (add64 bp_hitting_state 8) breakpoint
      else
        bp_context <- kmemcpy_from bp_hitting_state (sizeof_arm_context_t E) ;;
        print_context_words bp_context ;;
        when (negb (ctx_pc bp_context =? breakpoint))
             (printf "hummm, found an unexpected breakpoint: %llx"
                     [ctx_pc bp_context]) ;;
        ret (bp_hitting_state, true)
  end.

Definition locate_trap (looper_saved_state breakpoint : Z) : M (Z * bool) :=
  locate_trap_from 1000
    (add64 looper_saved_state (Z.of_nat (sizeof_arm_context_t E))) breakpoint.

(** DISPATCH_CALLBACK: copy the state found and hand it to the callback. *)
Definition dispatch_callback (bp_hitting_state : Z)
    (callback : breakpoint_callback) : M arm_context_t :=
  bp_context <- kmemcpy_from bp_hitting_state (sizeof_arm_context_t E) ;;
  printf "ALRIGHTY, HERE'S PC: 0x%llx" [ctx_pc bp_context] ;;
  write_kernel_leak (ctx_pc bp_context) ;;
  emit (EvCallback bp_context) ;;
  m <- get_mem ;;
  put_mem (callback m bp_context).1 ;;
  ret (callback m bp_context).2.

(** The two writes of PATCH_AND_RESUME: the new state goes back where it
    was found and the looper's saved [pc] is set to the epilogue. *)
Definition patch_snapshots (bp_hitting_state : Z)
    (bp_context : arm_context_t) (looper_saved_state : Z) : M unit :=
  kmemcpy_to bp_hitting_state bp_context (sizeof_arm_context_t E) ;;
  wk64 (add64 looper_saved_state (Z.of_nat (off_pc E)))
       (ksym E KSYMBOL_SLEH_SYNC_EPILOG).

(** PATCH_AND_RESUME: patch, then leave the core to the debuggee. *)
Definition patch_and_resume (target_thread_port bp_hitting_state : Z)
    (bp_context : arm_context_t) (looper_saved_state : Z) : M unit :=
  patch_snapshots bp_hitting_state bp_context looper_saved_state ;;
  thread_switch target_thread_port ;;
  swtch_pri.

(** One pass of the outer [while (1)] body after WAIT_SPIN has found the
    looper's saved state. *)
Definition handle_hit (target_thread_port looper_saved_state breakpoint : Z)
    (callback : breakpoint_callback) : M unit :=
  r <- locate_trap looper_saved_state breakpoint ;;
  let bp_hitting_state := fst r in
  when (negb (snd r)) (printf "unable to find bp hitting state" []) ;;
  bp_context <- dispatch_callback bp_hitting_state callback ;;
  patch_and_resume target_thread_port bp_hitting_state bp_context
                   looper_saved_state.

Inductive monitor_exit : Type :=
  | ExitComplete        (* returned on syscall_complete *)
  | ExitNotFound        (* returned after a failed scan *)
  | ExitOutOfFuel.

(** The outer [while (1)] of [handle_kernel_bp_hits]. *)
Fixpoint handle_loop (fuel : nat)
    (target_thread_port thread_t_addr looper_pc breakpoint : Z)
    (callback : breakpoint_callback) : M monitor_exit :=
  match fuel with
  | O => ret ExitOutOfFuel
  | S fuel' =>
      r <- wait_spin (S fuel') thread_t_addr looper_pc ;;
      match r with
      | SpinComplete => ret ExitComplete
      | SpinNotFound => ret ExitNotFound
      | SpinOutOfFuel => ret ExitOutOfFuel
      | SpinFound looper_saved_state =>
          handle_hit target_thread_port looper_saved_state breakpoint callback ;;
          handle_loop fuel' target_thread_port thread_t_addr looper_pc
                      breakpoint callback
      end
  end.

Definition handle_kernel_bp_hits (fuel : nat)
    (target_thread_port looper_pc breakpoint : Z)
    (callback : breakpoint_callback) : M monitor_exit :=
  let thread_port_addr :=
    find_port_address E target_thread_port MACH_MSG_TYPE_COPY_SEND in
  thread_t_addr <-
    rk64 (add64 thread_port_addr (koffset E KSTRUCT_OFFSET_IPC_PORT_IP_KOBJECT)) ;;
  handle_loop fuel target_thread_port thread_t_addr looper_pc breakpoint callback.

(** [struct monitor_args] without the callback, which is passed along. *)
Definition monitor_thread (fuel : nat) (target_thread_port breakpoint : Z)
    (callback : breakpoint_callback) : M monitor_exit :=
  printf "monitor thread running, pinning to core" [] ;;
  pin_current_thread ;;
  printf "monitor thread pinned" [] ;;
  handle_kernel_bp_hits fuel target_thread_port
    (ksym E KSYMBOL_EL1_HW_BP_INFINITE_LOOP) breakpoint callback.

(** *** Breakpoint lifecycle and the driver *)

Definition BCR_BAS_ALL : Z := Z.shiftl 0xf 5.
Definition BCR_E : Z := Z.shiftl 1 0.
Definition ARM_DBG_CR_MODE_CONTROL_ANY : Z := Z.shiftl 3 1.

(** [struct arm64_debug_state state = {0}]. *)
Definition zero_debug_state : arm64_debug_state :=
  {| bvr := replicate 16 0; bcr := replicate 16 0 |}.

(** First block of [run_syscall_with_breakpoint]: set a hardware breakpoint
    on the thread through the proper API and read it back. *)
Definition set_hw_breakpoint (bp_address : Z) : M unit :=
  let state := zero_debug_state in
  let state := {| bvr := <[0%nat := bp_address]> (bvr state);
                  bcr := bcr state |} in
  let state := {| bvr := bvr state;
                  bcr := <[0%nat := Z.lor BCR_BAS_ALL BCR_E]> (bcr state) |} in
  thread_set_state (mach_thread_self E) state ;;
  state <- thread_get_state (mach_thread_self E) ;;
  when (negb (bvr state !!! 0%nat =? bp_address))
       (printf "setting the bp address failed" []).

(** Second block: find the thread's DebugData and set
    [ARM_DBG_CR_MODE_CONTROL_ANY] in its [bcr[0]].  Returns the address of
    the DebugData it patched. *)
Definition set_mode_control_any : M Z :=
  let thread_port_addr :=
    find_port_address E (mach_thread_self E) MACH_MSG_TYPE_COPY_SEND in
  thread_t_addr <-
    rk64 (add64 thread_port_addr (koffset E KSTRUCT_OFFSET_IPC_PORT_IP_KOBJECT)) ;;
  printf "thread_t_addr: %llx" [thread_t_addr] ;;
  DebugData <- rk64 (add64 thread_t_addr (ACT_DEBUGDATA_OFFSET E)) ;;
  bvr0 <- rk64 (add64 DebugData (off_bvr0 E)) ;;
  printf "bvr0 read from the DebugData: 0x%llx" [bvr0] ;;
  bcr0 <- rk32 (add64 DebugData (off_bcr0 E)) ;;
  printf "bcr0 read from the DebugData: 0x%08x" [bcr0] ;;
  let bcr0 := Z.lor bcr0 ARM_DBG_CR_MODE_CONTROL_ANY in
  wk32 (add64 DebugData (off_bcr0 E)) bcr0 ;;
  printf "set ARM_DBG_CR_MODE_CONTROL_ANY" [] ;;
  ret DebugData.

(** The two blocks together: what arming the breakpoint does. *)
Definition arm_breakpoint (bp_address : Z) : M Z :=
  set_hw_breakpoint bp_address ;;
  set_mode_control_any.

(** The variadic arguments of a call, in the order [va_arg] yields them. *)
Definition va_list := nat -> Z.

(** [for (int i = 0; i < n_args; i++) sargs.arg[i] = va_arg(ap, uint64_t);]
    with [n] iterations left at index [i].  Returns the indices stored to and
    the array, or no array once a store falls outside it. *)
Fixpoint marshal_from (ap : va_list) (n i : nat) (arg : list Z)
    : list nat * option (list Z) :=
  match n with
  | O => ([], Some arg)
  | S n' =>
      if bool_decide (i < length arg)%nat then
        let (stored, r) := marshal_from ap n' (S i) (<[i := ap i]> arg) in
        (i :: stored, r)
      else ([i], None)
  end.

(** [struct syscall_args sargs = {0}; sargs.number = syscall_number;] and
    the marshalling loop. *)
Definition marshal_syscall_args (syscall_number : Z) (n_args : nat)
    (ap : va_list) : list nat * option syscall_args :=
  let (stored, r) := marshal_from ap n_args 0 (replicate 8 0) in
  (stored, (fun a => {| number := syscall_number; arg := a |}) <$> r).

(** Returns [false] when the marshalling loop stored past [arg[7]], where C
    gives the program no behaviour.  The callback travels to the monitor
    thread inside [margs]; that thread is [monitor_thread] above. *)
Definition run_syscall_with_breakpoint (bp_address : Z)
    (syscall_number : Z) (n_args : nat) (ap : va_list) : M bool :=
  pin_current_thread ;;
  set_MDSCR_EL1_KDE (mach_thread_self E) ;;
  arm_breakpoint bp_address ;;
  emit (EvPthreadCreate (mach_thread_self E) bp_address) ;;
  printf "started monitor thread" [] ;;
  match snd (marshal_syscall_args syscall_number n_args ap) with
  | None => ret false
  | Some sargs =>
      write_syscall_complete false ;;
      do_syscall_with_pstate_d_unmasked sargs ;;
      write_syscall_complete true ;;
      printf "syscall returned" [] ;;
      pthread_join ;;
      printf "monitor exited" [] ;;
      ret true
  end.

Definition sys_write_breakpoint_handler : breakpoint_callback :=
  fun m state =>
    let state := set_pc state (add64 (ctx_pc state) 4) in
    let val := load64 m (add64 (ctx_x state 8) 0x388) in
    let state := set_x state 8 val in
    let uap := ctx_x state 1 in
    let replacer_string := strdup_result E in
    let m := store64 m (add64 uap 8) replacer_string in
    let m := store64 m (add64 uap 0x10) 20 in
    (m, state).

Definition raw_syscall (syscall_number : Z) (n_args : nat) (ap : va_list)
    : M bool :=
  pin_current_thread ;;
  match snd (marshal_syscall_args syscall_number n_args ap) with
  | None => ret false
  | Some sargs =>
      write_syscall_complete false ;;
      do_syscall_with_pstate_d_unmasked sargs ;;
      write_syscall_complete true ;;
      printf "syscall returned" [] ;;
      ret true
  end.

Definition test_kdbg (hello_wrld_str : Z) : M bool :=
  run_syscall_with_breakpoint (ksym E KSYMBOL_WRITE_SYSCALL_ENTRYPOINT)
    4 3 (fun i => nth i [1; hello_wrld_str; 11] 0).

End Model.

(** ** Well-formed environments

    The fields of [arm_context_t] lie in the order of their declaration
    (header, [x[29]], [fp], [lr], [sp], [pc], [cpsr]) inside the struct, [pc]
    is 8-byte aligned, [bvr[0]] precedes [bcr[0]] in the debug state, and
    symbol addresses are 64-bit values. *)
Record wf_environment (E : environment) : Prop := {
  wf_flavor : 0 <= ARM_SAVED_STATE64 E < 2 ^ 32;
  wf_count : 0 <= ARM_SAVED_STATE64_COUNT E < 2 ^ 32;
  wf_hdr_x : (off_flavor E + 4 <= off_x E)%nat;
  wf_x_sp : (off_x E + 8 * 29 <= off_sp E)%nat;
  wf_sp_pc : (off_sp E + 8 <= off_pc E)%nat;
  wf_pc_cpsr : (off_pc E + 8 <= off_cpsr E)%nat;
  wf_cpsr_end : (off_cpsr E + 4 <= sizeof_arm_context_t E)%nat;
  wf_pc_aligned : (off_pc E mod 8 = 0)%nat;
  wf_size : Z.of_nat (sizeof_arm_context_t E) <= 2 ^ 32;
  wf_ksym : forall s, 0 <= ksym E s < 2 ^ 64;
  wf_early_kalloc : forall n size, 0 <= early_kalloc_nth E n size < 2 ^ 64;
  wf_bvr0 : 0 <= off_bvr0 E;
  wf_bvr0_bcr0 : off_bvr0 E + 8 <= off_bcr0 E;
  wf_bcr0 : off_bcr0 E + 4 <= 2 ^ 32
}.

(** A well-formed [struct syscall_args]: a 32-bit number and eight 64-bit
    arguments. *)
Definition wf_syscall_args (a : syscall_args) : Prop :=
  0 <= number a < 2 ^ 32 /\
  length (arg a) = 8%nat /\
  Forall (fun v => 0 <= v < 2 ^ 64) (arg a).

(** ** What the claims speak of *)

(** Word [i] of the window carries the tag-and-count constant and the
    context decoded there has the spin loop's [pc]. *)
Definition spin_snapshot_at (E : environment) (stack : list Z)
    (looper_pc : Z) (i : nat) : Prop :=
  stack !! i = Some (flavor_and_count_tag E) /\
  saved_state_pc E stack i = looper_pc.

(** The claim's "decoded snapshot pc" of the candidate at word [i] above
    [sp]: the [pc] field of the saved state that lies at [sp + 8 * i] in
    kernel memory, wherever the 128-word window ends. *)
Definition snapshot_pc_in_memory (E : environment) (m : kmem) (sp : Z)
    (i : nat) : Z :=
  ctx_pc E (load_bytes m (add64 sp (Z.of_nat i * 8)) (sizeof_arm_context_t E)).

(** Word [i] above [sp] starts a saved state of the spin loop, as the
    claim has it: the word there is the tag-and-count constant and the
    [pc] decoded from the state there is the spin-loop address. *)
Definition spin_snapshot_in_memory (E : environment) (m : kmem) (sp : Z)
    (looper_pc : Z) (i : nat) : Prop :=
  load64 m (add64 sp (Z.of_nat i * 8)) = flavor_and_count_tag E /\
  snapshot_pc_in_memory E m sp i = looper_pc.

(** The [sp] that a poll of WAIT_SPIN reads for the thread at
    [thread_t_addr]: the [sp] field of the scheduled-off state at the
    thread's kernel stack pointer. *)
Definition polled_sp (E : environment) (m : kmem) (thread_t_addr : Z) : Z :=
  ctx_sp E
    (load_bytes m
       (load64 m (add64 thread_t_addr
                    (koffset E KSTRUCT_OFFSET_THREAD_KSTACKPTR)))
       (sizeof_arm_context_t E)).

(** What a poll logs up to the scan. *)
Definition poll_log (E : environment) (m : kmem) (thread_t_addr : Z) : list event :=
  let kaddr := add64 thread_t_addr (koffset E KSTRUCT_OFFSET_THREAD_KSTACKPTR) in
  let kstackptr := load64 m kaddr in
  [EvRk64 kaddr;
   EvPrintf "kstackptr: %llx" [kstackptr];
   EvKmemcpyFrom kstackptr (sizeof_arm_context_t E);
   EvPrintf "sp: %llx" [polled_sp E m thread_t_addr];
   EvKmemcpyFrom (polled_sp E m thread_t_addr) 1024].

(** The kernel reads of the first [k] probes of LOCATE_TRAP from [bp]. *)
Definition probe_log (bp : Z) (k : nat) : list event :=
  map (fun j : nat => EvRk64 (wrap64 (bp + 8 * Z.of_nat j))) (seq 0 k).

(** What LOCATE_TRAP logs once it has read the tag at [a]: the copy, the 40
    words printed, and the complaint when the [pc] is not the breakpoint. *)
Definition trap_found_log (E : environment) (m : kmem) (a breakpoint : Z)
    : list event :=
  let c := load_bytes m a (sizeof_arm_context_t E) in
  [EvKmemcpyFrom a (sizeof_arm_context_t E)] ++
  context_words_log c ++
  (if ctx_pc E c =? breakpoint then []
   else [EvPrintf "hummm, found an unexpected breakpoint: %llx" [ctx_pc E c]]).

(** What LOCATE_TRAP logs when [k] probes from [bp] miss the tag: on a hit
    at the next probe the reads and the hit, after 1000 misses the reads and
    the complaint that follows the loop. *)
Definition locate_log (E : environment) (m : kmem) (bp breakpoint : Z)
    (k : nat) : list event :=
  if (k <? 1000)%nat then
    probe_log bp (S k) ++
    trap_found_log E m (wrap64 (bp + 8 * Z.of_nat k)) breakpoint
  else
    probe_log bp 1000 ++ [EvPrintf "unable to find bp hitting state" []].

(** Kernel memory once PATCH_AND_RESUME has made its two writes, from the
    memory [m] the callback left, the context [c] it returned, and the
    addresses [a] of the state that hit the breakpoint and
    [looper_saved_state] of the looper's. *)
Definition patched_mem (E : environment) (m : kmem) (a : Z)
    (c : list Z) (looper_saved_state : Z) : kmem :=
  store64 (store_bytes m a (take (sizeof_arm_context_t E) c))
          (add64 looper_saved_state (Z.of_nat (off_pc E)))
          (ksym E KSYMBOL_SLEH_SYNC_EPILOG).

(** What DISPATCH_CALLBACK and the writes of PATCH_AND_RESUME log for the
    state at [a], in memory [m], with callback [callback]. *)
Definition hit_log (E : environment) (m : kmem) (a looper_saved_state : Z)
    (callback : breakpoint_callback) : list event :=
  let c := load_bytes m a (sizeof_arm_context_t E) in
  [EvKmemcpyFrom a (sizeof_arm_context_t E);
   EvPrintf "ALRIGHTY, HERE'S PC: 0x%llx" [ctx_pc E c];
   EvCallback c;
   EvKmemcpyTo a (take (sizeof_arm_context_t E) (callback m c).2);
   EvWk64 (add64 looper_saved_state (Z.of_nat (off_pc E)))
          (ksym E KSYMBOL_SLEH_SYNC_EPILOG)].

(** The address LOCATE_TRAP stops at when [k] probes missed the tag: [k]
    words above the end of the looper's saved state. *)
Definition trap_address (E : environment) (looper_saved_state : Z) (k : nat)
    : Z :=
  wrap64 (add64 looper_saved_state (Z.of_nat (sizeof_arm_context_t E))
          + 8 * Z.of_nat k).

(** The world as [handle_hit] hands it to the scheduler, when [k] probes
    missed the tag. *)
Definition world_at_resume (E : environment) (w : world)
    (looper_saved_state breakpoint : Z) (callback : breakpoint_callback)
    (k : nat) : world :=
  let m := wmem w in
  let bp := add64 looper_saved_state (Z.of_nat (sizeof_arm_context_t E)) in
  let a := wrap64 (bp + 8 * Z.of_nat k) in
  let c := load_bytes m a (sizeof_arm_context_t E) in
  {| wmem := patched_mem E (callback m c).1 a (callback m c).2 looper_saved_state;
     syscall_complete := syscall_complete w;
     kernel_leak := ctx_pc E c;
     wheap := wheap w;
     wclock := wclock w;
     wlog := wlog w ++ locate_log E m bp breakpoint k ++
             hit_log E m a looper_saved_state callback |}.

(** Bit [n] of a status or control word. *)
Definition bit_set (v : Z) (n : Z) : bool := Z.testbit v n.

(** A status word that returns to EL1 on SP_EL0 with SError, IRQ and FIQ
    masked and debug exceptions unmasked. *)
Definition masks_async_not_debug (cpsr : Z) : Prop :=
  bit_set cpsr 8 = true /\
  bit_set cpsr 7 = true /\
  bit_set cpsr 6 = true /\
  bit_set cpsr 9 = false /\
  Z.land cpsr 0xf = 0x4.

(** ** A sample environment and world

    Used to evaluate the model on concrete inputs.  The layout is that of
    XNU's arm64 saved state (an 8-byte header, [x[29]], [fp], [lr], [sp],
    [pc], [cpsr]); the addresses are made up. *)

Definition sample_ksym (s : ksymbol) : Z :=
  match s with
  | KSYMBOL_CPU_DATA_ENTRIES => 0xfffffff007500000
  | KSYMBOL_VALID_LINK_REGISTER => 0xfffffff0070cc1d4
  | KSYMBOL_X21_JOP_GADGET => 0xfffffff0070cc1ac
  | KSYMBOL_EXCEPTION_RETURN => 0xfffffff0070cc474
  | KSYMBOL_THREAD_EXCEPTION_RETURN => 0xfffffff0070cc3f4
  | KSYMBOL_SET_MDSCR_EL1_GADGET => 0xfffffff0071e1998
  | KSYMBOL_SLEH_SYNC_EPILOG => 0xfffffff0071de074
  | KSYMBOL_EL1_HW_BP_INFINITE_LOOP => 0xfffffff0071de070
  | KSYMBOL_WRITE_SYSCALL_ENTRYPOINT => 0xfffffff0073f3f7c
  end.

Definition sample_koffset (o : kstruct_offset) : Z :=
  match o with
  | KSTRUCT_OFFSET_IPC_PORT_IP_KOBJECT => 0x68
  | KSTRUCT_OFFSET_THREAD_KSTACKPTR => 0x438
  | KSTRUCT_OFFSET_THREAD_CONTEXT_DATA => 0x448
  | KSTRUCT_OFFSET_THREAD_BOUND_PROCESSOR => 0x1b8
  | KSTRUCT_OFFSET_THREAD_CHOSEN_PROCESSOR => 0x1b0
  | KSTRUCT_OFFSET_CPU_DATA_CPU_PROCESSOR => 0x190
  end.

Definition sample_port_addr : Z := 0xffffffe000200000.
Definition sample_thread : Z := 0xffffffe000100000.
Definition sample_debug_data : Z := 0xffffffe000300000.
Definition sample_kstack : Z := 0xffffffe000400000.
Definition sample_sp : Z := 0xffffffe0003ff000.

(** A host interface that stores the address it is given and keeps of the
    control word only the enable and byte-select bits. *)
Definition sample_thread_set_state (m : kmem) (port : Z)
    (st : arm64_debug_state) : kmem :=
  let thread := load64 m (add64 sample_port_addr 0x68) in
  let dd := load64 m (add64 thread 0x470) in
  store32 (store64 m (add64 dd 8) (bvr st !!! 0%nat))
          (add64 dd 136) (Z.land (bcr st !!! 0%nat) 0x1e1).

Definition sample_thread_get_state (m : kmem) (port : Z) : arm64_debug_state :=
  let thread := load64 m (add64 sample_port_addr 0x68) in
  let dd := load64 m (add64 thread 0x470) in
  {| bvr := <[0%nat := load64 m (add64 dd 8)]> (replicate 16 0);
     bcr := <[0%nat := load32 m (add64 dd 136)]> (replicate 16 0) |}.

Definition sample_environment : environment := {|
  ARM_SAVED_STATE64 := 0x15;
  ARM_SAVED_STATE64_COUNT := 68;
  sizeof_arm_context_t := 816;
  off_flavor := 0;
  off_x := 8;
  off_sp := 256;
  off_pc := 264;
  off_cpsr := 272;
  ACT_DEBUGDATA_OFFSET := 0x470;
  off_bvr0 := 8;
  off_bcr0 := 136;
  ksym := sample_ksym;
  koffset := sample_koffset;
  current_thread := sample_thread;
  mach_thread_self := 0x1103;
  find_port_address := fun _ _ => sample_port_addr;
  early_kalloc_nth := fun n _ => wrap64 (0xffffffe001000000 + 0x1000 * Z.of_nat n);
  strdup_result := 0x100004000;
  host_thread_set_state := sample_thread_set_state;
  host_thread_get_state := sample_thread_get_state;
  frame_beyond := fun _ => 0;
  other_threads := fun _ s => s
|}.

(** Kernel memory in which the sample thread is stuck: its port and
    DebugData are linked, the scheduled-off state at its kernel stack
    pointer has [sp = sample_sp], the looper's saved state sits 5 words above
    that [sp], and the state of the code that hit the breakpoint 2 words
    above the end of the looper's. *)
Definition sample_looper : Z := sample_sp + 40.
Definition sample_trap : Z := sample_looper + 816 + 16.
Definition sample_tag : Z := 0x4400000015.

(** The thread is off its core with [sp = sample_sp]; nothing in the window
    above [sp] is a saved state. *)
Definition sample_mem_idle : kmem :=
  let m : kmem := fun _ => 0 in
  let m := store64 m (sample_port_addr + 0x68) sample_thread in
  let m := store64 m (sample_thread + 0x470) sample_debug_data in
  let m := store64 m (sample_thread + 0x438) sample_kstack in
  let m := store64 m (sample_thread + 0x448) 0xffffffe000500000 in
  store64 m (sample_kstack + 256) sample_sp.

(** The looper's saved state is on the stack, but no tagged word follows it
    within reach of LOCATE_TRAP. *)
Definition sample_mem_spin : kmem :=
  let m := store64 sample_mem_idle sample_looper sample_tag in
  store64 m (sample_looper + 264) 0xfffffff0071de070.

Definition sample_mem : kmem :=
  let m := store64 sample_mem_spin sample_trap sample_tag in
  let m := store64 m (sample_trap + 8 + 8) 0xffffffe000600000 in
  let m := store64 m (sample_trap + 8 + 64) 0xffffffe000700000 in
  store64 m (sample_trap + 264) 0xfffffff0073f3f7c.

(** The looper's saved state lies 100 words above [sp]: it starts inside
    the 128-word window and its [pc] field lies past the window's end. *)
Definition sample_mem_late : kmem :=
  let m := store64 sample_mem_idle (sample_sp + 800) sample_tag in
  store64 m (sample_sp + 800 + 264) 0xfffffff0071de070.

(** A tagged word 100 words above [sp] that starts no state of the spin
    loop: the [pc] field of the state there is [0xdead]. *)
Definition sample_mem_stray : kmem :=
  let m := store64 sample_mem_idle (sample_sp + 800) sample_tag in
  store64 m (sample_sp + 800 + 264) 0xdead.

(** The sample environment with a monitor frame that holds the spin-loop
    address in every word beyond [stack[127]]. *)
Definition sample_environment_stale : environment := {|
  ARM_SAVED_STATE64 := ARM_SAVED_STATE64 sample_environment;
  ARM_SAVED_STATE64_COUNT := ARM_SAVED_STATE64_COUNT sample_environment;
  sizeof_arm_context_t := sizeof_arm_context_t sample_environment;
  off_flavor := off_flavor sample_environment;
  off_x := off_x sample_environment;
  off_sp := off_sp sample_environment;
  off_pc := off_pc sample_environment;
  off_cpsr := off_cpsr sample_environment;
  ACT_DEBUGDATA_OFFSET := ACT_DEBUGDATA_OFFSET sample_environment;
  off_bvr0 := off_bvr0 sample_environment;
  off_bcr0 := off_bcr0 sample_environment;
  ksym := ksym sample_environment;
  koffset := koffset sample_environment;
  current_thread := current_thread sample_environment;
  mach_thread_self := mach_thread_self sample_environment;
  find_port_address := find_port_address sample_environment;
  early_kalloc_nth := early_kalloc_nth sample_environment;
  strdup_result := strdup_result sample_environment;
  host_thread_set_state := host_thread_set_state sample_environment;
  host_thread_get_state := host_thread_get_state sample_environment;
  frame_beyond := fun _ => 0xfffffff0071de070;
  other_threads := other_threads sample_environment
|}.

Definition world_of (m : kmem) (complete : bool) : world :=
  {| wmem := m; syscall_complete := complete; kernel_leak := 0;
     wheap := 0; wclock := 0; wlog := [] |}.

Definition sample_world (complete : bool) : world := world_of sample_mem complete.

(** The request of [test_kdbg]: [write(1, hello_wrld_str, 11)]. *)
Definition sample_syscall_args : syscall_args :=
  {| number := 4; arg := [1; 0x100003f00; 11; 0; 0; 0; 0; 0] |}.

(** A callback in the manner of [sys_write_breakpoint_handler] that stays
    off kernel memory: step over the instruction and set [x8]. *)
Definition sample_callback (E : environment) : breakpoint_callback :=
  fun m state =>
    (m, set_x E (set_pc E state (add64 (ctx_pc E state) 4)) 8 0x1234).

(** ** Further vocabulary for the properties of Part IV *)

(** What a poll of WAIT_SPIN logs when the saved [sp] reads as null. *)
Definition null_sp_log (E : environment) (m : kmem) (thread_t_addr : Z)
    : list event :=
  let kaddr := add64 thread_t_addr (koffset E KSTRUCT_OFFSET_THREAD_KSTACKPTR) in
  let kstackptr := load64 m kaddr in
  [EvRk64 kaddr;
   EvPrintf "kstackptr: %llx" [kstackptr];
   EvKmemcpyFrom kstackptr (sizeof_arm_context_t E);
   EvPrintf "sp: %llx" [0]].

(** What an event does besides reading and printing. *)
Inductive effect : Type :=
  | FxAlloc (size : Z)          (* early_kalloc *)
  | FxCopyToKernel              (* kmemcpy into the kernel *)
  | FxWrite64                   (* wk64 *)
  | FxWrite32                   (* wk32 *)
  | FxKcall (fn : Z)
  | FxSleep
  | FxThreadSwitch
  | FxSwtchPri
  | FxCallback
  | FxSetState                  (* thread_set_state *)
  | FxCreate                    (* pthread_create *)
  | FxJoin.                     (* pthread_join *)

Definition effect_of (e : event) : option effect :=
  match e with
  | EvPrintf _ _ | EvRk64 _ | EvRk32 _ | EvKmemcpyFrom _ _
  | EvThreadGetState _ => None
  | EvWk64 _ _ => Some FxWrite64
  | EvWk32 _ _ => Some FxWrite32
  | EvKmemcpyTo _ _ => Some FxCopyToKernel
  | EvEarlyKalloc size _ => Some (FxAlloc size)
  | EvKcall fn _ => Some (FxKcall fn)
  | EvSleep _ => Some FxSleep
  | EvThreadSwitch _ => Some FxThreadSwitch
  | EvSwtchPri => Some FxSwtchPri
  | EvCallback _ => Some FxCallback
  | EvThreadSetState _ _ => Some FxSetState
  | EvPthreadCreate _ _ => Some FxCreate
  | EvPthreadJoin => Some FxJoin
  end.

Definition effects (es : list event) : list effect := omap effect_of es.

Definition is_alloc (f : effect) : bool :=
  match f with FxAlloc _ => true | _ => false end.

(** The effects during which the calling thread is off its core, in the
    kernel or blocked. *)
Definition is_yield (f : effect) : bool :=
  match f with
  | FxKcall _ | FxSleep | FxThreadSwitch | FxSwtchPri | FxJoin => true
  | _ => false
  end.

(** Running [c] from [w] appends to the log events whose effects are [l],
    takes one block from the allocator for each allocation among them and
    leaves the core once for each yield among them. *)
Definition performs {A : Type} (c : M A) (w : world) (l : list effect) : Prop :=
  exists es : list event,
    wlog (c w).2 = wlog w ++ es /\
    effects es = l /\
    wheap (c w).2 = (wheap w + length (List.filter is_alloc l))%nat /\
    wclock (c w).2 = (wclock w + length (List.filter is_yield l))%nat.

(** The effects of one handled hit. *)
Definition hit_effects : list effect :=
  [FxCallback; FxCopyToKernel; FxWrite64; FxThreadSwitch; FxSwtchPri].

(** The effect a poll, and the monitor, ends with: the [sleep(1)] before
    it gives up, or none. *)
Definition spin_tail (r : spin_result) : list effect :=
  match r with SpinNotFound => [FxSleep] | _ => [] end.

Definition exit_tail (r : monitor_exit) : list effect :=
  match r with ExitNotFound => [FxSleep] | _ => [] end.
(* ================================================================== *)
(** * Part II: lemmas *)
(* ================================================================== *)

Lemma wrap64_range z : 0 <= wrap64 z < 2 ^ 64.
Proof. unfold wrap64. apply Z.mod_pos_bound. lia. Qed.

Lemma wrap64_small z : 0 <= z < 2 ^ 64 -> wrap64 z = z.
Proof. intros H. unfold wrap64. apply Z.mod_small. exact H. Qed.

Lemma wrap64_idem z : wrap64 (wrap64 z) = wrap64 z.
Proof. apply wrap64_small, wrap64_range. Qed.

Lemma wrap64_sub_wrap_l a b : wrap64 (wrap64 a - b) = wrap64 (a - b).
Proof. unfold wrap64. apply Zminus_mod_idemp_l. Qed.

Lemma wrap64_add_wrap_l a b : wrap64 (wrap64 a + b) = wrap64 (a + b).
Proof. unfold wrap64. apply Zplus_mod_idemp_l. Qed.

Lemma wrap64_add_wrap_r a b : wrap64 (a + wrap64 b) = wrap64 (a + b).
Proof. unfold wrap64. apply Zplus_mod_idemp_r. Qed.

Lemma length_le_encode n v : length (le_encode n v) = n.
Proof. revert v. induction n as [|n IH]; intros v; simpl; [reflexivity|]. now rewrite IH. Qed.

Lemma le_encode_bytes n v : Forall is_byte (le_encode n v).
Proof.
  revert v. induction n as [|n IH]; intros v; simpl; constructor.
  - unfold is_byte. apply Z.mod_pos_bound. lia.
  - apply IH.
Qed.

Lemma le_decode_encode n v : le_decode (le_encode n v) = v mod 256 ^ Z.of_nat n.
Proof.
  revert v. induction n as [|n IH]; intros v.
  - simpl. now rewrite Z.mod_1_r.
  - cbn [le_encode le_decode]. rewrite IH.
    rewrite Nat2Z.inj_succ, Z.pow_succ_r by lia.
    rewrite Z.rem_mul_r by lia. reflexivity.
Qed.

Lemma le_decode_range bs :
  Forall is_byte bs -> 0 <= le_decode bs < 256 ^ Z.of_nat (length bs).
Proof.
  induction 1 as [|b bs Hb _ IH].
  - simpl. lia.
  - cbn [le_decode length]. rewrite Nat2Z.inj_succ, Z.pow_succ_r by lia.
    unfold is_byte in Hb. lia.
Qed.

(** *** Kernel memory: reads after writes *)

Lemma wrap64_offset a k : wrap64 (wrap64 (a + k) - a) = wrap64 k.
Proof. rewrite wrap64_sub_wrap_l. f_equal. lia. Qed.

Lemma load8_store_inside m a bs (k : nat) b :
  bs !! k = Some b ->
  Z.of_nat (length bs) <= 2 ^ 64 ->
  load8 (store_bytes m a bs) (a + Z.of_nat k) = b mod 256.
Proof.
  intros Hk Hlen. unfold load8, store_bytes. cbv zeta.
  pose proof (lookup_lt_Some _ _ _ Hk) as Hlt.
  rewrite wrap64_offset, wrap64_small, Nat2Z.id, Hk by lia.
  destruct (Z.ltb_spec (Z.of_nat k) (Z.of_nat (length bs))); [reflexivity | lia].
Qed.

Lemma load8_store_outside m a bs x :
  outside a (length bs) x ->
  load8 (store_bytes m a bs) x = load8 m x.
Proof.
  unfold outside, load8, store_bytes. intros Hout. cbv zeta.
  rewrite wrap64_sub_wrap_l.
  destruct (Z.ltb_spec (wrap64 (x - a)) (Z.of_nat (length bs))); [lia | reflexivity].
Qed.

Lemma apart_outside a len b n (k : nat) :
  apart a len b n -> (k < n)%nat -> outside a len (b + Z.of_nat k).
Proof.
  unfold apart, outside. intros [Hlo Hhi] Hk.
  replace (b + Z.of_nat k - a) with ((b - a) + Z.of_nat k) by lia.
  rewrite <- wrap64_add_wrap_l.
  pose proof (wrap64_range (b - a)).
  rewrite wrap64_small; lia.
Qed.

Lemma load_bytes_length m a n : length (load_bytes m a n) = n.
Proof. unfold load_bytes. now rewrite length_map, length_seq. Qed.

Lemma load_bytes_lookup m a n (k : nat) :
  (k < n)%nat -> load_bytes m a n !! k = Some (load8 m (a + Z.of_nat k)).
Proof.
  intros Hk. unfold load_bytes.
  rewrite list_lookup_fmap, lookup_seq_lt by exact Hk. reflexivity.
Qed.

Lemma load_bytes_bytes m a n : Forall is_byte (load_bytes m a n).
Proof.
  unfold load_bytes. apply Forall_fmap, Forall_forall. intros k _.
  unfold is_byte, load8. simpl. apply Z.mod_pos_bound. lia.
Qed.

Lemma load_bytes_ext m m' a n :
  (forall k : nat, (k < n)%nat -> load8 m' (a + Z.of_nat k) = load8 m (a + Z.of_nat k)) ->
  load_bytes m' a n = load_bytes m a n.
Proof.
  intros H. apply list_eq. intros k.
  destruct (decide (k < n)%nat) as [Hk|Hk].
  - rewrite !load_bytes_lookup by exact Hk. now rewrite H.
  - rewrite !lookup_ge_None_2; [reflexivity| |]; rewrite load_bytes_length; lia.
Qed.

Lemma load_bytes_store_same m a bs :
  Forall is_byte bs ->
  Z.of_nat (length bs) <= 2 ^ 64 ->
  load_bytes (store_bytes m a bs) a (length bs) = bs.
Proof.
  intros Hb Hlen. apply list_eq. intros k.
  destruct (bs !! k) as [b|] eqn:Hk.
  - rewrite load_bytes_lookup by (apply lookup_lt_Some in Hk; exact Hk).
    rewrite (load8_store_inside _ _ _ _ b) by assumption.
    f_equal. apply Z.mod_small.
    rewrite Forall_lookup in Hb. exact (Hb _ _ Hk).
  - apply lookup_ge_None_2. rewrite load_bytes_length.
    now apply lookup_ge_None_1.
Qed.

Lemma load_bytes_store_apart m a bs b n :
  apart a (length bs) b n ->
  load_bytes (store_bytes m a bs) b n = load_bytes m b n.
Proof.
  intros Hap. apply load_bytes_ext. intros k Hk.
  apply load8_store_outside. now apply (apart_outside _ _ _ n).
Qed.

Lemma load_bytes_take_drop m a size off n :
  (off + n <= size)%nat ->
  take n (drop off (load_bytes m a size)) = load_bytes m (a + Z.of_nat off) n.
Proof.
  intros Hle. apply list_eq. intros k.
  destruct (decide (k < n)%nat) as [Hk|Hk].
  - rewrite lookup_take_lt, lookup_drop by exact Hk.
    rewrite !load_bytes_lookup by lia. do 2 f_equal. lia.
  - rewrite !lookup_ge_None_2; [reflexivity| |].
    + rewrite load_bytes_length. lia.
    + rewrite length_take. lia.
Qed.

Lemma load64_store64_same m a v : load64 (store64 m a v) a = wrap64 v.
Proof.
  unfold load64, store64.
  replace 8%nat with (length (le_encode 8 v)) at 2 by apply length_le_encode.
  rewrite load_bytes_store_same.
  - now rewrite le_decode_encode.
  - apply le_encode_bytes.
  - rewrite length_le_encode. lia.
Qed.

Lemma load32_store32_same m a v : load32 (store32 m a v) a = wrap32 v.
Proof.
  unfold load32, store32.
  replace 4%nat with (length (le_encode 4 v)) at 2 by apply length_le_encode.
  rewrite load_bytes_store_same.
  - now rewrite le_decode_encode.
  - apply le_encode_bytes.
  - rewrite length_le_encode. lia.
Qed.

Lemma load64_range m a : 0 <= load64 m a < 2 ^ 64.
Proof.
  unfold load64. pose proof (le_decode_range _ (load_bytes_bytes m a 8)) as H.
  rewrite load_bytes_length in H. exact H.
Qed.

Lemma load32_range m a : 0 <= load32 m a < 2 ^ 32.
Proof.
  unfold load32. pose proof (le_decode_range _ (load_bytes_bytes m a 4)) as H.
  rewrite load_bytes_length in H. exact H.
Qed.

(** *** Fields of a local struct *)

Lemma set_le_length n buf off v : length (set_le n buf off v) = length buf.
Proof. unfold set_le. apply length_inserts. Qed.

Lemma set_le_lookup_inside n buf off v (j : nat) :
  (off <= j < off + n)%nat -> (j < length buf)%nat ->
  set_le n buf off v !! j = le_encode n v !! (j - off)%nat.
Proof.
  intros Hj Hlen. unfold set_le.
  apply list_lookup_inserts; [rewrite length_le_encode; lia | exact Hlen].
Qed.

Lemma set_le_lookup_outside n buf off v (j : nat) :
  (j < off \/ off + n <= j)%nat ->
  set_le n buf off v !! j = buf !! j.
Proof.
  intros [Hj|Hj]; unfold set_le.
  - now apply list_lookup_inserts_lt.
  - apply list_lookup_inserts_ge. rewrite length_le_encode. exact Hj.
Qed.

Lemma set_le_bytes n buf off v :
  Forall is_byte buf -> Forall is_byte (set_le n buf off v).
Proof.
  intros Hb. apply Forall_lookup. intros j b Hj.
  assert (Hlen : (j < length buf)%nat).
  { apply lookup_lt_Some in Hj. now rewrite set_le_length in Hj. }
  destruct (decide (off <= j < off + n)%nat) as [Hin|Hout].
  - rewrite set_le_lookup_inside in Hj by assumption.
    pose proof (le_encode_bytes n v) as He.
    rewrite Forall_lookup in He. exact (He _ _ Hj).
  - rewrite set_le_lookup_outside in Hj by lia.
    rewrite Forall_lookup in Hb. exact (Hb _ _ Hj).
Qed.

Lemma set_le_wf size n buf off v :
  wf_buf size buf -> wf_buf size (set_le n buf off v).
Proof.
  intros [Hlen Hb]. split.
  - now rewrite set_le_length.
  - now apply set_le_bytes.
Qed.

Lemma get_le_set_le_same n buf off v :
  (off + n <= length buf)%nat ->
  get_le n (set_le n buf off v) off = v mod 256 ^ Z.of_nat n.
Proof.
  intros Hlen. unfold get_le.
  replace (take n (drop off (set_le n buf off v))) with (le_encode n v).
  - apply le_decode_encode.
  - apply list_eq. intros j.
    destruct (decide (j < n)%nat) as [Hj|Hj].
    + rewrite lookup_take_lt, lookup_drop by exact Hj.
      rewrite set_le_lookup_inside by lia. f_equal. lia.
    + rewrite !lookup_ge_None_2; [reflexivity| |].
      * rewrite length_take. lia.
      * rewrite length_le_encode. lia.
Qed.

Lemma get_le_set_le_other n n' buf off off' v :
  (off + n <= off' \/ off' + n' <= off)%nat ->
  get_le n (set_le n' buf off' v) off = get_le n buf off.
Proof.
  intros Hd. unfold get_le. f_equal.
  apply list_eq. intros j.
  destruct (decide (j < n)%nat) as [Hj|Hj].
  - rewrite !lookup_take_lt, !lookup_drop by exact Hj.
    apply set_le_lookup_outside. lia.
  - rewrite !lookup_take_ge by lia. reflexivity.
Qed.

Lemma get_le_replicate_0 n size off : get_le n (replicate size 0) off = 0.
Proof.
  unfold get_le. rewrite drop_replicate, take_replicate.
  induction (n `min` (size - off))%nat as [|k IH]; cbn [replicate le_decode]; lia.
Qed.

Lemma get_le_load_bytes n m a size off :
  (off + n <= size)%nat ->
  get_le n (load_bytes m a size) off = le_decode (load_bytes m (a + Z.of_nat off) n).
Proof. intros H. unfold get_le. now rewrite load_bytes_take_drop. Qed.

Lemma replicate_0_wf size : wf_buf size (replicate size 0).
Proof.
  split; [apply length_replicate|].
  apply Forall_replicate. unfold is_byte. lia.
Qed.

Lemma load_bytes_wf m a size : wf_buf size (load_bytes m a size).
Proof. split; [apply load_bytes_length | apply load_bytes_bytes]. Qed.

(** *** Running the monad *)

Lemma bind_run {A B} (c : M A) (k : A -> M B) (w : world) :
  bind c k w = k (c w).1 (c w).2.
Proof. unfold bind. now destruct (c w). Qed.

(** Unfold the monad and the collaborators down to worlds. *)
Ltac run_world :=
  cbv [bind ret when emit emit_all get_mem put_mem with_mem logged printf
       rk64 rk32 wk64 wk32 kmemcpy_from kmemcpy_to
       early_kalloc kcall sleep thread_switch swtch_pri
       thread_set_state thread_get_state
       read_syscall_complete write_syscall_complete write_kernel_leak];
  cbn [wmem syscall_complete kernel_leak wheap wclock wlog fst snd].

Lemma bind_eq {A B} (c : M A) (k : A -> M B) (w w' : world) (a : A) :
  c w = (a, w') -> bind c k w = k a w'.
Proof. intros H. unfold bind. now rewrite H. Qed.

(** Each collaborator, run on a world. *)

Lemma emit_run e w : emit e w = (tt, logged w e).
Proof. reflexivity. Qed.

Lemma printf_run fmt args w : printf fmt args w = (tt, logged w (EvPrintf fmt args)).
Proof. reflexivity. Qed.

Lemma rk64_run a w : rk64 a w = (load64 (wmem w) a, logged w (EvRk64 a)).
Proof. reflexivity. Qed.

Lemma rk32_run a w : rk32 a w = (load32 (wmem w) a, logged w (EvRk32 a)).
Proof. reflexivity. Qed.

Lemma wk64_run a v w :
  wk64 a v w = (tt, with_mem (logged w (EvWk64 a v)) (store64 (wmem w) a v)).
Proof. reflexivity. Qed.

Lemma wk32_run a v w :
  wk32 a v w = (tt, with_mem (logged w (EvWk32 a v)) (store32 (wmem w) a v)).
Proof. reflexivity. Qed.

Lemma kmemcpy_from_run src n w :
  kmemcpy_from src n w = (load_bytes (wmem w) src n, logged w (EvKmemcpyFrom src n)).
Proof. reflexivity. Qed.

Lemma kmemcpy_to_run dst buf n w :
  kmemcpy_to dst buf n w =
  (tt, with_mem (logged w (EvKmemcpyTo dst (take n buf)))
                (store_bytes (wmem w) dst (take n buf))).
Proof. reflexivity. Qed.

Lemma thread_set_state_run E port st w :
  thread_set_state E port st w =
  (tt, with_mem (logged w (EvThreadSetState port st))
                (host_thread_set_state E (wmem w) port st)).
Proof. reflexivity. Qed.

Lemma thread_get_state_run E port w :
  thread_get_state E port w =
  (host_thread_get_state E (wmem w) port, logged w (EvThreadGetState port)).
Proof. reflexivity. Qed.

Lemma kcall_run E fn args w :
  kcall E fn args w = off_core E (logged w (EvKcall fn args)).
Proof. reflexivity. Qed.

(** Fields of an updated world. *)

Lemma wlog_logged w e : wlog (logged w e) = wlog w ++ [e].
Proof. reflexivity. Qed.

Lemma wmem_logged w e : wmem (logged w e) = wmem w.
Proof. reflexivity. Qed.

Lemma wheap_logged w e : wheap (logged w e) = wheap w.
Proof. reflexivity. Qed.

Lemma wlog_with_mem w m : wlog (with_mem w m) = wlog w.
Proof. reflexivity. Qed.

Lemma wmem_with_mem w m : wmem (with_mem w m) = m.
Proof. reflexivity. Qed.

Lemma wheap_with_mem w m : wheap (with_mem w m) = wheap w.
Proof. reflexivity. Qed.

Ltac world_fields :=
  rewrite ?wlog_logged, ?wmem_logged, ?wheap_logged,
          ?wlog_with_mem, ?wmem_with_mem, ?wheap_with_mem.

(** One step of a sequence: run its first action with the lemma [H]. *)
Ltac flat_world :=
  cbn [wmem syscall_complete kernel_leak wheap wclock wlog logged with_mem].

Ltac step H := erewrite bind_eq by (apply H); cbv beta; flat_world.

Lemma off_core_wlog E w : wlog (off_core E w).2 = wlog w.
Proof. unfold off_core. now destruct (other_threads E _ _). Qed.

Lemma off_core_wheap E w : wheap (off_core E w).2 = wheap w.
Proof. unfold off_core. now destruct (other_threads E _ _). Qed.

(** *** The WAIT_SPIN scanner *)

Section Scanner.

Context (E : environment).

Lemma stack_of_bytes_length bytes : length (stack_of_bytes bytes) = 128%nat.
Proof. unfold stack_of_bytes. now rewrite length_map, length_seq. Qed.

Lemma frame_word_inside stack (i : nat) :
  (i < length stack)%nat -> stack !! i = Some (frame_word E stack i).
Proof.
  intros Hi. unfold frame_word.
  destruct (stack !! i) eqn:Hl; [reflexivity|].
  apply lookup_ge_None_1 in Hl. lia.
Qed.

Lemma spin_snapshot_at_iff stack looper_pc (i : nat) :
  (i < length stack)%nat ->
  spin_snapshot_at E stack looper_pc i <->
  frame_word E stack i = flavor_and_count_tag E /\
  saved_state_pc E stack i = looper_pc.
Proof.
  intros Hi. unfold spin_snapshot_at.
  rewrite (frame_word_inside stack i Hi). split.
  - intros [Ht Hp]. split; [congruence | exact Hp].
  - intros [Ht Hp]. split; [congruence | exact Hp].
Qed.

Lemma scan_stack_from_spec stack looper_pc (n i : nat) :
  (i + n <= length stack)%nat ->
  match scan_stack_from E stack looper_pc n i with
  | (Some k, probes) =>
      (i <= k < i + n)%nat /\
      spin_snapshot_at E stack looper_pc k /\
      (forall j : nat, (i <= j < k)%nat -> ~ spin_snapshot_at E stack looper_pc j) /\
      probes = S (k - i)
  | (None, probes) =>
      (forall j : nat, (i <= j < i + n)%nat -> ~ spin_snapshot_at E stack looper_pc j) /\
      probes = n
  end.
Proof.
  revert i. induction n as [|n IH]; intros i Hlen.
  - simpl. split; [intros j Hj; lia | reflexivity].
  - cbn [scan_stack_from].
    assert (Hskip :
      ~ spin_snapshot_at E stack looper_pc i ->
      match (let (r, probes) := scan_stack_from E stack looper_pc n (S i) in
             (r, S probes)) with
      | (Some k, probes) =>
          (i <= k < i + S n)%nat /\
          spin_snapshot_at E stack looper_pc k /\
          (forall j : nat, (i <= j < k)%nat -> ~ spin_snapshot_at E stack looper_pc j) /\
          probes = S (k - i)
      | (None, probes) =>
          (forall j : nat, (i <= j < i + S n)%nat -> ~ spin_snapshot_at E stack looper_pc j) /\
          probes = S n
      end).
    { intros Hno. specialize (IH (S i) ltac:(lia)).
      destruct (scan_stack_from E stack looper_pc n (S i)) as [[k|] probes].
      - destruct IH as (Hk & Hat & Hbefore & Hp).
        split; [lia|]. split; [exact Hat|]. split.
        + intros j Hj. destruct (decide (j = i)) as [->|Hne]; [exact Hno|].
          apply Hbefore. lia.
        + rewrite Hp. f_equal. lia.
      - destruct IH as (Hnone & Hp). split; [|now rewrite Hp].
        intros j Hj. destruct (decide (j = i)) as [->|Hne]; [exact Hno|].
        apply Hnone. lia. }
    destruct (frame_word E stack i =? flavor_and_count_tag E) eqn:Htag; cbn [negb].
    + destruct (saved_state_pc E stack i =? looper_pc) eqn:Hpc; cbn [negb].
      * apply Z.eqb_eq in Htag, Hpc.
        split; [lia|]. split; [|split].
        -- apply spin_snapshot_at_iff; [lia | now split].
        -- intros j Hj. lia.
        -- f_equal. lia.
      * apply Hskip. rewrite spin_snapshot_at_iff by lia.
        apply Z.eqb_neq in Hpc. tauto.
    + apply Hskip. rewrite spin_snapshot_at_iff by lia.
      apply Z.eqb_neq in Htag. tauto.
Qed.

Lemma scan_stack_spec stack looper_pc :
  length stack = 128%nat ->
  match scan_stack E stack looper_pc with
  | (Some k, probes) =>
      (k < 128)%nat /\
      spin_snapshot_at E stack looper_pc k /\
      (forall j : nat, (j < k)%nat -> ~ spin_snapshot_at E stack looper_pc j) /\
      probes = S k
  | (None, probes) =>
      (forall j : nat, (j < 128)%nat -> ~ spin_snapshot_at E stack looper_pc j) /\
      probes = 128%nat
  end.
Proof.
  intros Hlen.
  pose proof (scan_stack_from_spec stack looper_pc 128 0
                ltac:(rewrite Hlen; lia)) as Hspec.
  unfold scan_stack.
  destruct (scan_stack_from E stack looper_pc 128 0) as [[k|] probes].
  - destruct Hspec as (Hk & Hat & Hbefore & Hp).
    split; [lia|]. split; [exact Hat|]. split.
    + intros j Hj. apply Hbefore. lia.
    + rewrite Hp. f_equal. lia.
  - destruct Hspec as (Hnone & Hp). split; [|exact Hp].
    intros j Hj. apply Hnone. lia.
Qed.

End Scanner.

(** *** One poll of WAIT_SPIN *)

Section Polling.

Context (E : environment).

Lemma wait_spin_complete fuel thread_t_addr looper_pc w :
  syscall_complete w = true ->
  wait_spin E (S fuel) thread_t_addr looper_pc w = (SpinComplete, w).
Proof.
  intros Hc. cbn [wait_spin]. unfold bind at 1.
  cbn [read_syscall_complete]. now rewrite Hc.
Qed.

Lemma wait_spin_scans fuel thread_t_addr looper_pc w :
  syscall_complete w = false ->
  polled_sp E (wmem w) thread_t_addr <> 0 ->
  (wait_spin E (S fuel) thread_t_addr looper_pc w).1 =
  match
    (scan_stack E
       (stack_of_bytes
          (load_bytes (wmem w) (polled_sp E (wmem w) thread_t_addr) 1024))
       looper_pc).1
  with
  | Some i =>
      SpinFound (add64 (polled_sp E (wmem w) thread_t_addr) (Z.of_nat i * 8))
  | None => SpinNotFound
  end.
Proof.
  intros Hc Hsp. unfold polled_sp in *.
  cbn [wait_spin]. unfold bind at 1. cbn [read_syscall_complete]. rewrite Hc.
  cbn -[load64 load_bytes scan_stack stack_of_bytes ctx_sp add64 Z.eqb].
  apply Z.eqb_neq in Hsp. rewrite Hsp.
  cbn -[load64 load_bytes scan_stack stack_of_bytes ctx_sp add64 Z.eqb].
  match goal with
  | |- context [ (scan_stack E ?s looper_pc).1 ] =>
      destruct (scan_stack E s looper_pc).1 as [i|]
  end.
  - reflexivity.
  - rewrite !bind_run. reflexivity.
Qed.

Lemma wait_spin_not_found_run fuel thread_t_addr looper_pc w :
  syscall_complete w = false ->
  polled_sp E (wmem w) thread_t_addr <> 0 ->
  (scan_stack E
     (stack_of_bytes
        (load_bytes (wmem w) (polled_sp E (wmem w) thread_t_addr) 1024))
     looper_pc).1 = None ->
  wait_spin E (S fuel) thread_t_addr looper_pc w =
  (SpinNotFound,
   (off_core E
      (foldl logged w
         (poll_log E (wmem w) thread_t_addr ++
          [EvPrintf "unable to find the saved scheduler tick state on the stack, waiting a bit then trying again..." [];
           EvSleep 1]))).2).
Proof.
  intros Hc Hsp Hscan. unfold polled_sp in *.
  cbn [wait_spin]. unfold bind at 1. cbn [read_syscall_complete]. rewrite Hc.
  cbn -[load64 load_bytes scan_stack stack_of_bytes ctx_sp add64 Z.eqb sleep].
  apply Z.eqb_neq in Hsp. rewrite Hsp.
  cbn -[load64 load_bytes scan_stack stack_of_bytes ctx_sp add64 Z.eqb sleep].
  rewrite Hscan.
  cbn -[load64 load_bytes scan_stack stack_of_bytes ctx_sp add64 Z.eqb off_core].
  rewrite bind_run. unfold ret. f_equal.
Qed.

End Polling.

(** *** Worlds that differ by what was logged *)

Lemma foldl_logged_app w es1 es2 :
  foldl logged (foldl logged w es1) es2 = foldl logged w (es1 ++ es2).
Proof. now rewrite foldl_app. Qed.

Lemma foldl_logged_wlog w es : wlog (foldl logged w es) = wlog w ++ es.
Proof.
  revert w. induction es as [|e es IH]; intros w; cbn [foldl].
  - now rewrite app_nil_r.
  - rewrite IH. cbn [logged wlog]. now rewrite <- app_assoc.
Qed.

Lemma foldl_logged_wmem w es : wmem (foldl logged w es) = wmem w.
Proof. revert w. induction es as [|e es IH]; intros w; cbn [foldl]; [reflexivity|now rewrite IH]. Qed.

Lemma foldl_logged_complete w es :
  syscall_complete (foldl logged w es) = syscall_complete w.
Proof. revert w. induction es as [|e es IH]; intros w; cbn [foldl]; [reflexivity|now rewrite IH]. Qed.

Lemma foldl_logged_leak w es : kernel_leak (foldl logged w es) = kernel_leak w.
Proof. revert w. induction es as [|e es IH]; intros w; cbn [foldl]; [reflexivity|now rewrite IH]. Qed.

Lemma foldl_logged_wheap w es : wheap (foldl logged w es) = wheap w.
Proof. revert w. induction es as [|e es IH]; intros w; cbn [foldl]; [reflexivity|now rewrite IH]. Qed.

Lemma foldl_logged_wclock w es : wclock (foldl logged w es) = wclock w.
Proof. revert w. induction es as [|e es IH]; intros w; cbn [foldl]; [reflexivity|now rewrite IH]. Qed.

(** *** LOCATE_TRAP *)

Section LocateTrap.

Context (E : environment).

Lemma probe_log_S bp k :
  probe_log bp (S k) = EvRk64 (wrap64 bp) :: probe_log (add64 bp 8) k.
Proof.
  unfold probe_log. cbn [seq map]. f_equal.
  - do 2 f_equal. lia.
  - rewrite <- fmap_S_seq, <- list_fmap_compose.
    apply list_fmap_ext. intros _ j _. cbn. f_equal.
    unfold add64. rewrite wrap64_add_wrap_l. f_equal. lia.
Qed.

(** The loop stops at the first of its [n] probes that reads the tag, or
    after all [n]; [k] words did not carry the tag. *)
Lemma locate_trap_from_spec n bp breakpoint w :
  wrap64 bp = bp ->
  exists k : nat,
    (k <= n)%nat /\
    (forall j : nat, (j < k)%nat ->
       load64 (wmem w) (wrap64 (bp + 8 * Z.of_nat j)) <> flavor_and_count_tag E) /\
    let a := wrap64 (bp + 8 * Z.of_nat k) in
    ((k < n)%nat /\
     load64 (wmem w) a = flavor_and_count_tag E /\
     locate_trap_from E n bp breakpoint w =
       ((a, true),
        foldl logged w
          (probe_log bp (S k) ++ trap_found_log E (wmem w) a breakpoint)))
    \/
    (k = n /\
     locate_trap_from E n bp breakpoint w =
       ((a, false), foldl logged w (probe_log bp n))).
Proof.
  revert bp w. induction n as [|n IH]; intros bp w Hbp.
  - exists 0%nat. split; [lia|]. split; [intros j Hj; lia|].
    right. split; [reflexivity|]. cbn. rewrite Z.add_0_r, Hbp. reflexivity.
  - cbn [locate_trap_from]. rewrite bind_run.
    cbn -[load64 load_bytes Z.eqb locate_trap_from add64 print_context_words
          ctx_pc context_words_log probe_log trap_found_log wrap64 Z.mul
          Z.add Z.of_nat].
    destruct (load64 (wmem w) bp =? flavor_and_count_tag E) eqn:Htag;
      cbn [negb].
    + apply Z.eqb_eq in Htag.
      exists 0%nat. split; [lia|]. split; [intros j Hj; lia|].
      left. cbn [Z.of_nat]. rewrite Z.mul_0_r, Z.add_0_r, Hbp.
      split; [lia|]. split; [exact Htag|].
      rewrite !bind_run.
      cbn -[load64 load_bytes Z.eqb add64 ctx_pc context_words_log].
      unfold trap_found_log, probe_log. cbn [seq map Z.of_nat].
      rewrite ?Z.mul_0_r, ?Z.add_0_r, ?Hbp.
      destruct (ctx_pc E _ =? breakpoint) eqn:Hpc; cbn [negb when].
      * rewrite app_nil_r. reflexivity.
      * rewrite foldl_app. reflexivity.
    + apply Z.eqb_neq in Htag.
      destruct (IH (add64 bp 8) (logged w (EvRk64 bp)))
        as (k & Hk & Hbefore & Hres).
      { unfold add64. apply wrap64_idem. }
      assert (Haddr : forall j : nat,
                 wrap64 (add64 bp 8 + 8 * Z.of_nat j)
                 = wrap64 (bp + 8 * Z.of_nat (S j))).
      { intros j. unfold add64. rewrite wrap64_add_wrap_l. f_equal. lia. }
      exists (S k). split; [lia|]. split.
      * intros [|j] Hj.
        -- cbn [Z.of_nat]. rewrite Z.mul_0_r, Z.add_0_r, Hbp. exact Htag.
        -- rewrite <- Haddr. apply Hbefore. lia.
      * cbv zeta in Hres |- *. rewrite Haddr in Hres.
        cbn [wmem logged] in Hres.
        rewrite (probe_log_S bp (S k)), (probe_log_S bp n), Hbp.
        destruct Hres as [(Hlt & Htagk & Hrun) | (Heq & Hrun)].
        -- left. split; [lia|]. split; [exact Htagk|].
           rewrite Hrun. reflexivity.
        -- right. split; [lia|]. rewrite Hrun. subst k. reflexivity.
Qed.

End LocateTrap.

(** *** One hit, from LOCATE_TRAP to the yield *)

Section HandleHit.

Context (E : environment).

Lemma world_eq (w1 w2 : world) :
  wmem w1 = wmem w2 ->
  syscall_complete w1 = syscall_complete w2 ->
  kernel_leak w1 = kernel_leak w2 ->
  wheap w1 = wheap w2 ->
  wclock w1 = wclock w2 ->
  wlog w1 = wlog w2 ->
  w1 = w2.
Proof. destruct w1, w2. cbn. intros. now subst. Qed.

Lemma dispatch_callback_run a callback w :
  dispatch_callback E a callback w =
  let c := load_bytes (wmem w) a (sizeof_arm_context_t E) in
  ((callback (wmem w) c).2,
   {| wmem := (callback (wmem w) c).1;
      syscall_complete := syscall_complete w;
      kernel_leak := ctx_pc E c;
      wheap := wheap w;
      wclock := wclock w;
      wlog := wlog w ++
              [EvKmemcpyFrom a (sizeof_arm_context_t E);
               EvPrintf "ALRIGHTY, HERE'S PC: 0x%llx" [ctx_pc E c];
               EvCallback c] |}).
Proof.
  unfold dispatch_callback. run_world.
  now rewrite <- !app_assoc.
Qed.

Lemma patch_snapshots_run a c looper w :
  patch_snapshots E a c looper w =
  (tt,
   {| wmem := patched_mem E (wmem w) a c looper;
      syscall_complete := syscall_complete w;
      kernel_leak := kernel_leak w;
      wheap := wheap w;
      wclock := wclock w;
      wlog := wlog w ++
              [EvKmemcpyTo a (take (sizeof_arm_context_t E) c);
               EvWk64 (add64 looper (Z.of_nat (off_pc E)))
                      (ksym E KSYMBOL_SLEH_SYNC_EPILOG)] |}).
Proof.
  unfold patch_snapshots, patched_mem. run_world.
  now rewrite <- !app_assoc.
Qed.

(** [handle_hit] runs LOCATE_TRAP, the callback and the two writes whatever
    LOCATE_TRAP found, and then yields. *)
Lemma handle_hit_spec port looper breakpoint callback w :
  let bp := add64 looper (Z.of_nat (sizeof_arm_context_t E)) in
  exists k : nat,
    (k <= 1000)%nat /\
    (forall j : nat, (j < k)%nat ->
       load64 (wmem w) (wrap64 (bp + 8 * Z.of_nat j)) <> flavor_and_count_tag E) /\
    ((k < 1000)%nat ->
       load64 (wmem w) (wrap64 (bp + 8 * Z.of_nat k)) = flavor_and_count_tag E) /\
    (locate_trap E looper breakpoint w).1 =
      (wrap64 (bp + 8 * Z.of_nat k), (k <? 1000)%nat) /\
    handle_hit E port looper breakpoint callback w =
      bind (thread_switch E port) (fun _ => swtch_pri E)
           (world_at_resume E w looper breakpoint callback k).
Proof.
  intros bp.
  destruct (locate_trap_from_spec E 1000 bp breakpoint w) as (k & Hk & Hmiss & Hres).
  { unfold bp, add64. apply wrap64_idem. }
  exists k. split; [exact Hk|]. split; [exact Hmiss|].
  cbv zeta in Hres.
  assert (Hloc :
    locate_trap E looper breakpoint w =
      ((wrap64 (bp + 8 * Z.of_nat k), (k <? 1000)%nat),
       foldl logged w
         (if (k <? 1000)%nat
          then probe_log bp (S k) ++
               trap_found_log E (wmem w) (wrap64 (bp + 8 * Z.of_nat k)) breakpoint
          else probe_log bp 1000)) /\
    ((k < 1000)%nat ->
       load64 (wmem w) (wrap64 (bp + 8 * Z.of_nat k)) = flavor_and_count_tag E)).
  { unfold locate_trap. fold bp.
    destruct Hres as [(Hlt & Htag & Hrun) | (Heq & Hrun)]; rewrite Hrun.
    - destruct (Nat.ltb_spec k 1000); [|lia]. split; [reflexivity | intros _; exact Htag].
    - destruct (Nat.ltb_spec k 1000); [lia|]. split; [reflexivity | intros; lia]. }
  destruct Hloc as [Hloc Htag]. split; [exact Htag|].
  split; [now rewrite Hloc|].
  unfold handle_hit, patch_and_resume.
  rewrite (bind_eq _ _ _ _ _ Hloc). cbn [fst snd].
  set (w1 := foldl logged w _).
  set (w2 := foldl logged w1
               (if (k <? 1000)%nat then []
                else [EvPrintf "unable to find bp hitting state" []])).
  rewrite (bind_eq _ _ w1 w2 tt)
    by (subst w2; now destruct (k <? 1000)%nat).
  rewrite (bind_eq _ _ _ _ _ (dispatch_callback_run _ _ _)).
  rewrite (bind_eq _ _ _ _ _ (patch_snapshots_run _ _ _ _)).
  f_equal. unfold world_at_resume. fold bp.
  apply world_eq; cbn [wmem syscall_complete kernel_leak wheap wclock wlog];
    subst w2 w1;
    rewrite ?foldl_logged_wmem, ?foldl_logged_complete, ?foldl_logged_leak,
            ?foldl_logged_wheap, ?foldl_logged_wclock, ?foldl_logged_wlog;
    try reflexivity.
  unfold locate_log, hit_log. destruct (k <? 1000)%nat.
  - rewrite app_nil_r. rewrite <- !app_assoc. reflexivity.
  - rewrite <- !app_assoc. reflexivity.
Qed.

End HandleHit.

(** *** The forged contexts *)

(** Reading a field of a context after a chain of field writes: the write to
    the field itself gives the value, writes to other fields are skipped. *)
Ltac field_read :=
  unfold ctx_x, ctx_sp, ctx_pc, ctx_cpsr, ctx_flavor,
         set_x, set_sp, set_pc, set_cpsr, set_flavor,
         get64, get32, set64, set32, x_offset, zero_context;
  match goal with H : wf_environment _ |- _ => destruct H end;
  repeat (rewrite get_le_set_le_other by lia);
  first [ rewrite get_le_set_le_same
            by (rewrite ?set_le_length, ?length_replicate; lia)
        | rewrite get_le_replicate_0 ].

Section Forger.

Context (E : environment) (HE : wf_environment E).

Lemma zero_context_wf : wf_buf (sizeof_arm_context_t E) (zero_context E).
Proof. apply replicate_0_wf. Qed.

Lemma set_x_wf c i v :
  wf_buf (sizeof_arm_context_t E) c -> wf_buf (sizeof_arm_context_t E) (set_x E c i v).
Proof. apply set_le_wf. Qed.

Lemma set_sp_wf c v :
  wf_buf (sizeof_arm_context_t E) c -> wf_buf (sizeof_arm_context_t E) (set_sp E c v).
Proof. apply set_le_wf. Qed.

Lemma set_pc_wf c v :
  wf_buf (sizeof_arm_context_t E) c -> wf_buf (sizeof_arm_context_t E) (set_pc E c v).
Proof. apply set_le_wf. Qed.

Lemma set_cpsr_wf c v :
  wf_buf (sizeof_arm_context_t E) c -> wf_buf (sizeof_arm_context_t E) (set_cpsr E c v).
Proof. apply set_le_wf. Qed.

Lemma set_flavor_wf c v :
  wf_buf (sizeof_arm_context_t E) c -> wf_buf (sizeof_arm_context_t E) (set_flavor E c v).
Proof. apply set_le_wf. Qed.

Lemma fake_syscall_args_wf args :
  wf_buf (sizeof_arm_context_t E) (fake_syscall_args E args).
Proof.
  unfold fake_syscall_args.
  repeat first [apply set_cpsr_wf | apply set_flavor_wf | apply set_x_wf].
  apply zero_context_wf.
Qed.

Lemma syscall_eret_return_state_wf f a k :
  wf_buf (sizeof_arm_context_t E) (syscall_eret_return_state E f a k).
Proof.
  unfold syscall_eret_return_state.
  repeat first [apply set_cpsr_wf | apply set_pc_wf | apply set_sp_wf | apply set_x_wf].
  apply zero_context_wf.
Qed.

Lemma kde_eret_return_state_wf mid :
  wf_buf (sizeof_arm_context_t E) (kde_eret_return_state E mid).
Proof.
  unfold kde_eret_return_state.
  repeat first [apply set_cpsr_wf | apply set_pc_wf | apply set_sp_wf | apply set_x_wf].
  apply zero_context_wf.
Qed.

Lemma take_wf size (c : list Z) : wf_buf size c -> take size c = c.
Proof. intros [Hlen _]. apply take_ge. lia. Qed.

Lemma forged_cpsr_value : forged_cpsr = 0x1c4.
Proof. reflexivity. Qed.

Lemma syscall_eret_cpsr f a k :
  ctx_cpsr E (syscall_eret_return_state E f a k) = forged_cpsr.
Proof. unfold syscall_eret_return_state. field_read. reflexivity. Qed.

Lemma kde_eret_cpsr mid :
  ctx_cpsr E (kde_eret_return_state E mid) = forged_cpsr.
Proof. unfold kde_eret_return_state. field_read. reflexivity. Qed.

Lemma early_kalloc_run size w :
  early_kalloc E size w =
  (early_kalloc_nth E (wheap w) size,
   {| wmem := wmem w; syscall_complete := syscall_complete w;
      kernel_leak := kernel_leak w; wheap := S (wheap w);
      wclock := wclock w;
      wlog := wlog w ++ [EvEarlyKalloc size (early_kalloc_nth E (wheap w) size)] |}).
Proof. reflexivity. Qed.

Lemma do_syscall_log args w :
  let size := sizeof_arm_context_t E in
  let thread_t_addr := current_thread E in
  let fake_kern := early_kalloc_nth E (wheap w) (Z.of_nat size) in
  let fake := fake_syscall_args E args in
  let m1 := store_bytes (wmem w) fake_kern fake in
  let act_addr := add64 thread_t_addr (koffset E KSTRUCT_OFFSET_THREAD_CONTEXT_DATA) in
  let kstack_addr := add64 thread_t_addr (koffset E KSTRUCT_OFFSET_THREAD_KSTACKPTR) in
  let eret := syscall_eret_return_state E fake_kern (load64 m1 act_addr) (load64 m1 kstack_addr) in
  let eret_kern := early_kalloc_nth E (S (wheap w)) (Z.of_nat size) in
  wlog (do_syscall_with_pstate_d_unmasked E args w).2 =
  wlog w ++
  [EvEarlyKalloc (Z.of_nat size) fake_kern;
   EvKmemcpyTo fake_kern fake;
   EvRk64 act_addr;
   EvRk64 kstack_addr;
   EvEarlyKalloc (Z.of_nat size) eret_kern;
   EvKmemcpyTo eret_kern eret;
   EvKcall (ksym E KSYMBOL_X21_JOP_GADGET)
           [eret_kern; ksym E KSYMBOL_EXCEPTION_RETURN]].
Proof.
  cbv zeta. unfold do_syscall_with_pstate_d_unmasked.
  step early_kalloc_run.
  step kmemcpy_to_run.
  rewrite (take_wf _ _ (fake_syscall_args_wf _)).
  step rk64_run. step rk64_run.
  step early_kalloc_run.
  step kmemcpy_to_run.
  rewrite (take_wf _ _ (syscall_eret_return_state_wf _ _ _)).
  rewrite kcall_run, off_core_wlog. flat_world.
  rewrite <- !app_assoc. reflexivity.
Qed.

Lemma set_MDSCR_EL1_KDE_log port w :
  let size := sizeof_arm_context_t E in
  let rop_base := early_kalloc_nth E (wheap w) 0x1000 in
  let middle := add64 rop_base 0xc00 in
  let eret := kde_eret_return_state E middle in
  let eret_kern := early_kalloc_nth E (S (wheap w)) (Z.of_nat size) in
  wlog (set_MDSCR_EL1_KDE E port w).2 =
  wlog w ++
  [EvEarlyKalloc 0x1000 rop_base;
   EvKmemcpyTo (add64 middle 0x220)
     (concat (map (le_encode 8)
        [0; 0; 0; 0; 0x414243444546; ksym E KSYMBOL_THREAD_EXCEPTION_RETURN]));
   EvEarlyKalloc (Z.of_nat size) eret_kern;
   EvKmemcpyTo eret_kern eret;
   EvKcall (ksym E KSYMBOL_X21_JOP_GADGET)
           [eret_kern; ksym E KSYMBOL_EXCEPTION_RETURN];
   EvPrintf "returned from trying to set the KDE bit" []].
Proof.
  cbv zeta. unfold set_MDSCR_EL1_KDE.
  step early_kalloc_run.
  step kmemcpy_to_run.
  step early_kalloc_run.
  step kmemcpy_to_run.
  rewrite (take_wf _ _ (kde_eret_return_state_wf _)).
  rewrite bind_run, kcall_run, printf_run. cbn [snd].
  rewrite wlog_logged, off_core_wlog. flat_world.
  rewrite <- !app_assoc. reflexivity.
Qed.

End Forger.

(** *** The two writes of PATCH_AND_RESUME *)

Lemma wrap64_sub_wrap_r a b : wrap64 (a - wrap64 b) = wrap64 (a - b).
Proof. unfold wrap64. apply Zminus_mod_idemp_r. Qed.

Lemma wrap64_neg z : - 2 ^ 64 <= z < 0 -> wrap64 z = z + 2 ^ 64.
Proof.
  intros H. unfold wrap64.
  rewrite <- (Z.mod_add z 1 (2 ^ 64)) by lia.
  apply Z.mod_small. lia.
Qed.

(** Linear arithmetic on addresses, wrap-arounds included. *)
Ltac wrap_lia :=
  unfold add64, wrap64 in *; Z.div_mod_to_equations; lia.

Section Patch.

Context (E : environment) (HE : wf_environment E).

Lemma patched_mem_trap m looper k c :
  (k <= 1000)%nat ->
  wf_buf (sizeof_arm_context_t E) c ->
  load_bytes (patched_mem E m (trap_address E looper k) c looper)
             (trap_address E looper k) (sizeof_arm_context_t E) = c.
Proof.
  intros Hk Hc. pose proof Hc as [Hlen Hbytes].
  pose proof (wf_size E HE) as Hsize.
  pose proof (wf_pc_cpsr E HE) as H1. pose proof (wf_cpsr_end E HE) as H2.
  unfold patched_mem, store64. rewrite (take_wf _ _ Hc).
  rewrite load_bytes_store_apart.
  - pose proof (load_bytes_store_same m (trap_address E looper k) c Hbytes
                  ltac:(lia)) as Hsame.
    rewrite Hlen in Hsame. exact Hsame.
  - rewrite length_le_encode. unfold apart, trap_address. wrap_lia.
Qed.

Lemma patched_mem_looper_pc m looper k c :
  load64 (patched_mem E m (trap_address E looper k) c looper)
         (add64 looper (Z.of_nat (off_pc E)))
  = ksym E KSYMBOL_SLEH_SYNC_EPILOG.
Proof.
  unfold patched_mem. rewrite load64_store64_same.
  apply wrap64_small. apply (wf_ksym E HE).
Qed.

Lemma patched_mem_looper_rest m looper k c (j : nat) :
  (k <= 1000)%nat ->
  (j < sizeof_arm_context_t E)%nat ->
  ~ (off_pc E <= j < off_pc E + 8)%nat ->
  load8 (patched_mem E m (trap_address E looper k) c looper) (looper + Z.of_nat j)
  = load8 m (looper + Z.of_nat j).
Proof.
  intros Hk Hj Hnot.
  pose proof (wf_size E HE) as Hsize.
  pose proof (wf_pc_cpsr E HE) as H1. pose proof (wf_cpsr_end E HE) as H2.
  unfold patched_mem, store64.
  rewrite load8_store_outside.
  - apply load8_store_outside.
    rewrite length_take. unfold outside, trap_address. wrap_lia.
  - rewrite length_le_encode. unfold outside. wrap_lia.
Qed.

End Patch.


(** *** The window against kernel memory *)

Lemma load_bytes_congr m a b n :
  wrap64 a = wrap64 b -> load_bytes m a n = load_bytes m b n.
Proof.
  intros Hab. apply list_eq. intros k.
  destruct (decide (k < n)%nat) as [Hk|Hk].
  - rewrite !load_bytes_lookup by exact Hk. unfold load8.
    rewrite <- (wrap64_add_wrap_l a), <- (wrap64_add_wrap_l b).
    now rewrite Hab.
  - rewrite !lookup_ge_None_2; [reflexivity| |]; rewrite load_bytes_length; lia.
Qed.

Lemma stack_of_bytes_lookup m sp (j : nat) :
  (j < 128)%nat ->
  stack_of_bytes (load_bytes m sp 1024) !! j
  = Some (load64 m (sp + 8 * Z.of_nat j)).
Proof.
  intros Hj. unfold stack_of_bytes.
  rewrite list_lookup_fmap, lookup_seq_lt by exact Hj. cbn [fmap option_fmap option_map].
  unfold get64. rewrite get_le_load_bytes by lia.
  unfold load64. do 3 f_equal. lia.
Qed.

Section Window.

Context (E : environment).

Lemma saved_state_pc_beyond (stack : list Z) (i : nat) :
  (length stack <= i + off_pc E / 8)%nat ->
  saved_state_pc E stack i = frame_beyond E (i + off_pc E / 8).
Proof.
  intros Hlen. unfold saved_state_pc, frame_word.
  now rewrite lookup_ge_None_2 by exact Hlen.
Qed.

Lemma wait_spin_found_run fuel thread_t_addr looper_pc w i :
  syscall_complete w = false ->
  polled_sp E (wmem w) thread_t_addr <> 0 ->
  (scan_stack E
     (stack_of_bytes
        (load_bytes (wmem w) (polled_sp E (wmem w) thread_t_addr) 1024))
     looper_pc).1 = Some i ->
  wait_spin E (S fuel) thread_t_addr looper_pc w =
  (SpinFound (add64 (polled_sp E (wmem w) thread_t_addr) (Z.of_nat i * 8)),
   foldl logged w
     (poll_log E (wmem w) thread_t_addr ++
      [EvPrintf "found the saved state probably at %llx"
         [add64 (polled_sp E (wmem w) thread_t_addr) (Z.of_nat i * 8)]])).
Proof.
  intros Hc Hsp Hscan. unfold polled_sp in *.
  cbn [wait_spin]. unfold bind at 1. cbn [read_syscall_complete]. rewrite Hc.
  cbn -[load64 load_bytes scan_stack stack_of_bytes ctx_sp add64 Z.eqb].
  apply Z.eqb_neq in Hsp. rewrite Hsp.
  cbn -[load64 load_bytes scan_stack stack_of_bytes ctx_sp add64 Z.eqb].
  rewrite Hscan.
  cbn -[load64 load_bytes scan_stack stack_of_bytes ctx_sp add64 Z.eqb].
  reflexivity.
Qed.

End Window.

Section WindowMemory.

Context (E : environment) (HE : wf_environment E).

Lemma load64_reported_address m sp (i : nat) :
  load64 m (add64 sp (Z.of_nat i * 8)) = load64 m (sp + 8 * Z.of_nat i).
Proof.
  unfold load64. f_equal. apply load_bytes_congr.
  unfold add64. rewrite wrap64_idem. f_equal. lia.
Qed.

Lemma snapshot_pc_in_memory_word m sp (i : nat) :
  snapshot_pc_in_memory E m sp i
  = load64 m (sp + 8 * Z.of_nat (i + off_pc E / 8)).
Proof.
  pose proof (wf_pc_cpsr E HE) as H1. pose proof (wf_cpsr_end E HE) as H2.
  pose proof (wf_pc_aligned E HE) as Hal.
  pose proof (Nat.div_mod_eq (off_pc E) 8) as Hdm.
  unfold snapshot_pc_in_memory, ctx_pc, get64.
  rewrite get_le_load_bytes by lia.
  unfold load64. f_equal. apply load_bytes_congr.
  unfold add64. rewrite wrap64_add_wrap_l. f_equal. lia.
Qed.

(** Where the [pc] field of a candidate lies inside the window, the test
    the scan makes on the copied words is the test on the state in kernel
    memory. *)
Lemma spin_snapshot_at_in_memory m sp looper_pc (i : nat) :
  (i + off_pc E / 8 < 128)%nat ->
  spin_snapshot_at E (stack_of_bytes (load_bytes m sp 1024)) looper_pc i <->
  spin_snapshot_in_memory E m sp looper_pc i.
Proof.
  intros Hi. unfold spin_snapshot_at, spin_snapshot_in_memory.
  unfold saved_state_pc, frame_word.
  rewrite !stack_of_bytes_lookup by lia. cbn [default from_option].
  rewrite load64_reported_address, snapshot_pc_in_memory_word.
  split.
  - intros [[= Ht] Hp]. split; assumption.
  - intros [Ht Hp]. split; [now f_equal | assumption].
Qed.

End WindowMemory.

Section WindowEndScan.

Context (E : environment).

(** Past the point where the [pc] field of a candidate still lies inside
    the window, a sole tagged word is selected or not by the word of the
    monitor's frame that the scan reads instead. *)
Lemma scan_stack_sole_tag_beyond (stack : list Z) (looper_pc : Z) (i : nat) :
  length stack = 128%nat ->
  (i < 128)%nat ->
  (128 <= i + off_pc E / 8)%nat ->
  (forall j : nat, stack !! j = Some (flavor_and_count_tag E) <-> j = i) ->
  (scan_stack E stack looper_pc).1 =
  if frame_beyond E (i + off_pc E / 8) =? looper_pc then Some i else None.
Proof.
  intros Hlen Hi Hpc Htag.
  pose proof (scan_stack_spec E stack looper_pc Hlen) as Hspec.
  pose proof (saved_state_pc_beyond E stack i ltac:(lia)) as Hbeyond.
  destruct (scan_stack E stack looper_pc) as [[k|] probes]; cbn [fst].
  - destruct Hspec as (_ & [Hk Hkpc] & _).
    apply Htag in Hk. subst k. rewrite Hbeyond in Hkpc.
    apply Z.eqb_eq in Hkpc. now rewrite Hkpc.
  - destruct Hspec as (Hnone & _).
    destruct (Z.eqb_spec (frame_beyond E (i + off_pc E / 8)) looper_pc)
      as [Heq|Hne]; [|reflexivity].
    exfalso. apply (Hnone i Hi). split.
    + now apply Htag.
    + now rewrite Hbeyond.
Qed.

End WindowEndScan.

(** The sample environment is well formed. *)
Lemma sample_environment_wf : wf_environment sample_environment.
Proof.
  split; unfold sample_environment;
    cbn [ARM_SAVED_STATE64 ARM_SAVED_STATE64_COUNT sizeof_arm_context_t
         off_flavor off_x off_sp off_pc off_cpsr off_bvr0 off_bcr0 ksym
         early_kalloc_nth]; try lia.
  - reflexivity.
  - intros s. destruct s; cbn [sample_ksym]; lia.
  - intros n size. apply wrap64_range.
Qed.

Lemma sample_environment_stale_wf : wf_environment sample_environment_stale.
Proof.
  destruct sample_environment_wf. split; assumption.
Qed.
(* ================================================================== *)
(** * Part III: the claims *)
(* ================================================================== *)

(** C1 (what the code does).  The scan tests the tag on the copied word
    [stack[i]] and the [pc] on the word [off_pc / 8] words further on, which
    for a candidate near the end of the window lies past [stack[127]], in
    the monitor's own frame.  So: a word whose tag differs is never
    selected, at most 128 words are examined and the address reported is
    [sp + 8 * i]; where the [pc] field lies inside the window the scan's
    test is the claim's test on the state in kernel memory, and the first
    such state is found; but for a sole tagged word with
    [i + off_pc / 8 >= 128] the poll finds it or not by what the frame holds
    beyond the array, whatever the [pc] of the state in kernel memory is. *)
Theorem wait_spin_tests_pc_through_window_end
    (E : environment) (HE : wf_environment E)
    (w : world) (thread_t_addr looper_pc : Z) (fuel : nat) :
  let m := wmem w in
  let sp := polled_sp E m thread_t_addr in
  let stack := stack_of_bytes (load_bytes m sp 1024) in
  let r := scan_stack E stack looper_pc in
  let tag := flavor_and_count_tag E in
  syscall_complete w = false ->
  sp <> 0 ->
  (forall k : nat, r.1 = Some k ->
     (k < 128)%nat /\
     load64 m (add64 sp (Z.of_nat k * 8)) = tag /\
     r.2 = S k /\
     (wait_spin E (S fuel) thread_t_addr looper_pc w).1
       = SpinFound (add64 sp (Z.of_nat k * 8))) /\
  (r.2 <= 128)%nat /\
  (forall i : nat, (i + off_pc E / 8 < 128)%nat ->
     (spin_snapshot_at E stack looper_pc i <->
      spin_snapshot_in_memory E m sp looper_pc i)) /\
  (forall i : nat, (i + off_pc E / 8 < 128)%nat ->
     spin_snapshot_in_memory E m sp looper_pc i ->
     (forall j : nat, (j < i)%nat ->
        ~ spin_snapshot_in_memory E m sp looper_pc j) ->
     r = (Some i, S i) /\
     (wait_spin E (S fuel) thread_t_addr looper_pc w).1
       = SpinFound (add64 sp (Z.of_nat i * 8))) /\
  (forall i : nat, (i < 128)%nat -> (128 <= i + off_pc E / 8)%nat ->
     (forall j : nat, (j < 128)%nat ->
        (load64 m (add64 sp (Z.of_nat j * 8)) = tag <-> j = i)) ->
     (wait_spin E (S fuel) thread_t_addr looper_pc w).1 =
       if frame_beyond E (i + off_pc E / 8) =? looper_pc
       then SpinFound (add64 sp (Z.of_nat i * 8))
       else SpinNotFound).
Proof.
  intros m sp stack r tag Hc Hsp.
  assert (Hlen : length stack = 128%nat) by apply stack_of_bytes_length.
  pose proof (scan_stack_spec E stack looper_pc Hlen) as Hspec.
  pose proof (wait_spin_scans E fuel thread_t_addr looper_pc w Hc Hsp) as Hpoll.
  fold m sp stack in Hpoll. fold r in Hpoll, Hspec.
  assert (Hmem : forall i : nat, (i + off_pc E / 8 < 128)%nat ->
            (spin_snapshot_at E stack looper_pc i <->
             spin_snapshot_in_memory E m sp looper_pc i)).
  { intros i Hi. apply (spin_snapshot_at_in_memory E HE); exact Hi. }
  split; [|split; [|split; [exact Hmem|split]]].
  - intros k Hk. rewrite Hpoll, Hk.
    destruct r as [[k'|] probes]; cbn [fst snd] in *; [|discriminate].
    injection Hk as ->. destruct Hspec as (Hlt & [Ht _] & _ & Hp).
    split; [exact Hlt|]. split; [|split; [exact Hp | reflexivity]].
    unfold stack in Ht. rewrite stack_of_bytes_lookup in Ht by exact Hlt.
    injection Ht as Ht. now rewrite load64_reported_address.
  - destruct r as [[k|] probes]; cbn [fst snd] in *.
    + destruct Hspec as (Hlt & _ & _ & ->). lia.
    + destruct Hspec as (_ & ->). lia.
  - intros i Hi Hin Hfirst.
    assert (Hr : r = (Some i, S i)).
    { destruct r as [[k|] probes]; cbn [fst snd] in *.
      - destruct Hspec as (Hlt & Hat & Hbefore & ->).
        assert (k = i) as ->; [|reflexivity].
        destruct (Nat.lt_trichotomy k i) as [Hki | [Heq | Hik]]; [|exact Heq|].
        + exfalso. apply (Hfirst k Hki). apply Hmem; [lia | exact Hat].
        + exfalso. apply (Hbefore i Hik). now apply Hmem.
      - destruct Hspec as (Hnone & _). exfalso.
        apply (Hnone i ltac:(lia)). now apply Hmem. }
    split; [exact Hr|]. rewrite Hpoll, Hr. reflexivity.
  - intros i Hi Hend Hsole. rewrite Hpoll. unfold r.
    rewrite (scan_stack_sole_tag_beyond E stack looper_pc i Hlen Hi Hend).
    + now destruct (_ =? looper_pc).
    + intros j. destruct (decide (j < 128)%nat) as [Hj|Hj].
      * unfold stack. rewrite stack_of_bytes_lookup by exact Hj.
        rewrite <- load64_reported_address. rewrite <- (Hsole j Hj).
        split; [now intros [= ?] | now intros ->].
      * split; [|intros ->; lia]. intros Hl. exfalso.
        rewrite lookup_ge_None_2 in Hl by (rewrite Hlen; lia).
        discriminate Hl.
Qed.

(** The failing inputs.  In [sample_mem_late] the only saved state of the
    spin loop above [sp] starts at word 100: the poll reads its [pc] past
    [stack[127]], where the sample frame holds zero, and gives up.  In
    [sample_mem_stray] the tagged word at word 100 starts a state whose [pc]
    is [0xdead]: with a frame that holds the spin-loop address beyond the
    array the poll selects it. *)
Lemma wait_spin_tests_pc_through_window_end_witness :
  (spin_snapshot_in_memory sample_environment sample_mem_late sample_sp
     0xfffffff0071de070 100 /\
   (wait_spin sample_environment 1 sample_thread 0xfffffff0071de070
      (world_of sample_mem_late false)).1 = SpinNotFound) /\
  (snapshot_pc_in_memory sample_environment_stale sample_mem_stray sample_sp 100
     = 0xdead /\
   (wait_spin sample_environment_stale 1 sample_thread 0xfffffff0071de070
      (world_of sample_mem_stray false)).1 = SpinFound (sample_sp + 800)).
Proof.
  assert (Hsole : forall (E : environment) (m : kmem),
            forallb (fun j : nat =>
                       Bool.eqb (load64 m (add64 sample_sp (Z.of_nat j * 8))
                                 =? flavor_and_count_tag E)
                                (j =? 100)%nat)
                    (seq 0 128) = true ->
            forall j : nat, (j < 128)%nat ->
              (load64 m (add64 sample_sp (Z.of_nat j * 8))
                 = flavor_and_count_tag E <-> j = 100%nat)).
  { intros E m Hall j Hj. rewrite forallb_forall in Hall.
    specialize (Hall j ltac:(apply in_seq; lia)).
    apply Bool.eqb_prop in Hall.
    rewrite <- Z.eqb_eq, <- Nat.eqb_eq, Hall. reflexivity. }
  split.
  - split; [split; vm_compute; reflexivity|].
    assert (Hsp : polled_sp sample_environment
                    (wmem (world_of sample_mem_late false)) sample_thread
                  = sample_sp) by (vm_compute; reflexivity).
    assert (Hnz : polled_sp sample_environment
                    (wmem (world_of sample_mem_late false)) sample_thread <> 0).
    { rewrite Hsp. unfold sample_sp. lia. }
    pose proof (proj2 (proj2 (proj2 (proj2
                  (wait_spin_tests_pc_through_window_end
                     sample_environment sample_environment_wf
                     (world_of sample_mem_late false) sample_thread
                     0xfffffff0071de070 0 eq_refl Hnz)))) 100%nat)
      as Hlate.
    rewrite Hsp in Hlate.
    rewrite Hlate.
    + reflexivity.
    + lia.
    + vm_compute. lia.
    + apply Hsole. vm_compute. reflexivity.
  - split; [vm_compute; reflexivity|].
    assert (Hsp : polled_sp sample_environment_stale
                    (wmem (world_of sample_mem_stray false)) sample_thread
                  = sample_sp) by (vm_compute; reflexivity).
    assert (Hnz : polled_sp sample_environment_stale
                    (wmem (world_of sample_mem_stray false)) sample_thread <> 0).
    { rewrite Hsp. unfold sample_sp. lia. }
    pose proof (proj2 (proj2 (proj2 (proj2
                  (wait_spin_tests_pc_through_window_end
                     sample_environment_stale sample_environment_stale_wf
                     (world_of sample_mem_stray false) sample_thread
                     0xfffffff0071de070 0 eq_refl Hnz)))) 100%nat)
      as Hstray.
    rewrite Hsp in Hstray.
    rewrite Hstray.
    + vm_compute. reflexivity.
    + lia.
    + vm_compute. lia.
    + apply Hsole. vm_compute. reflexivity.
Defined.

(** C8.  When [syscall_complete] is set at the start of a polling
    iteration, WAIT_SPIN returns in that iteration and
    [handle_kernel_bp_hits]'s loop returns with it, leaving the world as it
    was: no kernel memory is read, nothing is logged, no scan is made. *)
Theorem wait_spin_returns_at_once_when_complete
    (E : environment) (fuel : nat)
    (target_thread_port thread_t_addr looper_pc breakpoint : Z)
    (callback : breakpoint_callback) (w : world) :
  syscall_complete w = true ->
  wait_spin E (S fuel) thread_t_addr looper_pc w = (SpinComplete, w) /\
  handle_loop E (S fuel) target_thread_port thread_t_addr looper_pc
              breakpoint callback w = (ExitComplete, w).
Proof.
  intros Hc. split.
  - now apply wait_spin_complete.
  - cbn [handle_loop]. rewrite bind_run.
    now rewrite wait_spin_complete by exact Hc.
Qed.

Lemma wait_spin_returns_at_once_when_complete_witness :
  wlog (handle_loop sample_environment 1 0x1103 sample_thread
          0xfffffff0071de070 0xfffffff0073f3f7c
          (sample_callback sample_environment) (sample_world true)).2 = [].
Proof.
  rewrite (proj2 (wait_spin_returns_at_once_when_complete
                    sample_environment 0 0x1103 sample_thread
                    0xfffffff0071de070 0xfffffff0073f3f7c
                    (sample_callback sample_environment) (sample_world true)
                    eq_refl)).
  reflexivity.
Defined.

(** C5.  The context that [do_syscall_with_pstate_d_unmasked] and the one
    that [set_MDSCR_EL1_KDE] copy out and hand to the exception-return
    gadget carry the status word [0x1c4]: bits 8 (A), 7 (I) and 6 (F) set,
    bit 9 (D) clear, mode field [0x4] (EL1 on SP_EL0). *)
Theorem forged_status_words_mask_async_not_debug
    (E : environment) (HE : wf_environment E)
    (args : syscall_args) (port : Z) (w : world) :
  let size := sizeof_arm_context_t E in
  (* do_syscall_with_pstate_d_unmasked *)
  let fake_kern := early_kalloc_nth E (wheap w) (Z.of_nat size) in
  let m1 := store_bytes (wmem w) fake_kern (fake_syscall_args E args) in
  let act_addr :=
    add64 (current_thread E) (koffset E KSTRUCT_OFFSET_THREAD_CONTEXT_DATA) in
  let kstack_addr :=
    add64 (current_thread E) (koffset E KSTRUCT_OFFSET_THREAD_KSTACKPTR) in
  let eret :=
    syscall_eret_return_state E fake_kern (load64 m1 act_addr)
                              (load64 m1 kstack_addr) in
  let eret_kern := early_kalloc_nth E (S (wheap w)) (Z.of_nat size) in
  (* set_MDSCR_EL1_KDE *)
  let middle := add64 (early_kalloc_nth E (wheap w) 0x1000) 0xc00 in
  let kde := kde_eret_return_state E middle in
  (exists before,
     wlog (do_syscall_with_pstate_d_unmasked E args w).2 =
     before ++
     [EvKmemcpyTo eret_kern eret;
      EvKcall (ksym E KSYMBOL_X21_JOP_GADGET)
              [eret_kern; ksym E KSYMBOL_EXCEPTION_RETURN]]) /\
  ctx_cpsr E eret = 0x1c4 /\
  masks_async_not_debug (ctx_cpsr E eret) /\
  (exists before,
     wlog (set_MDSCR_EL1_KDE E port w).2 =
     before ++
     [EvKmemcpyTo eret_kern kde;
      EvKcall (ksym E KSYMBOL_X21_JOP_GADGET)
              [eret_kern; ksym E KSYMBOL_EXCEPTION_RETURN];
      EvPrintf "returned from trying to set the KDE bit" []]) /\
  ctx_cpsr E kde = 0x1c4 /\
  masks_async_not_debug (ctx_cpsr E kde).
Proof.
  intros.
  assert (Hok : masks_async_not_debug 0x1c4) by (repeat split).
  split; [|split; [|split; [|split; [|split]]]].
  - eexists. rewrite (do_syscall_log E args w).
    apply (app_assoc (wlog w) [_; _; _; _; _] [_; _]).
  - apply (syscall_eret_cpsr E HE).
  - unfold eret. rewrite (syscall_eret_cpsr E HE). exact Hok.
  - eexists. rewrite (set_MDSCR_EL1_KDE_log E port w).
    apply (app_assoc (wlog w) [_; _; _] [_; _; _]).
  - apply (kde_eret_cpsr E HE).
  - unfold kde. rewrite (kde_eret_cpsr E HE). exact Hok.
Qed.

Lemma forged_status_words_mask_async_not_debug_witness :
  masks_async_not_debug
    (ctx_cpsr sample_environment
       (kde_eret_return_state sample_environment
          (add64 (early_kalloc_nth sample_environment 0 0x1000) 0xc00))).
Proof.
  exact (proj2 (proj2 (proj2 (proj2 (proj2
    (forged_status_words_mask_async_not_debug
       sample_environment sample_environment_wf
       sample_syscall_args 0x1103 (sample_world false))))))).
Defined.

(** C6.  [do_syscall_with_pstate_d_unmasked] copies out an entry context
    with flavor [ARM_SAVED_STATE64], [x16] the syscall number and [x0..x7]
    the eight arguments, and then a dispatch context with [x0] the kernel
    address of that entry context, [x1 = 0x15 << 26], [x21] the thread's
    saved-context address and [sp] its kernel stack top as they stand in
    kernel memory, and [pc] the address after the link-register check;
    provided the block the allocator returned for the entry context does not
    cover the two fields of the thread that are read. *)
Theorem do_syscall_builds_entry_and_dispatch_contexts
    (E : environment) (HE : wf_environment E)
    (args : syscall_args) (Hargs : wf_syscall_args args) (w : world) :
  let size := sizeof_arm_context_t E in
  let fake_kern := early_kalloc_nth E (wheap w) (Z.of_nat size) in
  let fake := fake_syscall_args E args in
  let m1 := store_bytes (wmem w) fake_kern fake in
  let act_addr :=
    add64 (current_thread E) (koffset E KSTRUCT_OFFSET_THREAD_CONTEXT_DATA) in
  let kstack_addr :=
    add64 (current_thread E) (koffset E KSTRUCT_OFFSET_THREAD_KSTACKPTR) in
  let eret :=
    syscall_eret_return_state E fake_kern (load64 m1 act_addr)
                              (load64 m1 kstack_addr) in
  let eret_kern := early_kalloc_nth E (S (wheap w)) (Z.of_nat size) in
  apart fake_kern size act_addr 8 ->
  apart fake_kern size kstack_addr 8 ->
  wlog (do_syscall_with_pstate_d_unmasked E args w).2 =
    wlog w ++
    [EvEarlyKalloc (Z.of_nat size) fake_kern;
     EvKmemcpyTo fake_kern fake;
     EvRk64 act_addr;
     EvRk64 kstack_addr;
     EvEarlyKalloc (Z.of_nat size) eret_kern;
     EvKmemcpyTo eret_kern eret;
     EvKcall (ksym E KSYMBOL_X21_JOP_GADGET)
             [eret_kern; ksym E KSYMBOL_EXCEPTION_RETURN]] /\
  ctx_flavor E fake = ARM_SAVED_STATE64 E /\
  ctx_x E fake 16 = number args /\
  (forall i : nat, (i < 8)%nat -> ctx_x E fake i = arg args !!! i) /\
  ctx_x E eret 0 = fake_kern /\
  ctx_x E eret 1 = Z.shiftl 0x15 26 /\
  ctx_x E eret 21 = load64 (wmem w) act_addr /\
  ctx_sp E eret = load64 (wmem w) kstack_addr /\
  ctx_pc E eret = ksym E KSYMBOL_VALID_LINK_REGISTER.
Proof.
  intros size fake_kern fake m1 act_addr kstack_addr eret eret_kern
         Hact Hkstack.
  assert (Hlen : length fake = size).
  { apply (fake_syscall_args_wf E args). }
  assert (Hm1 : forall a, apart fake_kern size a 8 -> load64 m1 a = load64 (wmem w) a).
  { intros a Ha. unfold load64, m1. f_equal.
    apply load_bytes_store_apart. now rewrite Hlen. }
  destruct Hargs as (Hnum & Harglen & Hargrange).
  assert (Harg : forall i : nat, (i < 8)%nat -> 0 <= arg args !!! i < 2 ^ 64).
  { intros i Hi. rewrite Forall_lookup in Hargrange.
    apply (Hargrange i). apply list_lookup_lookup_total_lt. lia. }
  pose proof (wf_early_kalloc E HE (wheap w) (Z.of_nat size)) as Hfk.
  pose proof (wf_ksym E HE KSYMBOL_VALID_LINK_REGISTER) as Hvl.
  pose proof (load64_range (wmem w) act_addr) as Hra.
  pose proof (load64_range (wmem w) kstack_addr) as Hrk.
  pose proof (wf_flavor E HE) as Hfl.
  split; [apply (do_syscall_log E args w)|].
  split; [|split; [|split; [|split; [|split; [|split; [|split]]]]]].
  - unfold fake, fake_syscall_args. field_read. apply Z.mod_small. lia.
  - unfold fake, fake_syscall_args. field_read. apply Z.mod_small. lia.
  - intros i Hi. pose proof (Harg i Hi) as Hr.
    unfold fake, fake_syscall_args.
    do 8 (destruct i as [|i]; [field_read; apply Z.mod_small; exact Hr|]).
    lia.
  - unfold eret, syscall_eret_return_state. field_read.
    apply Z.mod_small. exact Hfk.
  - unfold eret, syscall_eret_return_state. field_read. reflexivity.
  - unfold eret, syscall_eret_return_state. rewrite (Hm1 _ Hact). field_read.
    apply Z.mod_small. exact Hra.
  - unfold eret, syscall_eret_return_state. rewrite (Hm1 _ Hkstack). field_read.
    apply Z.mod_small. exact Hrk.
  - unfold eret, syscall_eret_return_state. field_read.
    apply Z.mod_small. exact Hvl.
Qed.

Lemma sample_syscall_args_wf : wf_syscall_args sample_syscall_args.
Proof.
  split; [cbn; lia|]. split; [reflexivity|].
  repeat constructor; cbn; lia.
Qed.

(** Decide a closed instance of [apart]. *)
Ltac apart_closed :=
  split; apply Z.leb_le; vm_compute; reflexivity.

Lemma do_syscall_builds_entry_and_dispatch_contexts_witness :
  let fake := fake_syscall_args sample_environment sample_syscall_args in
  let eret :=
    syscall_eret_return_state sample_environment 0xffffffe001000000
      0xffffffe000500000 sample_kstack in
  ctx_x sample_environment fake 16 = 4 /\
  ctx_x sample_environment fake 1 = 0x100003f00 /\
  ctx_x sample_environment eret 0 = 0xffffffe001000000 /\
  ctx_x sample_environment eret 21 = 0xffffffe000500000 /\
  ctx_sp sample_environment eret = sample_kstack.
Proof.
  pose proof (do_syscall_builds_entry_and_dispatch_contexts
                sample_environment sample_environment_wf
                sample_syscall_args sample_syscall_args_wf (sample_world false)
                ltac:(apart_closed) ltac:(apart_closed))
    as (_ & _ & H16 & Hargs & H0 & _ & H21 & Hsp & _).
  cbv zeta.
  split; [exact H16|]. split; [exact (Hargs 1%nat ltac:(lia))|].
  split; [exact H0|].
  split.
  - vm_compute in H21. vm_compute. exact H21.
  - vm_compute in Hsp. vm_compute. exact Hsp.
Defined.

(** C2.  Whatever the callback did to its copy, when [handle_hit] yields to
    the debuggee the bytes of the trap snapshot in kernel memory are exactly
    the callback's modified copy (so a byte the callback left as it was read
    still holds what was read, unless the callback itself wrote kernel memory
    there), the [pc] field of the outer snapshot holds the epilogue address,
    and every other byte of the outer snapshot is as the callback left
    kernel memory. *)
Theorem patch_writes_back_copy_and_only_outer_pc
    (E : environment) (HE : wf_environment E)
    (port looper breakpoint : Z) (callback : breakpoint_callback) (w : world) :
  let size := sizeof_arm_context_t E in
  (forall m c, wf_buf size c -> wf_buf size (callback m c).2) ->
  exists k : nat,
    (k <= 1000)%nat /\
    let a := trap_address E looper k in
    let read := load_bytes (wmem w) a size in
    let after_callback := (callback (wmem w) read).1 in
    let modified := (callback (wmem w) read).2 in
    let W := world_at_resume E w looper breakpoint callback k in
    (locate_trap E looper breakpoint w).1.1 = a /\
    handle_hit E port looper breakpoint callback w =
      bind (thread_switch E port) (fun _ => swtch_pri E) W /\
    load_bytes (wmem W) a size = modified /\
    (forall j : nat, (j < size)%nat ->
       modified !! j = read !! j ->
       load8 (wmem W) (a + Z.of_nat j) = load8 (wmem w) (a + Z.of_nat j)) /\
    load64 (wmem W) (add64 looper (Z.of_nat (off_pc E)))
      = ksym E KSYMBOL_SLEH_SYNC_EPILOG /\
    (forall j : nat, (j < size)%nat ->
       ~ (off_pc E <= j < off_pc E + 8)%nat ->
       load8 (wmem W) (looper + Z.of_nat j)
       = load8 after_callback (looper + Z.of_nat j)).
Proof.
  intros size Hcb.
  destruct (handle_hit_spec E port looper breakpoint callback w)
    as (k & Hk & _ & _ & Hloc & Hrun).
  exists k. split; [exact Hk|].
  intros a read after_callback modified W.
  split; [now rewrite Hloc|].
  assert (Hmod : wf_buf size modified).
  { apply Hcb. apply load_bytes_wf. }
  assert (Htrap : load_bytes (wmem W) a size = modified).
  { apply (patched_mem_trap E HE); assumption. }
  split; [exact Hrun|]. split; [exact Htrap|]. split; [|split].
  - intros j Hj Hsame.
    assert (Hl : load_bytes (wmem W) a size !! j = read !! j)
      by (rewrite Htrap; exact Hsame).
    unfold read in Hl. rewrite !load_bytes_lookup in Hl by exact Hj.
    congruence.
  - apply (patched_mem_looper_pc E HE).
  - intros j Hj Hnot. apply (patched_mem_looper_rest E HE); assumption.
Qed.

Lemma sample_callback_wf (E : environment) m c :
  wf_buf (sizeof_arm_context_t E) c ->
  wf_buf (sizeof_arm_context_t E) (sample_callback E m c).2.
Proof. intros Hc. cbn [sample_callback snd]. now apply set_x_wf, set_pc_wf. Qed.

(** On the sample world, with the sample callback: the state written back
    has [pc] moved on by 4 and [x8 = 0x1234], its [x2] is as it was read, and
    the looper's [pc] is the epilogue. *)
Lemma patch_writes_back_copy_and_only_outer_pc_witness :
  exists k : nat,
    let W := world_at_resume sample_environment (sample_world false)
               sample_looper 0xfffffff0073f3f7c
               (sample_callback sample_environment) k in
    let after := load_bytes (wmem W) sample_trap 816 in
    trap_address sample_environment sample_looper k = sample_trap /\
    ctx_pc sample_environment after = 0xfffffff0073f3f80 /\
    ctx_x sample_environment after 8 = 0x1234 /\
    ctx_x sample_environment after 1 = 0xffffffe000600000 /\
    load64 (wmem W) (sample_looper + 264) = 0xfffffff0071de074.
Proof.
  destruct (patch_writes_back_copy_and_only_outer_pc
              sample_environment sample_environment_wf
              0x1103 sample_looper 0xfffffff0073f3f7c
              (sample_callback sample_environment) (sample_world false)
              (sample_callback_wf sample_environment))
    as (k & Hk & Hloc & _ & Htrap & _ & Hpc & _).
  exists k. cbv zeta in *.
  assert (Ha : trap_address sample_environment sample_looper k = sample_trap).
  { rewrite <- Hloc. vm_compute. reflexivity. }
  rewrite Ha in Htrap.
  change (sizeof_arm_context_t sample_environment) with 816%nat in Htrap.
  split; [exact Ha|]. rewrite Htrap.
  split; [vm_compute; reflexivity|].
  split; [vm_compute; reflexivity|].
  split; [vm_compute; reflexivity|].
  replace (sample_looper + 264)
    with (add64 sample_looper (Z.of_nat (off_pc sample_environment)))
    by (vm_compute; reflexivity).
  rewrite Hpc. reflexivity.
Defined.






(** C3 (what the code does).  A poll that finds [syscall_complete] unset, a
    non-null [sp] and no spin snapshot in the window logs that it is
    "waiting a bit then trying again", sleeps one second, and then
    [handle_kernel_bp_hits] returns: the monitor has stopped polling without
    having seen the completion flag. *)
Theorem monitor_returns_after_failed_scan
    (E : environment) (fuel : nat) (port looper_pc breakpoint : Z)
    (callback : breakpoint_callback) (w : world) :
  let thread_t_addr :=
    load64 (wmem w)
      (add64 (find_port_address E port MACH_MSG_TYPE_COPY_SEND)
             (koffset E KSTRUCT_OFFSET_IPC_PORT_IP_KOBJECT)) in
  let sp := polled_sp E (wmem w) thread_t_addr in
  let r := handle_kernel_bp_hits E (S fuel) port looper_pc breakpoint callback w in
  syscall_complete w = false ->
  sp <> 0 ->
  (scan_stack E (stack_of_bytes (load_bytes (wmem w) sp 1024)) looper_pc).1 = None ->
  r.1 = ExitNotFound /\
  exists before,
    wlog r.2 =
    before ++
    [EvPrintf "unable to find the saved scheduler tick state on the stack, waiting a bit then trying again..." [];
     EvSleep 1].
Proof.
  intros thread_t_addr sp r Hc Hsp Hscan. unfold r.
  unfold handle_kernel_bp_hits.
  rewrite (bind_eq _ _ w
             (logged w (EvRk64
                (add64 (find_port_address E port MACH_MSG_TYPE_COPY_SEND)
                       (koffset E KSTRUCT_OFFSET_IPC_PORT_IP_KOBJECT))))
             thread_t_addr) by reflexivity.
  cbn [handle_loop].
  erewrite bind_eq by (apply wait_spin_not_found_run; assumption).
  cbn [ret fst snd]. split; [reflexivity|].
  rewrite off_core_wlog, foldl_logged_wlog. cbn [wlog logged wmem].
  eexists. rewrite !app_assoc. reflexivity.
Qed.

(** The failing input: the sample thread is off its core, its window holds
    no saved state and nobody sets [syscall_complete].  The monitor returns
    with the flag still unset. *)
Lemma monitor_returns_after_failed_scan_witness :
  let r := handle_kernel_bp_hits sample_environment 1 0x1103
             0xfffffff0071de070 0xfffffff0073f3f7c
             (sample_callback sample_environment)
             (world_of sample_mem_idle false) in
  r.1 = ExitNotFound /\ syscall_complete r.2 = false.
Proof.
  split.
  - apply (monitor_returns_after_failed_scan
             sample_environment 0 0x1103 0xfffffff0071de070
             0xfffffff0073f3f7c (sample_callback sample_environment)
             (world_of sample_mem_idle false)).
    + reflexivity.
    + vm_compute. discriminate.
    + vm_compute. reflexivity.
  - vm_compute. reflexivity.
Defined.


(** *** Arming the breakpoint *)

Lemma wrap32_lor a b : wrap32 (Z.lor a b) = Z.lor (wrap32 a) (wrap32 b).
Proof.
  unfold wrap32. rewrite <- !Z.land_ones by lia. apply Z.land_lor_distr_l.
Qed.

Lemma set_hw_breakpoint_wmem (E : environment) (bp_address : Z) (w : world) :
  wmem (set_hw_breakpoint E bp_address w).2 =
  host_thread_set_state E (wmem w) (mach_thread_self E)
    {| bvr := <[0%nat := bp_address]> (replicate 16 0);
       bcr := <[0%nat := Z.lor BCR_BAS_ALL BCR_E]> (replicate 16 0) |}.
Proof.
  unfold set_hw_breakpoint, zero_debug_state. cbn [bvr bcr].
  step thread_set_state_run. step thread_get_state_run.
  unfold when. now destruct (negb _).
Qed.

Lemma arm_breakpoint_run (E : environment) (bp_address : Z) (w : world) :
  let self := mach_thread_self E in
  let st := {| bvr := <[0%nat := bp_address]> (replicate 16 0);
               bcr := <[0%nat := Z.lor BCR_BAS_ALL BCR_E]> (replicate 16 0) |} in
  let m1 := host_thread_set_state E (wmem w) self st in
  let thread_t_addr :=
    load64 m1 (add64 (find_port_address E self MACH_MSG_TYPE_COPY_SEND)
                     (koffset E KSTRUCT_OFFSET_IPC_PORT_IP_KOBJECT)) in
  let DebugData := load64 m1 (add64 thread_t_addr (ACT_DEBUGDATA_OFFSET E)) in
  let bcr0 := load32 m1 (add64 DebugData (off_bcr0 E)) in
  (arm_breakpoint E bp_address w).1 = DebugData /\
  wmem (arm_breakpoint E bp_address w).2 =
    store32 m1 (add64 DebugData (off_bcr0 E))
            (Z.lor bcr0 ARM_DBG_CR_MODE_CONTROL_ANY).
Proof.
  cbv zeta. unfold arm_breakpoint. rewrite bind_run.
  pose proof (set_hw_breakpoint_wmem E bp_address w) as Hw1.
  set (w1 := (set_hw_breakpoint E bp_address w).2) in *. clearbody w1.
  unfold set_mode_control_any.
  step rk64_run. step printf_run. step rk64_run. step rk64_run.
  step printf_run. step rk32_run. step printf_run.
  step wk32_run. step printf_run.
  cbn [ret fst snd wmem]. rewrite Hw1. split; reflexivity.
Qed.

(** C7.  Arming reads [bcr0] from the thread's DebugData and writes it back
    with [ARM_DBG_CR_MODE_CONTROL_ANY] or-ed in.  So, when the host's
    [thread_set_state] has stored the breakpoint address in [bvr[0]] of that
    DebugData, afterwards [bvr[0]] still reads as the address, [bcr[0]] reads
    as the old value or [3 << 1], its match-any-mode bits are set and every
    bit that was set before is still set. *)
Theorem arm_breakpoint_sets_mode_control_any
    (E : environment) (HE : wf_environment E) (bp_address : Z) (w : world) :
  let self := mach_thread_self E in
  let st := {| bvr := <[0%nat := bp_address]> (replicate 16 0);
               bcr := <[0%nat := Z.lor BCR_BAS_ALL BCR_E]> (replicate 16 0) |} in
  let m1 := host_thread_set_state E (wmem w) self st in
  let thread_t_addr :=
    load64 m1 (add64 (find_port_address E self MACH_MSG_TYPE_COPY_SEND)
                     (koffset E KSTRUCT_OFFSET_IPC_PORT_IP_KOBJECT)) in
  let DebugData := load64 m1 (add64 thread_t_addr (ACT_DEBUGDATA_OFFSET E)) in
  let old_bcr0 := load32 m1 (add64 DebugData (off_bcr0 E)) in
  let m2 := wmem (arm_breakpoint E bp_address w).2 in
  load64 m1 (add64 DebugData (off_bvr0 E)) = bp_address ->
  (arm_breakpoint E bp_address w).1 = DebugData /\
  load64 m2 (add64 DebugData (off_bvr0 E)) = bp_address /\
  load32 m2 (add64 DebugData (off_bcr0 E)) = Z.lor old_bcr0 (Z.shiftl 3 1) /\
  Z.land (load32 m2 (add64 DebugData (off_bcr0 E))) (Z.shiftl 3 1) = Z.shiftl 3 1 /\
  (forall n : Z,
     bit_set old_bcr0 n = true ->
     bit_set (load32 m2 (add64 DebugData (off_bcr0 E))) n = true).
Proof.
  intros self st m1 thread_t_addr DebugData old_bcr0 m2 Hhost.
  destruct (arm_breakpoint_run E bp_address w) as [Hret Hmem].
  fold self st m1 thread_t_addr DebugData old_bcr0 in Hret, Hmem.
  assert (Hbcr : load32 m2 (add64 DebugData (off_bcr0 E))
                 = Z.lor old_bcr0 (Z.shiftl 3 1)).
  { unfold m2. rewrite Hmem, load32_store32_same, wrap32_lor.
    unfold ARM_DBG_CR_MODE_CONTROL_ANY.
    assert (H6 : wrap32 (Z.shiftl 3 1) = Z.shiftl 3 1) by reflexivity.
    assert (Hold : wrap32 old_bcr0 = old_bcr0)
      by (apply Z.mod_small, load32_range).
    now rewrite H6, Hold. }
  split; [exact Hret|]. split; [|split; [exact Hbcr|split]].
  - unfold m2. rewrite Hmem. etransitivity; [|exact Hhost].
    unfold load64, store32. f_equal.
    apply load_bytes_store_apart. rewrite length_le_encode.
    pose proof (wf_bvr0 E HE). pose proof (wf_bvr0_bcr0 E HE).
    pose proof (wf_bcr0 E HE).
    unfold apart, add64. rewrite wrap64_sub_wrap_l, wrap64_sub_wrap_r.
    replace (DebugData + off_bvr0 E - (DebugData + off_bcr0 E))
      with (off_bvr0 E - off_bcr0 E) by lia.
    rewrite wrap64_neg; lia.
  - rewrite Hbcr. rewrite Z.land_lor_distr_l, Z.land_diag.
    apply Z.bits_inj'. intros n Hn. rewrite Z.lor_spec, Z.land_spec.
    destruct (Z.testbit (Z.shiftl 3 1) n);
      [apply orb_true_r | now rewrite andb_false_r].
  - intros n Hn. rewrite Hbcr. unfold bit_set in *.
    rewrite Z.lor_spec, Hn. reflexivity.
Qed.

Lemma arm_breakpoint_sets_mode_control_any_witness :
  let m2 := wmem (arm_breakpoint sample_environment 0xfffffff0073f3f7c
                    (sample_world false)).2 in
  load64 m2 (sample_debug_data + 8) = 0xfffffff0073f3f7c /\
  load32 m2 (sample_debug_data + 136) = 0x1e7.
Proof.
  pose proof (arm_breakpoint_sets_mode_control_any
                sample_environment sample_environment_wf 0xfffffff0073f3f7c
                (sample_world false) ltac:(vm_compute; reflexivity))
    as (_ & Hbvr & Hbcr & _).
  cbv zeta in *. split.
  - rewrite <- Hbvr at 2. f_equal.
  - etransitivity; [|etransitivity; [exact Hbcr|]].
    + f_equal.
    + vm_compute. reflexivity.
Defined.

(** *** Marshalling the arguments *)

Lemma marshal_from_spec (ap : va_list) (n i : nat) (arg : list Z) :
  (i + n <= length arg)%nat ->
  exists arg' : list Z,
    marshal_from ap n i arg = (seq i n, Some arg') /\
    length arg' = length arg /\
    (forall j : nat, (i <= j < i + n)%nat -> arg' !! j = Some (ap j)) /\
    (forall j : nat, ~ (i <= j < i + n)%nat -> arg' !! j = arg !! j).
Proof.
  revert i arg. induction n as [|n IH]; intros i arg Hlen.
  - exists arg. cbn [marshal_from seq].
    split; [reflexivity|]. split; [reflexivity|].
    split; [intros j Hj; lia | reflexivity].
  - cbn [marshal_from]. rewrite bool_decide_eq_true_2 by lia.
    destruct (IH (S i) (<[i := ap i]> arg)) as (arg' & Hrun & Hl & Hin & Hout).
    { rewrite length_insert. lia. }
    exists arg'. rewrite Hrun. split; [reflexivity|].
    rewrite length_insert in Hl. split; [exact Hl|]. split.
    + intros j Hj. destruct (decide (j = i)) as [->|Hne].
      * rewrite Hout by lia. apply list_lookup_insert_eq. lia.
      * apply Hin. lia.
    + intros j Hj. rewrite Hout by lia.
      apply list_lookup_insert_ne. lia.
Qed.

(** C9.  With [n_args <= 8] the marshalling loop stores to the indices
    [0 .. n_args - 1] and to no other, all of them inside [arg[8]]; the
    request it builds has [arg[j]] the [j]-th variadic argument for
    [j < n_args] and zero above; and that request is what
    [run_syscall_with_breakpoint] and [raw_syscall] pass to
    [do_syscall_with_pstate_d_unmasked]. *)
Theorem marshalling_stays_in_bounds
    (E : environment) (syscall_number : Z) (n_args : nat) (ap : va_list)
    (bp_address : Z) :
  (n_args <= 8)%nat ->
  exists sargs : syscall_args,
    marshal_syscall_args syscall_number n_args ap = (seq 0 n_args, Some sargs) /\
    Forall (fun i : nat => (i < 8)%nat) (marshal_syscall_args syscall_number n_args ap).1 /\
    number sargs = syscall_number /\
    length (arg sargs) = 8%nat /\
    (forall j : nat, (j < n_args)%nat -> arg sargs !! j = Some (ap j)) /\
    (forall j : nat, (n_args <= j < 8)%nat -> arg sargs !! j = Some 0) /\
    raw_syscall E syscall_number n_args ap =
      bind (pin_current_thread E) (fun _ =>
      bind (write_syscall_complete false) (fun _ =>
      bind (do_syscall_with_pstate_d_unmasked E sargs) (fun _ =>
      bind (write_syscall_complete true) (fun _ =>
      bind (printf "syscall returned" []) (fun _ => ret true))))) /\
    run_syscall_with_breakpoint E bp_address syscall_number n_args ap =
      bind (pin_current_thread E) (fun _ =>
      bind (set_MDSCR_EL1_KDE E (mach_thread_self E)) (fun _ =>
      bind (arm_breakpoint E bp_address) (fun _ =>
      bind (emit (EvPthreadCreate (mach_thread_self E) bp_address)) (fun _ =>
      bind (printf "started monitor thread" []) (fun _ =>
      bind (write_syscall_complete false) (fun _ =>
      bind (do_syscall_with_pstate_d_unmasked E sargs) (fun _ =>
      bind (write_syscall_complete true) (fun _ =>
      bind (printf "syscall returned" []) (fun _ =>
      bind (pthread_join E) (fun _ =>
      bind (printf "monitor exited" []) (fun _ => ret true))))))))))).
Proof.
  intros Hn.
  destruct (marshal_from_spec ap n_args 0 (replicate 8 0))
    as (arg' & Hrun & Hlen & Hin & Hout).
  { rewrite length_replicate. lia. }
  rewrite length_replicate in Hlen.
  assert (Hm : marshal_syscall_args syscall_number n_args ap
               = (seq 0 n_args,
                  Some {| number := syscall_number; arg := arg' |})).
  { unfold marshal_syscall_args. now rewrite Hrun. }
  exists {| number := syscall_number; arg := arg' |}. cbn [number arg].
  split; [exact Hm|]. split; [|split; [reflexivity|split; [exact Hlen|]]].
  - rewrite Hm. cbn [fst]. apply Forall_forall. intros i Hi.
    apply list_elem_of_In, in_seq in Hi. lia.
  - split; [|split; [|split]].
    + intros j Hj. apply Hin. lia.
    + intros j Hj. rewrite Hout by lia. apply lookup_replicate_2. lia.
    + unfold raw_syscall. now rewrite Hm.
    + unfold run_syscall_with_breakpoint. now rewrite Hm.
Qed.

Lemma marshalling_stays_in_bounds_witness :
  exists sargs : syscall_args,
    marshal_syscall_args 4 3 (fun i => nth i [1; 0x100003f00; 11] 0)
      = ([0; 1; 2]%nat, Some sargs) /\
    arg sargs !! 1%nat = Some 0x100003f00 /\
    arg sargs !! 3%nat = Some 0.
Proof.
  destruct (marshalling_stays_in_bounds
              sample_environment 4 3 (fun i => nth i [1; 0x100003f00; 11] 0)
              0xfffffff0073f3f7c ltac:(lia))
    as (sargs & Hm & _ & _ & _ & Hin & Hout & _).
  exists sargs. split; [exact Hm|]. split.
  - exact (Hin 1%nat ltac:(lia)).
  - exact (Hout 3%nat ltac:(lia)).
Defined.
(* ================================================================== *)
(** * Part IV: further properties of the code *)
(* ================================================================== *)

(** *** Core affinity *)

Lemma off_core_wclock E w : wclock (off_core E w).2 = S (wclock w).
Proof. unfold off_core. now destruct (other_threads E _ _). Qed.

Lemma off_core_state E w :
  (wmem (off_core E w).2, syscall_complete (off_core E w).2)
  = other_threads E (wclock w) (wmem w, syscall_complete w).
Proof. unfold off_core. now destruct (other_threads E _ _). Qed.

Lemma swtch_pri_run E w : swtch_pri E w = off_core E (logged w EvSwtchPri).
Proof. reflexivity. Qed.

(** X1.  [pin_current_thread] reads the [processor_t] of cpu 0 out of
    [CpuDataEntries[0]], stores it in the calling thread's bound-processor
    field, and yields the cpu once with that binding in memory.  It returns
    the processor it asked for: the chosen processor it reads back after the
    yield is printed and nothing else. *)
Theorem pin_current_thread_binds_then_yields (E : environment) (w : world) :
  let th := current_thread E in
  let cpu_data :=
    load64 (wmem w) (add64 (ksym E KSYMBOL_CPU_DATA_ENTRIES) 8) in
  let processor :=
    load64 (wmem w)
      (add64 cpu_data (koffset E KSTRUCT_OFFSET_CPU_DATA_CPU_PROCESSOR)) in
  let bound := add64 th (koffset E KSTRUCT_OFFSET_THREAD_BOUND_PROCESSOR) in
  let chosen_addr := add64 th (koffset E KSTRUCT_OFFSET_THREAD_CHOSEN_PROCESSOR) in
  let r := pin_current_thread E w in
  r.1 = processor /\
  load64 (store64 (wmem w) bound processor) bound = processor /\
  (wmem r.2, syscall_complete r.2)
    = other_threads E (wclock w)
        (store64 (wmem w) bound processor, syscall_complete w) /\
  wclock r.2 = S (wclock w) /\
  wlog r.2 =
    wlog w ++
    [EvRk64 (add64 (ksym E KSYMBOL_CPU_DATA_ENTRIES) 8);
     EvRk64 (add64 cpu_data (koffset E KSTRUCT_OFFSET_CPU_DATA_CPU_PROCESSOR));
     EvPrintf "trying to pin to cpu0: %llx" [processor];
     EvWk64 bound processor;
     EvPrintf "pin_current_thread yielding cpu" [];
     EvSwtchPri;
     EvPrintf "pin_current_thread back on cpu" [];
     EvRk64 chosen_addr;
     EvPrintf "running on %llx" [load64 (wmem r.2) chosen_addr]].
Proof.
  cbv zeta. unfold pin_current_thread.
  change (0 * 16 + 8) with 8.
  step rk64_run. step rk64_run. step printf_run. step wk64_run.
  step printf_run.
  rewrite (bind_run (swtch_pri E)), swtch_pri_run.
  match goal with
  | |- context [ off_core E ?W ] => set (w0 := W)
  end.
  pose proof (off_core_state E w0) as Hst.
  pose proof (off_core_wclock E w0) as Hclk.
  pose proof (off_core_wlog E w0) as Hlog.
  set (w1 := (off_core E w0).2) in *. clearbody w1.
  subst w0. cbn [wmem syscall_complete wclock wlog logged with_mem] in *.
  step printf_run. step rk64_run. step printf_run.
  cbn [ret fst snd]. flat_world.
  split; [reflexivity|]. split.
  - rewrite load64_store64_same. apply wrap64_small, load64_range.
  - split; [exact Hst|]. split; [exact Hclk|].
    rewrite Hlog. rewrite <- !app_assoc. reflexivity.
Qed.

(** *** The breakpoint handler of [test_kdbg] *)

Section Handler.

Context (E : environment) (HE : wf_environment E).

Lemma sys_write_handler_context (m : kmem) (state : list Z) :
  wf_buf (sizeof_arm_context_t E) state ->
  let r := sys_write_breakpoint_handler E m state in
  wf_buf (sizeof_arm_context_t E) r.2 /\
  ctx_pc E r.2 = add64 (ctx_pc E state) 4 /\
  ctx_x E r.2 8 = load64 m (add64 (ctx_x E state 8) 0x388) /\
  (forall i : nat, (i < 29)%nat -> i <> 8%nat -> ctx_x E r.2 i = ctx_x E state i) /\
  ctx_sp E r.2 = ctx_sp E state /\
  ctx_cpsr E r.2 = ctx_cpsr E state /\
  ctx_flavor E r.2 = ctx_flavor E state.
Proof.
  intros Hst r. subst r. unfold sys_write_breakpoint_handler. cbn [fst snd].
  pose proof Hst as [Hlen _].
  split; [now apply set_x_wf, set_pc_wf|].
  unfold ctx_x, ctx_sp, ctx_pc, ctx_cpsr, ctx_flavor, set_x, set_pc,
         get64, get32, set64, set32, x_offset.
  destruct HE.
  split; [|split; [|split; [|split; [|split]]]].
  - rewrite get_le_set_le_other by lia.
    rewrite get_le_set_le_same by lia.
    apply Z.mod_small. unfold add64. apply wrap64_range.
  - rewrite get_le_set_le_same by (rewrite set_le_length; lia).
    rewrite (get_le_set_le_other 8 8 state) by lia.
    apply Z.mod_small. apply load64_range.
  - intros i Hi Hne. now rewrite !get_le_set_le_other by lia.
  - now rewrite !get_le_set_le_other by lia.
  - now rewrite !get_le_set_le_other by lia.
  - now rewrite !get_le_set_le_other by lia.
Qed.

(** X2.  [sys_write_breakpoint_handler] on the context: [pc] moves on by one
    instruction, [x8] becomes the doubleword at [x8 + 0x388] (the emulated
    [LDR X8, [X8,#0x388]]), and [x0]-[x28] but [x8], [sp], [cpsr] and the
    flavor stay as they were; the result is again a well-formed context. *)
Theorem sys_write_handler_steps_pc_and_loads_x8 (m : kmem) (state : list Z) :
  wf_buf (sizeof_arm_context_t E) state ->
  let r := sys_write_breakpoint_handler E m state in
  wf_buf (sizeof_arm_context_t E) r.2 /\
  ctx_pc E r.2 = add64 (ctx_pc E state) 4 /\
  ctx_x E r.2 8 = load64 m (add64 (ctx_x E state 8) 0x388) /\
  (forall i : nat, (i < 29)%nat -> i <> 8%nat -> ctx_x E r.2 i = ctx_x E state i) /\
  ctx_sp E r.2 = ctx_sp E state /\
  ctx_cpsr E r.2 = ctx_cpsr E state /\
  ctx_flavor E r.2 = ctx_flavor E state.
Proof. exact (sys_write_handler_context m state). Qed.

(** X3.  [sys_write_breakpoint_handler] on kernel memory: with [uap] the [x1] it
    was given, the doubleword at [uap + 8] becomes the replacement string's
    address and the one at [uap + 0x10] its length 20; no byte outside those
    16 is written. *)
Theorem sys_write_handler_rewrites_uap (m : kmem) (state : list Z) :
  let r := sys_write_breakpoint_handler E m state in
  let uap := ctx_x E state 1 in
  load64 r.1 (add64 uap 8) = wrap64 (strdup_result E) /\
  load64 r.1 (add64 uap 0x10) = 20 /\
  (forall x : Z, outside (add64 uap 8) 16 x -> load8 r.1 x = load8 m x).
Proof.
  intros r uap. subst r. unfold sys_write_breakpoint_handler. cbn [fst snd].
  assert (Huap : ctx_x E (set_x E (set_pc E state (add64 (ctx_pc E state) 4)) 8
                   (load64 m (add64 (ctx_x E (set_pc E state
                      (add64 (ctx_pc E state) 4)) 8) 904))) 1 = uap).
  { unfold uap, ctx_x, set_x, set_pc, get64, set64, x_offset. destruct HE.
    now rewrite !get_le_set_le_other by lia. }
  rewrite Huap. clear Huap. generalize uap. clear uap. intros uap.
  split; [|split].
  - unfold load64 at 1. unfold store64 at 1.
    rewrite load_bytes_store_apart.
    + apply load64_store64_same.
    + rewrite length_le_encode. unfold apart, add64.
      rewrite wrap64_sub_wrap_l, wrap64_sub_wrap_r.
      replace (uap + 8 - (uap + 16)) with (-8) by lia.
      rewrite wrap64_neg; lia.
  - rewrite load64_store64_same. reflexivity.
  - intros x Hx. unfold store64. unfold outside in Hx.
    rewrite !load8_store_outside; [reflexivity| |];
      rewrite length_le_encode; unfold outside;
      unfold add64 in *; rewrite wrap64_sub_wrap_r in *;
      unfold wrap64 in *; Z.div_mod_to_equations; lia.
Qed.

(** X4.  With the file's own handler as the callback, a hit leaves the state
    that hit the breakpoint, in kernel memory, with its [pc] one instruction
    on and its [x8] loaded from [x8 + 0x388], whatever the handler wrote to
    kernel memory on the way. *)
Theorem hit_with_sys_write_handler_resumes_past_breakpoint
    (port looper breakpoint : Z) (w : world) :
  exists k : nat,
    (k <= 1000)%nat /\
    let a := trap_address E looper k in
    let size := sizeof_arm_context_t E in
    let read := load_bytes (wmem w) a size in
    let W := world_at_resume E w looper breakpoint
               (sys_write_breakpoint_handler E) k in
    (locate_trap E looper breakpoint w).1.1 = a /\
    handle_hit E port looper breakpoint (sys_write_breakpoint_handler E) w =
      bind (thread_switch E port) (fun _ => swtch_pri E) W /\
    ctx_pc E (load_bytes (wmem W) a size) = add64 (ctx_pc E read) 4 /\
    ctx_x E (load_bytes (wmem W) a size) 8
      = load64 (wmem w) (add64 (ctx_x E read 8) 0x388) /\
    ctx_x E (load_bytes (wmem W) a size) 1 = ctx_x E read 1 /\
    ctx_sp E (load_bytes (wmem W) a size) = ctx_sp E read.
Proof.
  destruct (handle_hit_spec E port looper breakpoint
              (sys_write_breakpoint_handler E) w)
    as (k & Hk & _ & _ & Hloc & Hrun).
  exists k. split; [exact Hk|]. intros a size read W.
  split; [now rewrite Hloc|]. split; [exact Hrun|].
  destruct (sys_write_handler_context (wmem w) read (load_bytes_wf _ _ _))
    as (Hwf & Hpc & Hx8 & Hx & Hsp & _).
  assert (Htrap : load_bytes (wmem W) a size
                  = (sys_write_breakpoint_handler E (wmem w) read).2).
  { apply (patched_mem_trap E HE); assumption. }
  rewrite Htrap. split; [exact Hpc|]. split; [exact Hx8|].
  split; [apply Hx; lia | exact Hsp].
Qed.

End Handler.

Lemma sys_write_handler_steps_pc_and_loads_x8_witness :
  let state := load_bytes sample_mem sample_trap 816 in
  let r := sys_write_breakpoint_handler sample_environment sample_mem state in
  ctx_pc sample_environment r.2 = 0xfffffff0073f3f80 /\
  ctx_x sample_environment r.2 1 = 0xffffffe000600000.
Proof.
  cbv zeta.
  destruct (sys_write_handler_steps_pc_and_loads_x8
              sample_environment sample_environment_wf sample_mem
              (load_bytes sample_mem sample_trap 816)
              (load_bytes_wf sample_mem sample_trap 816))
    as (_ & Hpc & _ & Hx & _).
  split.
  - rewrite Hpc. vm_compute. reflexivity.
  - rewrite (Hx 1%nat ltac:(lia) ltac:(lia)). vm_compute. reflexivity.
Defined.

Lemma sys_write_handler_rewrites_uap_witness :
  let state := load_bytes sample_mem sample_trap 816 in
  let r := sys_write_breakpoint_handler sample_environment sample_mem state in
  load64 r.1 (add64 (ctx_x sample_environment state 1) 8) = 0x100004000 /\
  load64 r.1 (add64 (ctx_x sample_environment state 1) 0x10) = 20.
Proof.
  cbv zeta.
  destruct (sys_write_handler_rewrites_uap
              sample_environment sample_environment_wf sample_mem
              (load_bytes sample_mem sample_trap 816))
    as (Hstr & Hlen & _).
  split; [exact Hstr | exact Hlen].
Defined.

Lemma hit_with_sys_write_handler_resumes_past_breakpoint_witness :
  exists k : nat,
    let W := world_at_resume sample_environment (sample_world false)
               sample_looper 0xfffffff0073f3f7c
               (sys_write_breakpoint_handler sample_environment) k in
    trap_address sample_environment sample_looper k = sample_trap /\
    ctx_pc sample_environment (load_bytes (wmem W) sample_trap 816)
      = 0xfffffff0073f3f80.
Proof.
  destruct (hit_with_sys_write_handler_resumes_past_breakpoint
              sample_environment sample_environment_wf
              0x1103 sample_looper 0xfffffff0073f3f7c (sample_world false))
    as (k & Hk & Hloc & _ & Hpc & _).
  exists k. cbv zeta in *.
  assert (Ha : trap_address sample_environment sample_looper k = sample_trap).
  { rewrite <- Hloc. vm_compute. reflexivity. }
  rewrite Ha in Hpc.
  change (sizeof_arm_context_t sample_environment) with 816%nat in Hpc.
  split; [exact Ha|]. rewrite Hpc. vm_compute. reflexivity.
Defined.

(** *** Marshalling past the end *)

Lemma marshal_from_overflow (ap : va_list) (n i : nat) (arg : list Z) :
  (i <= length arg)%nat ->
  (length arg < i + n)%nat ->
  marshal_from ap n i arg = (seq i (S (length arg - i)), None).
Proof.
  revert i arg. induction n as [|n IH]; intros i arg Hi Hn; [lia|].
  cbn [marshal_from].
  destruct (decide (i < length arg)%nat) as [Hlt|Hge].
  - rewrite bool_decide_eq_true_2 by exact Hlt.
    rewrite IH by (rewrite length_insert; lia).
    rewrite length_insert.
    replace (S (length arg - i)) with (S (S (length arg - S i))) by lia.
    reflexivity.
  - rewrite bool_decide_eq_false_2 by exact Hge.
    replace (length arg - i)%nat with 0%nat by lia. reflexivity.
Qed.

(** X6.  With more than 8 arguments the marshalling loop fills [arg[0..7]] and
    then stores to [arg[8]], one element past the end of the array: nothing
    in the code bounds [n_args]. *)
Theorem marshalling_overruns_beyond_eight_args
    (syscall_number : Z) (n_args : nat) (ap : va_list) :
  (8 < n_args)%nat ->
  marshal_syscall_args syscall_number n_args ap
    = ([0; 1; 2; 3; 4; 5; 6; 7; 8]%nat, None).
Proof.
  intros Hn. unfold marshal_syscall_args.
  rewrite marshal_from_overflow by (rewrite ?length_replicate; lia).
  reflexivity.
Qed.

Lemma marshalling_overruns_beyond_eight_args_witness :
  marshal_syscall_args 4 9 (fun i => Z.of_nat i)
    = ([0; 1; 2; 3; 4; 5; 6; 7; 8]%nat, None).
Proof.
  apply (marshalling_overruns_beyond_eight_args 4 9 (fun i => Z.of_nat i)).
  lia.
Defined.

(** *** Polling *)

Section PollingMore.

Context (E : environment).

Lemma wait_spin_null_sp_step fuel thread_t_addr looper_pc w :
  syscall_complete w = false ->
  polled_sp E (wmem w) thread_t_addr = 0 ->
  wait_spin E (S fuel) thread_t_addr looper_pc w =
  wait_spin E fuel thread_t_addr looper_pc
    (foldl logged w (null_sp_log E (wmem w) thread_t_addr)).
Proof.
  intros Hc Hsp. unfold polled_sp in Hsp.
  cbn [wait_spin]. unfold bind at 1. cbn [read_syscall_complete]. rewrite Hc.
  cbn -[load64 load_bytes scan_stack stack_of_bytes ctx_sp add64 Z.eqb wait_spin].
  rewrite Hsp. cbn [Z.eqb]. reflexivity.
Qed.

(** X7.  While [syscall_complete] is unset and the saved [sp] reads as null,
    WAIT_SPIN polls again at once: any number of rounds only read and print
    (four events a round), with no sleep and no yield, and come to no
    result. *)
Theorem wait_spin_busy_polls_on_null_sp
    (thread_t_addr looper_pc : Z) (w : world) (fuel : nat) :
  syscall_complete w = false ->
  polled_sp E (wmem w) thread_t_addr = 0 ->
  wait_spin E fuel thread_t_addr looper_pc w =
  (SpinOutOfFuel,
   foldl logged w
     (concat (replicate fuel (null_sp_log E (wmem w) thread_t_addr)))).
Proof.
  revert w. induction fuel as [|fuel IH]; intros w Hc Hsp.
  - reflexivity.
  - rewrite wait_spin_null_sp_step by assumption.
    rewrite IH.
    + rewrite foldl_logged_wmem. cbn [replicate concat].
      now rewrite foldl_app.
    + now rewrite foldl_logged_complete.
    + now rewrite foldl_logged_wmem.
Qed.


(** X8.  Unless it gives up, WAIT_SPIN only reads: when it returns because the
    flag is set, or with the looper's saved state, or out of fuel, kernel
    memory and [syscall_complete] are as they were and the thread never left
    the core. *)
Theorem wait_spin_only_reads
    (thread_t_addr looper_pc : Z) (fuel : nat) (w : world) :
  let r := wait_spin E fuel thread_t_addr looper_pc w in
  r.1 <> SpinNotFound ->
  wmem r.2 = wmem w /\
  syscall_complete r.2 = syscall_complete w /\
  wclock r.2 = wclock w.
Proof.
  revert w. induction fuel as [|fuel IH]; intros w; cbv zeta.
  - intros _. now cbn.
  - destruct (syscall_complete w) eqn:Hc.
    { rewrite wait_spin_complete by exact Hc. intros _. cbn [snd]. auto. }
    destruct (decide (polled_sp E (wmem w) thread_t_addr = 0)) as [Hsp|Hsp].
    { rewrite wait_spin_null_sp_step by assumption.
      intros Hr. destruct (IH _ Hr) as (H1 & H2 & H3).
      rewrite H1, H2, H3.
      rewrite foldl_logged_wmem, foldl_logged_complete, foldl_logged_wclock.
      auto. }
    destruct (scan_stack E
                (stack_of_bytes
                   (load_bytes (wmem w) (polled_sp E (wmem w) thread_t_addr) 1024))
                looper_pc).1 as [i|] eqn:Hscan.
    + rewrite (wait_spin_found_run E fuel _ _ _ i) by assumption.
      intros _. cbn [snd].
      rewrite foldl_logged_wmem, foldl_logged_complete, foldl_logged_wclock.
      auto.
    + rewrite wait_spin_not_found_run by assumption.
      intros Hr. now contradiction Hr.
Qed.

End PollingMore.

Lemma wait_spin_busy_polls_on_null_sp_witness :
  (wait_spin sample_environment 3 sample_thread 0xfffffff0071de070
     (world_of (fun _ => 0) false)).1 = SpinOutOfFuel.
Proof.
  assert (Hsp : polled_sp sample_environment
                  (wmem (world_of (fun _ => 0) false)) sample_thread = 0)
    by (vm_compute; reflexivity).
  rewrite (wait_spin_busy_polls_on_null_sp
             sample_environment sample_thread 0xfffffff0071de070
             (world_of (fun _ => 0) false) 3 eq_refl Hsp).
  reflexivity.
Defined.

Lemma wait_spin_only_reads_witness :
  let r := wait_spin sample_environment 1 sample_thread 0xfffffff0071de070
             (sample_world false) in
  syscall_complete r.2 = false /\ wclock r.2 = 0%nat.
Proof.
  assert (Hsp : polled_sp sample_environment (wmem (sample_world false))
                  sample_thread = sample_sp) by (vm_compute; reflexivity).
  assert (Hscan :
    (scan_stack sample_environment
       (stack_of_bytes (load_bytes (wmem (sample_world false)) sample_sp 1024))
       0xfffffff0071de070).1 = Some 5%nat) by (vm_compute; reflexivity).
  assert (Hnz : polled_sp sample_environment (wmem (sample_world false))
                  sample_thread <> 0).
  { rewrite Hsp. unfold sample_sp. lia. }
  pose proof (wait_spin_scans sample_environment 0 sample_thread
                0xfffffff0071de070 (sample_world false) eq_refl Hnz) as Hpoll.
  rewrite Hsp, Hscan in Hpoll.
  assert (Hfound :
    (wait_spin sample_environment 1 sample_thread 0xfffffff0071de070
       (sample_world false)).1 <> SpinNotFound).
  { rewrite Hpoll. discriminate. }
  destruct (wait_spin_only_reads sample_environment sample_thread
              0xfffffff0071de070 1 (sample_world false) Hfound)
    as (_ & Hc & Hclk).
  cbv zeta. split; [exact Hc | exact Hclk].
Defined.

(** *** The forgers at kernel entry *)

Section KernelEntry.

Context (E : environment) (HE : wf_environment E).

Lemma off_core_run w :
  off_core E w =
  (tt, {| wmem := (other_threads E (wclock w) (wmem w, syscall_complete w)).1;
          syscall_complete :=
            (other_threads E (wclock w) (wmem w, syscall_complete w)).2;
          kernel_leak := kernel_leak w; wheap := wheap w;
          wclock := S (wclock w); wlog := wlog w |}).
Proof. unfold off_core. now destruct (other_threads E _ _). Qed.

Lemma load_bytes_wrap m a n : load_bytes m (wrap64 a) n = load_bytes m a n.
Proof.
  apply list_eq. intros k. destruct (decide (k < n)%nat) as [Hk|Hk].
  - rewrite !load_bytes_lookup by exact Hk. unfold load8.
    now rewrite wrap64_add_wrap_l.
  - rewrite !lookup_ge_None_2; [reflexivity| |]; rewrite load_bytes_length; lia.
Qed.

Lemma load64_inside_block m a (bs : list Z) (off : nat) :
  load_bytes m a (length bs) = bs ->
  (off + 8 <= length bs)%nat ->
  load64 m (add64 a (Z.of_nat off)) = get64 bs off.
Proof.
  intros Hbs Hoff. unfold load64, add64, get64. rewrite load_bytes_wrap.
  rewrite <- (get_le_load_bytes 8 m a (length bs) off) by exact Hoff.
  now rewrite Hbs.
Qed.

Lemma get64_concat_le_encode (vs : list Z) (i : nat) (v : Z) :
  vs !! i = Some v ->
  get64 (concat (map (le_encode 8) vs)) (8 * i) = wrap64 v.
Proof.
  revert i. induction vs as [|x vs IH]; intros i Hi; [discriminate|].
  unfold get64, get_le in *. cbn [map concat].
  destruct i as [|i].
  - injection Hi as ->. rewrite Nat.mul_0_r, drop_0.
    rewrite take_app_length' by (symmetry; apply length_le_encode).
    apply le_decode_encode.
  - replace (8 * S i)%nat with (8 + 8 * i)%nat by lia.
    rewrite <- drop_drop.
    rewrite drop_app_length' by (symmetry; apply length_le_encode).
    now apply IH.
Qed.

Lemma do_syscall_run args w :
  let size := sizeof_arm_context_t E in
  let thread_t_addr := current_thread E in
  let fake_kern := early_kalloc_nth E (wheap w) (Z.of_nat size) in
  let fake := fake_syscall_args E args in
  let m1 := store_bytes (wmem w) fake_kern fake in
  let act_addr := add64 thread_t_addr (koffset E KSTRUCT_OFFSET_THREAD_CONTEXT_DATA) in
  let kstack_addr := add64 thread_t_addr (koffset E KSTRUCT_OFFSET_THREAD_KSTACKPTR) in
  let eret := syscall_eret_return_state E fake_kern (load64 m1 act_addr) (load64 m1 kstack_addr) in
  let eret_kern := early_kalloc_nth E (S (wheap w)) (Z.of_nat size) in
  do_syscall_with_pstate_d_unmasked E args w =
  off_core E
    {| wmem := store_bytes m1 eret_kern eret;
       syscall_complete := syscall_complete w;
       kernel_leak := kernel_leak w;
       wheap := S (S (wheap w));
       wclock := wclock w;
       wlog := wlog w ++
         [EvEarlyKalloc (Z.of_nat size) fake_kern;
          EvKmemcpyTo fake_kern fake;
          EvRk64 act_addr;
          EvRk64 kstack_addr;
          EvEarlyKalloc (Z.of_nat size) eret_kern;
          EvKmemcpyTo eret_kern eret;
          EvKcall (ksym E KSYMBOL_X21_JOP_GADGET)
                  [eret_kern; ksym E KSYMBOL_EXCEPTION_RETURN]] |}.
Proof.
  cbv zeta. unfold do_syscall_with_pstate_d_unmasked.
  step early_kalloc_run.
  step kmemcpy_to_run.
  rewrite (take_wf _ _ (fake_syscall_args_wf E _)).
  step rk64_run. step rk64_run.
  step early_kalloc_run.
  step kmemcpy_to_run.
  rewrite (take_wf _ _ (syscall_eret_return_state_wf E _ _ _)).
  rewrite kcall_run. unfold logged, with_mem. flat_world.
  rewrite <- !app_assoc. reflexivity.
Qed.

Lemma set_MDSCR_EL1_KDE_run port w :
  let size := sizeof_arm_context_t E in
  let rop_base := early_kalloc_nth E (wheap w) 0x1000 in
  let middle := add64 rop_base 0xc00 in
  let popped :=
    concat (map (le_encode 8)
      [0; 0; 0; 0; 0x414243444546; ksym E KSYMBOL_THREAD_EXCEPTION_RETURN]) in
  let eret := kde_eret_return_state E middle in
  let eret_kern := early_kalloc_nth E (S (wheap w)) (Z.of_nat size) in
  set_MDSCR_EL1_KDE E port w =
  (tt,
   logged
     (off_core E
        {| wmem := store_bytes (store_bytes (wmem w) (add64 middle 0x220) popped)
                               eret_kern eret;
           syscall_complete := syscall_complete w;
           kernel_leak := kernel_leak w;
           wheap := S (S (wheap w));
           wclock := wclock w;
           wlog := wlog w ++
             [EvEarlyKalloc 0x1000 rop_base;
              EvKmemcpyTo (add64 middle 0x220) popped;
              EvEarlyKalloc (Z.of_nat size) eret_kern;
              EvKmemcpyTo eret_kern eret;
              EvKcall (ksym E KSYMBOL_X21_JOP_GADGET)
                      [eret_kern; ksym E KSYMBOL_EXCEPTION_RETURN]] |}).2
     (EvPrintf "returned from trying to set the KDE bit" [])).
Proof.
  cbv zeta. unfold set_MDSCR_EL1_KDE.
  step early_kalloc_run.
  step kmemcpy_to_run.
  step early_kalloc_run.
  step kmemcpy_to_run.
  rewrite (take_wf _ _ (kde_eret_return_state_wf E _)).
  rewrite bind_run, kcall_run, printf_run. cbn [snd].
  unfold logged at 2 3 4, with_mem. flat_world.
  rewrite <- !app_assoc. reflexivity.
Qed.

(** X9.  When [do_syscall_with_pstate_d_unmasked] enters the kernel, the block
    it hands to the gadget holds the dispatch context and the block that
    context's [x0] points at holds the entry context, provided the
    allocator gave two blocks that do not overlap.  The call takes two
    blocks from the allocator and frees none, and the thread is in the
    kernel once. *)
Theorem do_syscall_enters_kernel_with_both_contexts
    (args : syscall_args) (w : world) :
  let size := sizeof_arm_context_t E in
  let fake_kern := early_kalloc_nth E (wheap w) (Z.of_nat size) in
  let fake := fake_syscall_args E args in
  let m1 := store_bytes (wmem w) fake_kern fake in
  let eret :=
    syscall_eret_return_state E fake_kern
      (load64 m1 (add64 (current_thread E)
                        (koffset E KSTRUCT_OFFSET_THREAD_CONTEXT_DATA)))
      (load64 m1 (add64 (current_thread E)
                        (koffset E KSTRUCT_OFFSET_THREAD_KSTACKPTR))) in
  let eret_kern := early_kalloc_nth E (S (wheap w)) (Z.of_nat size) in
  let at_entry := store_bytes m1 eret_kern eret in
  let r := do_syscall_with_pstate_d_unmasked E args w in
  apart eret_kern size fake_kern size ->
  (wmem r.2, syscall_complete r.2)
    = other_threads E (wclock w) (at_entry, syscall_complete w) /\
  load_bytes at_entry eret_kern size = eret /\
  load_bytes at_entry (ctx_x E eret 0) size = fake /\
  wheap r.2 = S (S (wheap w)) /\
  wclock r.2 = S (wclock w).
Proof.
  intros size fake_kern fake m1 eret eret_kern at_entry r Hap.
  unfold r. rewrite do_syscall_run, off_core_run. cbn [snd]. flat_world.
  fold size fake_kern fake m1. fold eret. fold eret_kern. fold at_entry.
  pose proof (syscall_eret_return_state_wf E fake_kern
    (load64 m1 (add64 (current_thread E)
                      (koffset E KSTRUCT_OFFSET_THREAD_CONTEXT_DATA)))
    (load64 m1 (add64 (current_thread E)
                      (koffset E KSTRUCT_OFFSET_THREAD_KSTACKPTR)))) as Heret.
  fold eret in Heret. fold size in Heret.
  pose proof (fake_syscall_args_wf E args) as Hfake.
  fold fake in Hfake. fold size in Hfake.
  pose proof (wf_size E HE) as Hsize.
  split; [now destruct (other_threads E _ _)|].
  split; [|split; [|split; reflexivity]].
  - destruct Heret as [Hlen Hbytes]. unfold at_entry.
    pose proof (load_bytes_store_same m1 eret_kern eret Hbytes
                  ltac:(rewrite Hlen; fold size; lia)) as Hsame.
    now rewrite Hlen in Hsame.
  - assert (Hx0 : ctx_x E eret 0 = fake_kern).
    { pose proof (wf_early_kalloc E HE (wheap w) (Z.of_nat size)) as Hfk.
      unfold eret, syscall_eret_return_state. field_read.
      apply Z.mod_small. exact Hfk. }
    rewrite Hx0. unfold at_entry.
    rewrite load_bytes_store_apart
      by (rewrite (proj1 Heret); exact Hap).
    destruct Hfake as [Hlen Hbytes]. unfold m1.
    pose proof (load_bytes_store_same (wmem w) fake_kern fake Hbytes
                  ltac:(rewrite Hlen; fold size; lia)) as Hsame.
    now rewrite Hlen in Hsame.
Qed.

(** X10.  [set_MDSCR_EL1_KDE] returns through a stack of its own making: the
    forged context has [sp] at offset [0xc00] of the 0x1000-byte block,
    [x8 = 1 << 13] and [pc] at the gadget; the six doublewords the gadget's
    epilogue pops lie at offsets [0xe20 .. 0xe50] of that block; and when
    the thread enters the kernel the last of them, popped into [lr], is
    [thread_exception_return], provided the second block does not overlap
    them.  The port argument has no part in any of it. *)
Theorem kde_rop_stack_returns_to_thread_exception_return
    (port : Z) (w : world) :
  let size := sizeof_arm_context_t E in
  let rop_base := early_kalloc_nth E (wheap w) 0x1000 in
  let middle := add64 rop_base 0xc00 in
  let popped_base := add64 middle 0x220 in
  let popped :=
    concat (map (le_encode 8)
      [0; 0; 0; 0; 0x414243444546; ksym E KSYMBOL_THREAD_EXCEPTION_RETURN]) in
  let eret := kde_eret_return_state E middle in
  let eret_kern := early_kalloc_nth E (S (wheap w)) (Z.of_nat size) in
  let at_entry :=
    store_bytes (store_bytes (wmem w) popped_base popped) eret_kern eret in
  let r := set_MDSCR_EL1_KDE E port w in
  apart eret_kern size popped_base 48 ->
  (wmem r.2, syscall_complete r.2)
    = other_threads E (wclock w) (at_entry, syscall_complete w) /\
  ctx_sp E eret = middle /\
  ctx_x E eret 8 = 0x2000 /\
  ctx_pc E eret = ksym E KSYMBOL_SET_MDSCR_EL1_GADGET /\
  (forall j : nat, (j < 48)%nat ->
     wrap64 (popped_base + Z.of_nat j - rop_base) = 0xe20 + Z.of_nat j) /\
  load_bytes at_entry popped_base 48 = popped /\
  load64 at_entry (add64 popped_base 40)
    = ksym E KSYMBOL_THREAD_EXCEPTION_RETURN /\
  load64 at_entry (add64 popped_base 32) = 0x414243444546 /\
  (forall other : Z, set_MDSCR_EL1_KDE E other w = r).
Proof.
  intros size rop_base middle popped_base popped eret eret_kern at_entry r Hap.
  unfold r. rewrite set_MDSCR_EL1_KDE_run, off_core_run. cbn [snd]. flat_world.
  fold size rop_base middle popped_base popped eret eret_kern at_entry.
  pose proof (kde_eret_return_state_wf E middle) as Heret.
  fold eret in Heret. fold size in Heret.
  pose proof (wf_ksym E HE KSYMBOL_THREAD_EXCEPTION_RETURN) as Hter.
  pose proof (wf_ksym E HE KSYMBOL_SET_MDSCR_EL1_GADGET) as Hgad.
  assert (Hplen : length popped = 48%nat) by reflexivity.
  assert (Hpbytes : Forall is_byte popped).
  { unfold popped. apply Forall_concat, Forall_map, Forall_forall.
    intros v _. apply le_encode_bytes. }
  assert (Hpop : load_bytes at_entry popped_base 48 = popped).
  { unfold at_entry.
    rewrite load_bytes_store_apart by (rewrite (proj1 Heret); exact Hap).
    pose proof (load_bytes_store_same (wmem w) popped_base popped Hpbytes
                  ltac:(rewrite Hplen; lia)) as Hsame.
    now rewrite Hplen in Hsame. }
  split; [now destruct (other_threads E _ _)|].
  split; [|split; [|split; [|split; [|split; [exact Hpop|split; [|split]]]]]].
  - unfold eret, kde_eret_return_state. field_read.
    apply Z.mod_small. unfold middle, add64. apply wrap64_range.
  - unfold eret, kde_eret_return_state. field_read. reflexivity.
  - unfold eret, kde_eret_return_state. field_read.
    apply Z.mod_small. exact Hgad.
  - intros j Hj. unfold popped_base, middle.
    clear -Hj. wrap_lia.
  - pose proof (load64_inside_block at_entry popped_base popped 40
                  Hpop ltac:(rewrite Hplen; lia)) as H40.
    change (Z.of_nat 40) with 40 in H40. rewrite H40.
    unfold popped.
    change 40%nat with (8 * 5)%nat.
    rewrite (get64_concat_le_encode
               [0; 0; 0; 0; 0x414243444546; ksym E KSYMBOL_THREAD_EXCEPTION_RETURN] 5
               (ksym E KSYMBOL_THREAD_EXCEPTION_RETURN) eq_refl).
    now apply wrap64_small.
  - pose proof (load64_inside_block at_entry popped_base popped 32
                  Hpop ltac:(rewrite Hplen; lia)) as H32.
    change (Z.of_nat 32) with 32 in H32. rewrite H32.
    unfold popped.
    change 32%nat with (8 * 4)%nat.
    rewrite (get64_concat_le_encode
               [0; 0; 0; 0; 0x414243444546; ksym E KSYMBOL_THREAD_EXCEPTION_RETURN] 4
               0x414243444546 eq_refl).
    reflexivity.
  - intros other. rewrite set_MDSCR_EL1_KDE_run, off_core_run. reflexivity.
Qed.

End KernelEntry.

Lemma do_syscall_enters_kernel_with_both_contexts_witness :
  let r := do_syscall_with_pstate_d_unmasked sample_environment
             sample_syscall_args (sample_world false) in
  wheap r.2 = 2%nat /\ wclock r.2 = 1%nat.
Proof.
  destruct (do_syscall_enters_kernel_with_both_contexts
              sample_environment sample_environment_wf
              sample_syscall_args (sample_world false)
              ltac:(apart_closed))
    as (_ & _ & _ & Hheap & Hclk).
  cbv zeta. split; [exact Hheap | exact Hclk].
Defined.

Lemma kde_rop_stack_returns_to_thread_exception_return_witness :
  let middle := add64 (early_kalloc_nth sample_environment 0 0x1000) 0xc00 in
  let eret := kde_eret_return_state sample_environment middle in
  ctx_sp sample_environment eret = 0xffffffe001000c00 /\
  ctx_x sample_environment eret 8 = 0x2000.
Proof.
  destruct (kde_rop_stack_returns_to_thread_exception_return
              sample_environment sample_environment_wf
              0x1103 (sample_world false) ltac:(apart_closed))
    as (_ & Hsp & Hx8 & _).
  cbv zeta. split; [|exact Hx8].
  etransitivity; [exact Hsp|]. vm_compute. reflexivity.
Defined.

(** *** What each function does to the kernel, in order *)

Section Effects.

Context (E : environment).

Lemma effects_app es1 es2 : effects (es1 ++ es2) = effects es1 ++ effects es2.
Proof. unfold effects. apply omap_app. Qed.

Lemma performs_ret {A} (a : A) w : performs (ret a) w [].
Proof. exists []. cbn. rewrite app_nil_r, !Nat.add_0_r. auto. Qed.

Lemma performs_bind_at {A B} (c : M A) (k : A -> M B) w l1 l2 :
  performs c w l1 ->
  performs (k (c w).1) (c w).2 l2 ->
  performs (bind c k) w (l1 ++ l2).
Proof.
  intros (es1 & Hlog1 & Hfx1 & Hheap1 & Hclk1)
         (es2 & Hlog2 & Hfx2 & Hheap2 & Hclk2).
  exists (es1 ++ es2). rewrite bind_run.
  rewrite Hlog2, Hlog1, Hheap2, Hheap1, Hclk2, Hclk1.
  rewrite effects_app, Hfx1, Hfx2, !List.filter_app, !length_app.
  rewrite app_assoc. repeat split; lia.
Qed.

Lemma performs_bind {A B} (c : M A) (k : A -> M B) w l1 l2 :
  performs c w l1 ->
  (forall a w', performs (k a) w' l2) ->
  performs (bind c k) w (l1 ++ l2).
Proof. intros Hc Hk. apply performs_bind_at; [exact Hc | apply Hk]. Qed.

Lemma performs_log_mono {A} (c : M A) w l e :
  performs c w l -> In e (wlog w) -> In e (wlog (c w).2).
Proof.
  intros (es & Hlog & _) Hin. rewrite Hlog. apply in_or_app. now left.
Qed.

Lemma bind_post {A B} (P : B * world -> Prop) (c : M A) (k : A -> M B) w :
  (forall a w', P (k a w')) -> P (bind c k w).
Proof. intros H. rewrite bind_run. apply H. Qed.

Lemma performs_eq {A} (c : M A) w l l' :
  performs c w l -> l = l' -> performs c w l'.
Proof. now intros H <-. Qed.

Lemma performs_emit e w :
  match effect_of e with
  | Some f => is_alloc f = false /\ is_yield f = false
  | None => True
  end ->
  performs (emit e) w (effects [e]).
Proof.
  intros He. exists [e]. cbn [emit snd wlog wheap wclock logged].
  split; [reflexivity|]. split; [reflexivity|].
  unfold effects. cbn. destruct (effect_of e) as [f|].
  - destruct He as [Ha Hy]. cbn. rewrite Ha, Hy. cbn. lia.
  - cbn. lia.
Qed.

Lemma performs_emit_callback c w :
  performs (emit (EvCallback c)) w [FxCallback].
Proof. now apply (performs_emit (EvCallback c)). Qed.

Lemma performs_printf fmt args w : performs (printf fmt args) w [].
Proof. now apply (performs_emit (EvPrintf fmt args)). Qed.

Lemma performs_rk64 a w : performs (rk64 a) w [].
Proof. exists [EvRk64 a]. cbn. repeat split; lia. Qed.

Lemma performs_rk32 a w : performs (rk32 a) w [].
Proof. exists [EvRk32 a]. cbn. repeat split; lia. Qed.

Lemma performs_kmemcpy_from a n w : performs (kmemcpy_from a n) w [].
Proof. exists [EvKmemcpyFrom a n]. cbn. repeat split; lia. Qed.

Lemma performs_wk64 a v w : performs (wk64 a v) w [FxWrite64].
Proof. exists [EvWk64 a v]. cbn. repeat split; lia. Qed.

Lemma performs_wk32 a v w : performs (wk32 a v) w [FxWrite32].
Proof. exists [EvWk32 a v]. cbn. repeat split; lia. Qed.

Lemma performs_kmemcpy_to dst buf n w :
  performs (kmemcpy_to dst buf n) w [FxCopyToKernel].
Proof. exists [EvKmemcpyTo dst (take n buf)]. cbn. repeat split; lia. Qed.

Lemma performs_early_kalloc size w :
  performs (early_kalloc E size) w [FxAlloc size].
Proof.
  exists [EvEarlyKalloc size (early_kalloc_nth E (wheap w) size)].
  cbn. repeat split; lia.
Qed.

Lemma performs_off_core e f w :
  effect_of e = Some f -> is_alloc f = false -> is_yield f = true ->
  performs (bind (emit e) (fun _ => off_core E)) w [f].
Proof.
  intros He Ha Hy. exists [e]. rewrite bind_run, emit_run. cbn [fst snd].
  rewrite off_core_wlog, off_core_wheap, off_core_wclock.
  cbn [wlog wheap wclock logged]. unfold effects. cbn. rewrite He.
  cbn. rewrite Ha, Hy. cbn. repeat split; lia.
Qed.

Lemma performs_kcall fn args w : performs (kcall E fn args) w [FxKcall fn].
Proof. now apply (performs_off_core (EvKcall fn args)). Qed.

Lemma performs_sleep s w : performs (sleep E s) w [FxSleep].
Proof. now apply (performs_off_core (EvSleep s)). Qed.

Lemma performs_thread_switch p w :
  performs (thread_switch E p) w [FxThreadSwitch].
Proof. now apply (performs_off_core (EvThreadSwitch p)). Qed.

Lemma performs_pthread_join w : performs (pthread_join E) w [FxJoin].
Proof. now apply (performs_off_core EvPthreadJoin). Qed.

Lemma performs_swtch_pri w : performs (swtch_pri E) w [FxSwtchPri].
Proof. now apply (performs_off_core EvSwtchPri). Qed.

Lemma performs_thread_set_state port st w :
  performs (thread_set_state E port st) w [FxSetState].
Proof. exists [EvThreadSetState port st]. cbn. repeat split; lia. Qed.

Lemma performs_thread_get_state port w :
  performs (thread_get_state E port) w [].
Proof. exists [EvThreadGetState port]. cbn. repeat split; lia. Qed.

Lemma performs_write_syscall_complete b w :
  performs (write_syscall_complete b) w [].
Proof. exists []. cbn. rewrite app_nil_r. repeat split; lia. Qed.

Lemma performs_when b (c : M unit) w :
  (forall w', performs c w' []) -> performs (when b c) w [].
Proof. intros Hc. destruct b; [apply Hc | apply performs_ret]. Qed.

Ltac performs_seq L :=
  eapply performs_bind; [apply L | intros ? ?].

Lemma performs_pin_current_thread w :
  performs (pin_current_thread E) w [FxWrite64; FxSwtchPri].
Proof.
  eapply performs_eq.
  - unfold pin_current_thread.
    performs_seq performs_rk64. performs_seq performs_rk64.
    performs_seq performs_printf. performs_seq performs_wk64.
    performs_seq performs_printf. performs_seq performs_swtch_pri.
    performs_seq performs_printf. performs_seq performs_rk64.
    performs_seq performs_printf. apply performs_ret.
  - reflexivity.
Qed.

Lemma performs_do_syscall args w :
  performs (do_syscall_with_pstate_d_unmasked E args) w
    [FxAlloc (Z.of_nat (sizeof_arm_context_t E)); FxCopyToKernel;
     FxAlloc (Z.of_nat (sizeof_arm_context_t E)); FxCopyToKernel;
     FxKcall (ksym E KSYMBOL_X21_JOP_GADGET)].
Proof.
  eapply performs_eq.
  - unfold do_syscall_with_pstate_d_unmasked.
    performs_seq performs_early_kalloc. performs_seq performs_kmemcpy_to.
    performs_seq performs_rk64. performs_seq performs_rk64.
    performs_seq performs_early_kalloc. performs_seq performs_kmemcpy_to.
    apply performs_kcall.
  - reflexivity.
Qed.

Lemma performs_set_MDSCR_EL1_KDE port w :
  performs (set_MDSCR_EL1_KDE E port) w
    [FxAlloc 0x1000; FxCopyToKernel;
     FxAlloc (Z.of_nat (sizeof_arm_context_t E)); FxCopyToKernel;
     FxKcall (ksym E KSYMBOL_X21_JOP_GADGET)].
Proof.
  eapply performs_eq.
  - unfold set_MDSCR_EL1_KDE.
    performs_seq performs_early_kalloc. performs_seq performs_kmemcpy_to.
    performs_seq performs_early_kalloc. performs_seq performs_kmemcpy_to.
    performs_seq performs_kcall. apply performs_printf.
  - reflexivity.
Qed.

Lemma performs_arm_breakpoint bp w :
  performs (arm_breakpoint E bp) w [FxSetState; FxWrite32].
Proof.
  eapply performs_eq.
  - unfold arm_breakpoint, set_hw_breakpoint, set_mode_control_any.
    eapply performs_bind.
    + performs_seq performs_thread_set_state.
      performs_seq performs_thread_get_state.
      apply performs_when. intros. apply performs_printf.
    + intros ? ?.
      performs_seq performs_rk64. performs_seq performs_printf.
      performs_seq performs_rk64. performs_seq performs_rk64.
      performs_seq performs_printf. performs_seq performs_rk32.
      performs_seq performs_printf. performs_seq performs_wk32.
      performs_seq performs_printf. apply performs_ret.
  - reflexivity.
Qed.

Lemma performs_get_mem w : performs get_mem w [].
Proof. exists []. cbn. rewrite app_nil_r. repeat split; lia. Qed.

Lemma performs_put_mem m w : performs (put_mem m) w [].
Proof. exists []. cbn. rewrite app_nil_r. repeat split; lia. Qed.

Lemma performs_write_kernel_leak v w : performs (write_kernel_leak v) w [].
Proof. exists []. cbn. rewrite app_nil_r. repeat split; lia. Qed.

Lemma performs_emit_all es w :
  effects es = [] -> performs (emit_all es) w [].
Proof.
  intros Hes. exists es. cbn [emit_all snd].
  rewrite foldl_logged_wlog, foldl_logged_wheap, foldl_logged_wclock.
  cbn. repeat split; [exact Hes | lia | lia].
Qed.

Lemma effects_context_words_log c : effects (context_words_log c) = [].
Proof. reflexivity. Qed.

Lemma performs_locate_trap_from n bp breakpoint w :
  performs (locate_trap_from E n bp breakpoint) w [].
Proof.
  revert bp w. induction n as [|n IH]; intros bp w; cbn [locate_trap_from].
  - apply performs_ret.
  - apply (performs_bind_at _ _ _ [] []); [apply performs_rk64|].
    destruct (negb _); [apply IH|].
    eapply performs_eq.
    + performs_seq performs_kmemcpy_from.
      eapply performs_bind.
      * apply performs_emit_all, effects_context_words_log.
      * intros ? ?. eapply performs_bind.
        -- apply performs_when. intros. apply performs_printf.
        -- intros ? ?. apply performs_ret.
    + reflexivity.
Qed.

Lemma performs_handle_hit port looper breakpoint callback w :
  performs (handle_hit E port looper breakpoint callback) w hit_effects.
Proof.
  eapply performs_eq.
  - unfold handle_hit, locate_trap, dispatch_callback, patch_and_resume,
           patch_snapshots.
    performs_seq performs_locate_trap_from.
    eapply performs_bind.
    { apply performs_when. intros. apply performs_printf. }
    intros ? ?. eapply performs_bind.
    { performs_seq performs_kmemcpy_from. performs_seq performs_printf.
      performs_seq performs_write_kernel_leak.
      performs_seq performs_emit_callback.
      performs_seq performs_get_mem.
      performs_seq performs_put_mem. apply performs_ret. }
    intros ? ?. eapply performs_bind.
    { performs_seq performs_kmemcpy_to. apply performs_wk64. }
    intros ? ?. performs_seq performs_thread_switch.
    apply performs_swtch_pri.
  - reflexivity.
Qed.

Lemma performs_wait_spin fuel thread_t_addr looper_pc w :
  performs (wait_spin E fuel thread_t_addr looper_pc) w
    (spin_tail (wait_spin E fuel thread_t_addr looper_pc w).1).
Proof.
  revert w. induction fuel as [|fuel IH]; intros w.
  - apply performs_ret.
  - unfold performs. destruct (syscall_complete w) eqn:Hc.
    { rewrite wait_spin_complete by exact Hc. cbn [fst snd spin_tail].
      exists []. rewrite app_nil_r. cbn. repeat split; lia. }
    destruct (decide (polled_sp E (wmem w) thread_t_addr = 0)) as [Hsp|Hsp].
    { rewrite wait_spin_null_sp_step by assumption.
      destruct (IH (foldl logged w (null_sp_log E (wmem w) thread_t_addr)))
        as (es & Hlog & Hfx & Hheap & Hclk).
      exists (null_sp_log E (wmem w) thread_t_addr ++ es).
      rewrite Hlog, Hheap, Hclk, foldl_logged_wlog, foldl_logged_wheap,
              foldl_logged_wclock, effects_app, Hfx, app_assoc.
      repeat split. }
    destruct (scan_stack E
                (stack_of_bytes
                   (load_bytes (wmem w) (polled_sp E (wmem w) thread_t_addr) 1024))
                looper_pc).1 as [i|] eqn:Hscan.
    + rewrite (wait_spin_found_run E fuel _ _ _ i) by assumption.
      cbn [fst snd spin_tail]. eexists.
      rewrite foldl_logged_wlog, foldl_logged_wheap, foldl_logged_wclock.
      split; [reflexivity|]. cbn. repeat split; lia.
    + rewrite wait_spin_not_found_run by assumption.
      cbn [fst snd spin_tail]. eexists.
      rewrite off_core_wlog, off_core_wheap, off_core_wclock.
      rewrite foldl_logged_wlog, foldl_logged_wheap, foldl_logged_wclock.
      split; [reflexivity|]. cbn. repeat split; lia.
Qed.

Lemma performs_handle_loop (fuel : nat)
    (port thread_t_addr looper_pc breakpoint : Z)
    (callback : breakpoint_callback) (w : world) :
  exists n : nat,
    (n <= fuel)%nat /\
    performs (handle_loop E fuel port thread_t_addr looper_pc breakpoint callback)
      w
      (concat (replicate n hit_effects) ++
       exit_tail (handle_loop E fuel port thread_t_addr looper_pc breakpoint
                              callback w).1).
Proof.
  revert w. induction fuel as [|fuel IH]; intros w.
  - exists 0%nat. split; [lia|]. apply performs_ret.
  - cbn [handle_loop]. rewrite bind_run.
    pose proof (performs_wait_spin (S fuel) thread_t_addr looper_pc w) as Hspin.
    destruct (wait_spin E (S fuel) thread_t_addr looper_pc w) as [r w1] eqn:Hr.
    cbn [fst snd] in *.
    assert (Hbind : forall (k : spin_result -> M monitor_exit) l,
              performs (k r) w1 l ->
              performs (bind (wait_spin E (S fuel) thread_t_addr looper_pc) k)
                       w (spin_tail r ++ l)).
    { intros k l Hk. apply performs_bind_at; [exact Hspin|].
      rewrite Hr. exact Hk. }
    destruct r as [| |looper|].
    + exists 0%nat. split; [lia|].
      apply (Hbind _ []). apply performs_ret.
    + exists 0%nat. split; [lia|].
      eapply performs_eq; [apply (Hbind _ []); apply performs_ret|reflexivity].
    + rewrite bind_run.
      destruct (IH (handle_hit E port looper breakpoint callback w1).2)
        as (n & Hn & Hloop).
      exists (S n). split; [lia|].
      eapply performs_eq.
      * apply Hbind. apply performs_bind_at.
        -- apply performs_handle_hit.
        -- exact Hloop.
      * cbn [spin_tail replicate concat app]. rewrite <- !app_assoc.
        reflexivity.
    + exists 0%nat. split; [lia|].
      apply (Hbind _ []). apply performs_ret.
Qed.

End Effects.

(** *** The monitor and the drivers, by their effects *)

Section Protocol.

Context (E : environment).

Lemma filter_alloc_hits n :
  length (List.filter is_alloc (concat (replicate n hit_effects))) = 0%nat.
Proof. induction n as [|n IH]; [reflexivity | exact IH]. Qed.

Lemma filter_yield_hits n :
  length (List.filter is_yield (concat (replicate n hit_effects))) = (2 * n)%nat.
Proof.
  induction n as [|n IH]; [reflexivity|].
  cbn [replicate concat]. rewrite List.filter_app, length_app, IH.
  cbn. lia.
Qed.

Lemma filter_alloc_exit_tail x :
  length (List.filter is_alloc (exit_tail x)) = 0%nat.
Proof. now destruct x. Qed.

Lemma performs_monitor_thread (fuel : nat) (port breakpoint : Z)
    (callback : breakpoint_callback) (w : world) :
  exists n : nat,
    (n <= fuel)%nat /\
    performs (monitor_thread E fuel port breakpoint callback) w
      ([FxWrite64; FxSwtchPri] ++ concat (replicate n hit_effects) ++
       exit_tail (monitor_thread E fuel port breakpoint callback w).1).
Proof.
  unfold monitor_thread, handle_kernel_bp_hits.
  rewrite !bind_run.
  match goal with
  | |- context [ handle_loop E fuel port ?th ?pc breakpoint callback ?W ] =>
      destruct (performs_handle_loop E fuel port th pc breakpoint callback W)
        as (n & Hn & Hloop)
  end.
  exists n. split; [exact Hn|].
  eapply performs_eq.
  - apply performs_bind_at; [apply performs_printf|].
    apply performs_bind_at; [apply performs_pin_current_thread|].
    apply performs_bind_at; [apply performs_printf|].
    apply performs_bind_at; [apply performs_rk64|].
    exact Hloop.
  - reflexivity.
Qed.

(** X11.  Whatever it finds, [monitor_thread] does to the kernel only this,
    apart from what the callback does on its own: it binds itself to cpu 0
    and yields; then for each hit it handles, and there are at most [fuel]
    in [fuel] rounds, it calls the callback, copies one context into the
    kernel, writes one doubleword and yields twice; and it sleeps once if
    it gives up.  It allocates nothing and makes no kernel call. *)
Theorem monitor_thread_only_patches_and_yields
    (fuel : nat) (port breakpoint : Z) (callback : breakpoint_callback)
    (w : world) :
  let r := monitor_thread E fuel port breakpoint callback w in
  exists (n : nat) (es : list event),
    (n <= fuel)%nat /\
    wlog r.2 = wlog w ++ es /\
    effects es =
      [FxWrite64; FxSwtchPri] ++ concat (replicate n hit_effects) ++
      exit_tail r.1 /\
    (forall size : Z, ~ In (FxAlloc size) (effects es)) /\
    (forall fn : Z, ~ In (FxKcall fn) (effects es)) /\
    wheap r.2 = wheap w /\
    wclock r.2 = (wclock w + 1 + 2 * n + length (exit_tail r.1))%nat.
Proof.
  intros r.
  destruct (performs_monitor_thread fuel port breakpoint callback w)
    as (n & Hn & es & Hlog & Hfx & Hheap & Hclk).
  fold r in Hlog, Hfx, Hheap, Hclk.
  exists n, es. split; [exact Hn|]. split; [exact Hlog|].
  split; [exact Hfx|].
  assert (Hin : forall f, In f (effects es) ->
            f = FxWrite64 \/ f = FxSwtchPri \/ In f hit_effects \/ f = FxSleep).
  { intros f. rewrite Hfx, !in_app_iff. intros [Hf | [Hf | Hf]].
    - destruct Hf as [<-|[<-|[]]]; tauto.
    - apply in_concat in Hf as (l & Hl & Hf).
      apply list_elem_of_In, elem_of_replicate in Hl as [-> _]. tauto.
    - destruct r.1; cbn in Hf; try tauto.
      destruct Hf as [<-|[]]. tauto. }
  split; [|split; [|split]].
  - intros size Hf. apply Hin in Hf. cbn in Hf.
    repeat (destruct Hf as [Hf|Hf]; try discriminate Hf); exact Hf.
  - intros fn Hf. apply Hin in Hf. cbn in Hf.
    repeat (destruct Hf as [Hf|Hf]; try discriminate Hf); exact Hf.
  - rewrite Hheap, !List.filter_app, !length_app, filter_alloc_hits,
            filter_alloc_exit_tail. cbn. lia.
  - rewrite Hclk, !List.filter_app, !length_app, filter_yield_hits.
    destruct r.1; cbn; lia.
Qed.

Lemma handle_loop_complete fuel port thread_t_addr looper_pc breakpoint
    callback w :
  syscall_complete w = true ->
  handle_loop E (S fuel) port thread_t_addr looper_pc breakpoint callback w
  = (ExitComplete, w).
Proof.
  intros Hc. cbn [handle_loop]. rewrite bind_run.
  now rewrite wait_spin_complete by exact Hc.
Qed.

Lemma marshal_in_bounds syscall_number n_args ap :
  (n_args <= 8)%nat ->
  exists sargs,
    (marshal_syscall_args syscall_number n_args ap).2 = Some sargs.
Proof.
  intros Hn.
  destruct (marshal_from_spec ap n_args 0 (replicate 8 0))
    as (arg' & Hrun & _).
  { rewrite length_replicate. lia. }
  exists {| number := syscall_number; arg := arg' |}.
  unfold marshal_syscall_args. now rewrite Hrun.
Qed.

Ltac post_bind := apply bind_post; intros ? ?.

(** X12.  [raw_syscall] with at most 8 arguments: it binds the thread to cpu 0
    and yields, takes two blocks from the allocator for the two forged
    contexts and makes one kernel call, in that order, and returns with
    [syscall_complete] set whatever the other threads did to the flag
    meanwhile; so a monitor polling afterwards returns at once. *)
Theorem raw_syscall_sets_flag_after_one_call
    (syscall_number : Z) (n_args : nat) (ap : va_list) (w : world) :
  let size := Z.of_nat (sizeof_arm_context_t E) in
  let r := raw_syscall E syscall_number n_args ap w in
  (n_args <= 8)%nat ->
  r.1 = true /\
  syscall_complete r.2 = true /\
  (exists es : list event,
     wlog r.2 = wlog w ++ es /\
     effects es =
       [FxWrite64; FxSwtchPri;
        FxAlloc size; FxCopyToKernel; FxAlloc size; FxCopyToKernel;
        FxKcall (ksym E KSYMBOL_X21_JOP_GADGET)]) /\
  wheap r.2 = (wheap w + 2)%nat /\
  wclock r.2 = (wclock w + 2)%nat /\
  (forall (fuel : nat) (port thread_t_addr looper_pc breakpoint : Z)
          (callback : breakpoint_callback),
     handle_loop E (S fuel) port thread_t_addr looper_pc breakpoint callback r.2
     = (ExitComplete, r.2)).
Proof.
  intros size r Hn.
  destruct (marshal_in_bounds syscall_number n_args ap Hn) as (sargs & Hm).
  assert (Hflag : r.1 = true /\ syscall_complete r.2 = true).
  { unfold r, raw_syscall. rewrite Hm.
    post_bind. post_bind. post_bind. now cbn. }
  assert (Hfx : performs (raw_syscall E syscall_number n_args ap) w
            [FxWrite64; FxSwtchPri;
             FxAlloc size; FxCopyToKernel; FxAlloc size; FxCopyToKernel;
             FxKcall (ksym E KSYMBOL_X21_JOP_GADGET)]).
  { eapply performs_eq.
    - unfold raw_syscall. rewrite Hm.
      eapply performs_bind; [apply performs_pin_current_thread | intros ? ?].
      eapply performs_bind; [apply performs_write_syscall_complete | intros ? ?].
      eapply performs_bind; [apply performs_do_syscall | intros ? ?].
      eapply performs_bind; [apply performs_write_syscall_complete | intros ? ?].
      eapply performs_bind; [apply performs_printf | intros ? ?].
      apply performs_ret.
    - reflexivity. }
  destruct Hfx as (es & Hlog & Hes & Hheap & Hclk). fold r in Hlog, Hheap, Hclk.
  destruct Hflag as [Hret Hc].
  split; [exact Hret|]. split; [exact Hc|].
  split; [exists es; split; assumption|].
  split; [exact Hheap|]. split; [exact Hclk|].
  intros. now apply handle_loop_complete.
Qed.

(** X13.  [run_syscall_with_breakpoint] with at most 8 arguments does things
    in this order: bind to cpu 0 and yield; build the ROP stack and the
    context that sets the KDE bit and call into the kernel; set the
    breakpoint through [thread_set_state] and patch its control word; create
    the monitor thread; build the two contexts of the syscall and call into
    the kernel; join the monitor.  It takes four blocks from the allocator
    and leaves the core four times, the join included.  When it blocks in
    the join it has set [syscall_complete], so a monitor polling the state
    it left there returns at once; what the flag and kernel memory are when
    the function returns is what the other threads made of that state
    during the join. *)
Theorem run_syscall_with_breakpoint_arms_before_call
    (bp_address syscall_number : Z) (n_args : nat) (ap : va_list) (w : world) :
  let size := Z.of_nat (sizeof_arm_context_t E) in
  let r := run_syscall_with_breakpoint E bp_address syscall_number n_args ap w in
  (n_args <= 8)%nat ->
  r.1 = true /\
  (exists es : list event,
     wlog r.2 = wlog w ++ es /\
     effects es =
       [FxWrite64; FxSwtchPri;
        FxAlloc 0x1000; FxCopyToKernel; FxAlloc size; FxCopyToKernel;
        FxKcall (ksym E KSYMBOL_X21_JOP_GADGET);
        FxSetState; FxWrite32;
        FxCreate;
        FxAlloc size; FxCopyToKernel; FxAlloc size; FxCopyToKernel;
        FxKcall (ksym E KSYMBOL_X21_JOP_GADGET);
        FxJoin]) /\
  wheap r.2 = (wheap w + 4)%nat /\
  wclock r.2 = (wclock w + 4)%nat /\
  (exists at_join : world,
     syscall_complete at_join = true /\
     wlog r.2 = wlog at_join ++ [EvPthreadJoin; EvPrintf "monitor exited" []] /\
     wclock r.2 = S (wclock at_join) /\
     (wmem r.2, syscall_complete r.2)
       = other_threads E (wclock at_join) (wmem at_join, true) /\
     (forall (fuel : nat) (port thread_t_addr looper_pc breakpoint : Z)
             (callback : breakpoint_callback),
        handle_loop E (S fuel) port thread_t_addr looper_pc breakpoint callback
                    at_join
        = (ExitComplete, at_join))).
Proof.
  intros size r Hn.
  destruct (marshal_in_bounds syscall_number n_args ap Hn) as (sargs & Hm).
  assert (Hret : r.1 = true).
  { unfold r, run_syscall_with_breakpoint. rewrite Hm.
    do 11 post_bind. reflexivity. }
  assert (Hjoin : exists at_join : world,
     syscall_complete at_join = true /\
     wlog r.2 = wlog at_join ++ [EvPthreadJoin; EvPrintf "monitor exited" []] /\
     wclock r.2 = S (wclock at_join) /\
     (wmem r.2, syscall_complete r.2)
       = other_threads E (wclock at_join) (wmem at_join, true)).
  { unfold r, run_syscall_with_breakpoint. rewrite Hm.
    do 7 post_bind.
    rewrite bind_run. cbn [write_syscall_complete fst snd].
    rewrite bind_run, printf_run. cbn [fst snd].
    match goal with
    | |- context [ bind (pthread_join E) _ ?W ] => exists W; set (at_join := W)
    end.
    assert (Hc : syscall_complete at_join = true) by reflexivity.
    rewrite bind_run. unfold pthread_join at 1 2.
    rewrite (bind_run (emit EvPthreadJoin)), emit_run. cbn [fst snd].
    pose proof (off_core_state E (logged at_join EvPthreadJoin)) as Hst.
    pose proof (off_core_wclock E (logged at_join EvPthreadJoin)) as Hclk.
    pose proof (off_core_wlog E (logged at_join EvPthreadJoin)) as Hlog.
    cbn [wmem syscall_complete wclock wlog logged] in Hst, Hclk, Hlog.
    rewrite Hc in Hst.
    rewrite bind_run, printf_run. cbn [fst snd ret].
    cbn [wmem syscall_complete wclock wlog logged].
    rewrite Hlog, <- app_assoc.
    split; [exact Hc|]. split; [reflexivity|]. split; [exact Hclk | exact Hst]. }
  assert (Hfx : performs
            (run_syscall_with_breakpoint E bp_address syscall_number n_args ap) w
            [FxWrite64; FxSwtchPri;
             FxAlloc 0x1000; FxCopyToKernel; FxAlloc size; FxCopyToKernel;
             FxKcall (ksym E KSYMBOL_X21_JOP_GADGET);
             FxSetState; FxWrite32;
             FxCreate;
             FxAlloc size; FxCopyToKernel; FxAlloc size; FxCopyToKernel;
             FxKcall (ksym E KSYMBOL_X21_JOP_GADGET);
             FxJoin]).
  { eapply performs_eq.
    - unfold run_syscall_with_breakpoint. rewrite Hm.
      eapply performs_bind; [apply performs_pin_current_thread | intros ? ?].
      eapply performs_bind; [apply performs_set_MDSCR_EL1_KDE | intros ? ?].
      eapply performs_bind; [apply performs_arm_breakpoint | intros ? ?].
      eapply performs_bind;
        [apply (performs_emit (EvPthreadCreate (mach_thread_self E) bp_address));
         now cbn | intros ? ?].
      eapply performs_bind; [apply performs_printf | intros ? ?].
      eapply performs_bind; [apply performs_write_syscall_complete | intros ? ?].
      eapply performs_bind; [apply performs_do_syscall | intros ? ?].
      eapply performs_bind; [apply performs_write_syscall_complete | intros ? ?].
      eapply performs_bind; [apply performs_printf | intros ? ?].
      eapply performs_bind; [apply performs_pthread_join | intros ? ?].
      eapply performs_bind; [apply performs_printf | intros ? ?].
      apply performs_ret.
    - reflexivity. }
  destruct Hfx as (es & Hlog & Hes & Hheap & Hclk). fold r in Hlog, Hheap, Hclk.
  destruct Hjoin as (at_join & Hc & Hjlog & Hjclk & Hjst).
  split; [exact Hret|].
  split; [exists es; split; assumption|].
  split; [exact Hheap|]. split; [exact Hclk|].
  exists at_join. split; [exact Hc|]. split; [exact Hjlog|].
  split; [exact Hjclk|]. split; [exact Hjst|].
  intros. now apply handle_loop_complete.
Qed.

End Protocol.

Lemma raw_syscall_sets_flag_after_one_call_witness :
  let r := raw_syscall sample_environment 4 3
             (fun i => nth i [1; 0x100003f00; 11] 0) (sample_world false) in
  r.1 = true /\ syscall_complete r.2 = true /\ wheap r.2 = 2%nat.
Proof.
  destruct (raw_syscall_sets_flag_after_one_call
              sample_environment 4 3 (fun i => nth i [1; 0x100003f00; 11] 0)
              (sample_world false) ltac:(lia))
    as (Hret & Hc & _ & Hheap & _).
  cbv zeta. split; [exact Hret|]. split; [exact Hc | exact Hheap].
Defined.

Lemma run_syscall_with_breakpoint_arms_before_call_witness :
  let r := run_syscall_with_breakpoint sample_environment 0xfffffff0073f3f7c
             4 3 (fun i => nth i [1; 0x100003f00; 11] 0) (sample_world false) in
  r.1 = true /\ wheap r.2 = 4%nat /\ wclock r.2 = 4%nat.
Proof.
  destruct (run_syscall_with_breakpoint_arms_before_call
              sample_environment 0xfffffff0073f3f7c 4 3
              (fun i => nth i [1; 0x100003f00; 11] 0)
              (sample_world false) ltac:(lia))
    as (Hret & _ & Hheap & Hclk & _).
  cbv zeta. split; [exact Hret|]. split; [exact Hheap | exact Hclk].
Defined.

(** *** Arming when the read-back disagrees *)

Lemma set_hw_breakpoint_log (E : environment) (bp_address : Z) (w : world) :
  let self := mach_thread_self E in
  let st := {| bvr := <[0%nat := bp_address]> (replicate 16 0);
               bcr := <[0%nat := Z.lor BCR_BAS_ALL BCR_E]> (replicate 16 0) |} in
  let m1 := host_thread_set_state E (wmem w) self st in
  wlog (set_hw_breakpoint E bp_address w).2 =
  wlog w ++
  [EvThreadSetState self st; EvThreadGetState self] ++
  (if bvr (host_thread_get_state E m1 self) !!! 0%nat =? bp_address then []
   else [EvPrintf "setting the bp address failed" []]).
Proof.
  cbv zeta. unfold set_hw_breakpoint, zero_debug_state. cbn [bvr bcr].
  step thread_set_state_run. step thread_get_state_run.
  destruct (_ =? bp_address); cbn [negb when].
  - cbn [ret snd wlog logged with_mem]. rewrite <- ?app_assoc. reflexivity.
  - rewrite printf_run. cbn [snd wlog logged with_mem].
    rewrite <- ?app_assoc. reflexivity.
Qed.

(** X14.  When the state read back after [thread_set_state] does not carry the
    breakpoint address, the code prints that setting it failed and goes on
    all the same: the match-any-mode bits are written to the DebugData as
    in a run where the read-back agrees, and nothing else is done about
    it. *)
Theorem arm_breakpoint_goes_on_after_failed_readback
    (E : environment) (bp_address : Z) (w : world) :
  let self := mach_thread_self E in
  let st := {| bvr := <[0%nat := bp_address]> (replicate 16 0);
               bcr := <[0%nat := Z.lor BCR_BAS_ALL BCR_E]> (replicate 16 0) |} in
  let m1 := host_thread_set_state E (wmem w) self st in
  let readback := bvr (host_thread_get_state E m1 self) !!! 0%nat in
  let thread_t_addr :=
    load64 m1 (add64 (find_port_address E self MACH_MSG_TYPE_COPY_SEND)
                     (koffset E KSTRUCT_OFFSET_IPC_PORT_IP_KOBJECT)) in
  let DebugData := load64 m1 (add64 thread_t_addr (ACT_DEBUGDATA_OFFSET E)) in
  let bcr0 := load32 m1 (add64 DebugData (off_bcr0 E)) in
  let r := arm_breakpoint E bp_address w in
  wlog (set_hw_breakpoint E bp_address w).2 =
    wlog w ++
    [EvThreadSetState self st; EvThreadGetState self] ++
    (if readback =? bp_address then []
     else [EvPrintf "setting the bp address failed" []]) /\
  (readback <> bp_address ->
     In (EvPrintf "setting the bp address failed" []) (wlog r.2)) /\
  wmem r.2 =
    store32 m1 (add64 DebugData (off_bcr0 E))
            (Z.lor bcr0 ARM_DBG_CR_MODE_CONTROL_ANY) /\
  exists es : list event,
    wlog r.2 = wlog w ++ es /\ effects es = [FxSetState; FxWrite32].
Proof.
  intros self st m1 readback thread_t_addr DebugData bcr0 r.
  pose proof (set_hw_breakpoint_log E bp_address w) as Hlog.
  cbv zeta in Hlog. fold self st m1 readback in Hlog.
  split; [exact Hlog|]. split; [|split].
  - intros Hne. unfold r, arm_breakpoint. rewrite bind_run.
    assert (Hmode : performs (set_mode_control_any E)
                      (set_hw_breakpoint E bp_address w).2 [FxWrite32]).
    { eapply performs_eq.
      - unfold set_mode_control_any.
        eapply performs_bind; [apply performs_rk64 | intros ? ?].
        eapply performs_bind; [apply performs_printf | intros ? ?].
        eapply performs_bind; [apply performs_rk64 | intros ? ?].
        eapply performs_bind; [apply performs_rk64 | intros ? ?].
        eapply performs_bind; [apply performs_printf | intros ? ?].
        eapply performs_bind; [apply performs_rk32 | intros ? ?].
        eapply performs_bind; [apply performs_printf | intros ? ?].
        eapply performs_bind; [apply performs_wk32 | intros ? ?].
        eapply performs_bind; [apply performs_printf | intros ? ?].
        apply performs_ret.
      - reflexivity. }
    apply (performs_log_mono _ _ _ _ Hmode).
    rewrite Hlog. apply Z.eqb_neq in Hne. rewrite Hne.
    rewrite !in_app_iff. right. right. now left.
  - exact (proj2 (arm_breakpoint_run E bp_address w)).
  - destruct (performs_arm_breakpoint E bp_address w) as (es & He & Hfx & _).
    exists es. split; assumption.
Qed.

(** *** The scan at the end of its window *)

Section WindowEnd.

Context (E : environment).


(** X15.  The scan of WAIT_SPIN reads the [pc] of a candidate state through the
    end of the 128-word window: for a tagged word so near the end that the
    [pc] field of a state starting there lies past [stack[127]], whether the
    scan selects it is decided by what the monitor's frame holds beyond the
    array, not by anything copied from the kernel. *)
Theorem scan_selects_by_word_beyond_window
    (stack : list Z) (looper_pc : Z) (i : nat) :
  length stack = 128%nat ->
  (i < 128)%nat ->
  (128 <= i + off_pc E / 8)%nat ->
  (forall j : nat, stack !! j = Some (flavor_and_count_tag E) <-> j = i) ->
  (scan_stack E stack looper_pc).1 =
  if frame_beyond E (i + off_pc E / 8) =? looper_pc then Some i else None.
Proof.
  intros Hlen Hi Hpc Htag.
  pose proof (scan_stack_spec E stack looper_pc Hlen) as Hspec.
  pose proof (saved_state_pc_beyond E stack i ltac:(lia)) as Hbeyond.
  destruct (scan_stack E stack looper_pc) as [[k|] probes]; cbn [fst].
  - destruct Hspec as (_ & [Hk Hkpc] & _).
    apply Htag in Hk. subst k. rewrite Hbeyond in Hkpc.
    apply Z.eqb_eq in Hkpc. now rewrite Hkpc.
  - destruct Hspec as (Hnone & _).
    destruct (Z.eqb_spec (frame_beyond E (i + off_pc E / 8)) looper_pc)
      as [Heq|Hne]; [|reflexivity].
    exfalso. apply (Hnone i Hi). split.
    + now apply Htag.
    + now rewrite Hbeyond.
Qed.

End WindowEnd.

Lemma scan_selects_by_word_beyond_window_witness :
  (scan_stack sample_environment (replicate 127 0 ++ [sample_tag]) 0).1
  = Some 127%nat.
Proof.
  assert (Htag : forall j : nat,
            (replicate 127 0 ++ [sample_tag]) !! j
              = Some (flavor_and_count_tag sample_environment) <-> j = 127%nat).
  { intros j. destruct (decide (j = 127%nat)) as [->|Hne].
    - split; [reflexivity | intros _; vm_compute; reflexivity].
    - split; [|contradiction]. intros H. exfalso.
      destruct (decide (j < 127)%nat) as [Hlt|Hge].
      + rewrite lookup_app_l in H by (rewrite length_replicate; lia).
        rewrite lookup_replicate_2 in H by lia.
        vm_compute in H. discriminate H.
      + rewrite lookup_ge_None_2 in H
          by (rewrite length_app, length_replicate; cbn; lia).
        discriminate H. }
  rewrite (scan_selects_by_word_beyond_window sample_environment
             (replicate 127 0 ++ [sample_tag]) 0 127
             eq_refl ltac:(lia) ltac:(vm_compute; lia) Htag).
  reflexivity.
Defined.

(** *** A handled snapshot is not taken again *)



Section Reselect.

Context (E : environment) (HE : wf_environment E).


End Reselect.

(** *** The test *)

Section Test.

Context (E : environment) (HE : wf_environment E).

Lemma test_kdbg_request (hello_wrld_str : Z) :
  marshal_syscall_args 4 3 (fun i => nth i [1; hello_wrld_str; 11] 0)
  = ([0; 1; 2]%nat,
     Some {| number := 4; arg := [1; hello_wrld_str; 11; 0; 0; 0; 0; 0] |}).
Proof. reflexivity. Qed.

(** X17.  [test_kdbg] puts its breakpoint on the entry point of [write] and asks
    for [write(1, hello_wrld_str, 11)]: the state it hands to
    [thread_set_state] has that address in [bvr[0]] and the enabled
    all-bytes control word in [bcr[0]], and the entry context it copies into
    the kernel has [x16 = 4], [x0 = 1], [x1] the string, [x2 = 11] and
    [x3 .. x7] zero.  Three arguments never overrun the array. *)
Theorem test_kdbg_breaks_on_write_of_hello
    (hello_wrld_str : Z) (w : world) :
  0 <= hello_wrld_str < 2 ^ 64 ->
  let r := test_kdbg E hello_wrld_str w in
  let st :=
    {| bvr := <[0%nat := ksym E KSYMBOL_WRITE_SYSCALL_ENTRYPOINT]> (replicate 16 0);
       bcr := <[0%nat := 0x1e1]> (replicate 16 0) |} in
  r.1 = true /\
  In (EvThreadSetState (mach_thread_self E) st) (wlog r.2) /\
  exists (fake_kern : Z) (fake : arm_context_t),
    In (EvKmemcpyTo fake_kern fake) (wlog r.2) /\
    ctx_x E fake 16 = 4 /\
    ctx_x E fake 0 = 1 /\
    ctx_x E fake 1 = hello_wrld_str /\
    ctx_x E fake 2 = 11 /\
    (forall i : nat, (3 <= i < 8)%nat -> ctx_x E fake i = 0).
Proof.
  intros Hstr r st.
  set (sargs := {| number := 4; arg := [1; hello_wrld_str; 11; 0; 0; 0; 0; 0] |}).
  assert (Hret : r.1 = true).
  { unfold r, test_kdbg, run_syscall_with_breakpoint.
    rewrite test_kdbg_request. cbn [snd].
    do 10 (apply bind_post; intros ? ?). apply bind_post. intros ? ?.
    reflexivity. }
  assert (Htail : forall w',
    performs
      (bind (write_syscall_complete true) (fun _ =>
       bind (printf "syscall returned" []) (fun _ =>
       bind (pthread_join E) (fun _ =>
       bind (printf "monitor exited" []) (fun _ => ret true))))) w' [FxJoin]).
  { intros w'. eapply performs_eq.
    - eapply performs_bind; [apply performs_write_syscall_complete | intros ? ?].
      eapply performs_bind; [apply performs_printf | intros ? ?].
      eapply performs_bind; [apply performs_pthread_join | intros ? ?].
      eapply performs_bind; [apply performs_printf | intros ? ?].
      apply performs_ret.
    - reflexivity. }
  assert (Hcall : forall w',
    performs
      (bind (emit (EvPthreadCreate (mach_thread_self E)
                     (ksym E KSYMBOL_WRITE_SYSCALL_ENTRYPOINT))) (fun _ =>
       bind (printf "started monitor thread" []) (fun _ =>
       bind (write_syscall_complete false) (fun _ =>
       bind (do_syscall_with_pstate_d_unmasked E sargs) (fun _ =>
       bind (write_syscall_complete true) (fun _ =>
       bind (printf "syscall returned" []) (fun _ =>
       bind (pthread_join E) (fun _ =>
       bind (printf "monitor exited" []) (fun _ => ret true)))))))))
      w'
      [FxCreate;
       FxAlloc (Z.of_nat (sizeof_arm_context_t E)); FxCopyToKernel;
       FxAlloc (Z.of_nat (sizeof_arm_context_t E)); FxCopyToKernel;
       FxKcall (ksym E KSYMBOL_X21_JOP_GADGET); FxJoin]).
  { intros w'. eapply performs_eq.
    - eapply performs_bind;
        [apply (performs_emit (EvPthreadCreate _ _)); now cbn | intros ? ?].
      eapply performs_bind; [apply performs_printf | intros ? ?].
      eapply performs_bind; [apply performs_write_syscall_complete | intros ? ?].
      eapply performs_bind; [apply performs_do_syscall | intros ? ?].
      apply Htail.
    - reflexivity. }
  split; [exact Hret|]. split.
  - unfold r, test_kdbg, run_syscall_with_breakpoint.
    rewrite test_kdbg_request. cbn [snd]. fold sargs.
    apply bind_post. intros ? w1. apply bind_post. intros ? w2.
    rewrite bind_run.
    apply (performs_log_mono _ _ _ _ (Hcall _)).
    unfold arm_breakpoint. rewrite bind_run.
    assert (Hmode : performs (set_mode_control_any E)
              (set_hw_breakpoint E (ksym E KSYMBOL_WRITE_SYSCALL_ENTRYPOINT) w2).2
              [FxWrite32]).
    { eapply performs_eq.
      - unfold set_mode_control_any.
        eapply performs_bind; [apply performs_rk64 | intros ? ?].
        eapply performs_bind; [apply performs_printf | intros ? ?].
        eapply performs_bind; [apply performs_rk64 | intros ? ?].
        eapply performs_bind; [apply performs_rk64 | intros ? ?].
        eapply performs_bind; [apply performs_printf | intros ? ?].
        eapply performs_bind; [apply performs_rk32 | intros ? ?].
        eapply performs_bind; [apply performs_printf | intros ? ?].
        eapply performs_bind; [apply performs_wk32 | intros ? ?].
        eapply performs_bind; [apply performs_printf | intros ? ?].
        apply performs_ret.
      - reflexivity. }
    apply (performs_log_mono _ _ _ _ Hmode).
    rewrite set_hw_breakpoint_log.
    rewrite !in_app_iff. right. left. left. reflexivity.
  - assert (Hfake : exists fake_kern : Z,
              In (EvKmemcpyTo fake_kern (fake_syscall_args E sargs)) (wlog r.2)).
    { unfold r, test_kdbg, run_syscall_with_breakpoint.
      rewrite test_kdbg_request. cbn [snd]. fold sargs.
      do 6 (apply bind_post; intros ? ?).
      rewrite bind_run. eexists.
      apply (performs_log_mono _ _ _ _ (Htail _)).
      rewrite (do_syscall_log E sargs).
      rewrite in_app_iff. right. right. left. reflexivity. }
    destruct Hfake as (fake_kern & Hfake).
    exists fake_kern, (fake_syscall_args E sargs).
    split; [exact Hfake|].
    unfold fake_syscall_args, sargs.
    cbn [number arg lookup_total list_lookup_total].
    split; [field_read; reflexivity|].
    split; [field_read; reflexivity|].
    split; [field_read; apply Z.mod_small; exact Hstr|].
    split; [field_read; reflexivity|].
    intros i Hi.
    do 3 (destruct i as [|i]; [lia|]).
    do 5 (destruct i as [|i]; [field_read; reflexivity|]).
    lia.
Qed.

End Test.


Lemma test_kdbg_breaks_on_write_of_hello_witness :
  (test_kdbg sample_environment 0x100003f00 (sample_world false)).1 = true.
Proof.
  exact (proj1 (test_kdbg_breaks_on_write_of_hello
                  sample_environment sample_environment_wf
                  0x100003f00 (sample_world false) ltac:(lia))).
Defined.
